(** * TrendFire: a model of the Earth Engine trend pipeline

    [TrendFire.py] never touches a pixel itself.  It reads one shapefile,
    builds Earth Engine expression graphs through the client library and
    submits export tasks.  The development follows that split:

    - the client objects ([ee.Image], [ee.ImageCollection], [ee.Number],
      [ee.Date]) are data: an image is an ordered list of named bands, each
      band holding the expression the server will evaluate;
    - every Python function of the script is a Rocq function over these
      objects, written call by call as in the source;
    - [eval] gives the per-pixel meaning of a band expression over the
      reals, so that statements about formulas are statements about values;
    - the effectful part (file system, authentication, task submission,
      printing) runs in a small exception-and-trace monad. *)

From Stdlib Require Import String Ascii List Bool ZArith QArith Reals Lra Lia.
Import ListNotations.

Close Scope Q_scope.
Close Scope R_scope.
Open Scope list_scope.
Open Scope string_scope.

(** Python's ["\n"]. *)
Definition nl : string := String (ascii_of_nat 10) EmptyString.

(* ================================================================== *)
(** ** Band selectors

    [ee.Image.select] takes band names or regular expressions which must
    match a whole band name.  The script uses literal names and the three
    patterns ['SR_B.'], ['ST_B.*'] and ['QA_.*'], so the matcher covers
    literal characters, the wildcard [.] and the postfix star. *)

Module Regex.

Inductive atom := AnyChar | Lit (c : ascii).
Inductive tok := One (a : atom) | Star (a : atom).

Definition atom_of (c : ascii) : atom :=
    if Ascii.eqb c "."%char then AnyChar else Lit c.

Definition atom_ok (a : atom) (c : ascii) : bool :=
    match a with
    | AnyChar => true
    | Lit d => Ascii.eqb d c
    end.

Fixpoint tokenize (p : list ascii) : list tok :=
    match p with
    | [] => []
    | c :: rest =>
        match rest with
        | star :: rest' =>
            if Ascii.eqb star "*"%char
            then Star (atom_of c) :: tokenize rest'
            else One (atom_of c) :: tokenize rest
        | [] => [One (atom_of c)]
        end
    end.

Fixpoint match_toks (ts : list tok) (s : list ascii) : bool :=
    match ts with
    | [] => match s with [] => true | _ => false end
    | One a :: ts' =>
        match s with
        | c :: s' => atom_ok a c && match_toks ts' s'
        | [] => false
        end
    | Star a :: ts' =>
        (fix star (s : list ascii) : bool :=
           match_toks ts' s
           || match s with
              | c :: s' => atom_ok a c && star s'
              | [] => false
              end) s
    end.

Definition matches (pattern name : string) : bool :=
    match_toks (tokenize (list_ascii_of_string pattern))
               (list_ascii_of_string name).

End Regex.

(* ================================================================== *)
(** ** Geometries on the Earth Engine side *)

(** [ee.Geometry.Polygon(coords)]: a list of linear rings, each a list of
    positions, each a list of numbers. *)
Record ee_geometry := EEPolygon { coordinates : list (list (list Q)) }.

(** The region argument of [reduceRegion]: either the footprint of the
    image being reduced ([image.geometry()]) or a geometry built by the
    client. *)
Inductive region :=
| ImageFootprint
| Region (g : ee_geometry).

(* ================================================================== *)
(** ** Expression graphs *)

Inductive unop :=
| Exp                         (* .exp() *)
| Sqrt                        (* sqrt(...) inside an expression string *)
| Float                       (* .float() *)
| ClipTo (g : ee_geometry).   (* .clip(g) *)

Inductive binop :=
| Add | Subtract | Multiply | Divide
| BitwiseAnd | Eq | And
| NormalizedDifference        (* (a - b) / (a + b) *)
| UpdateMask.                 (* value of the left where the right is non-zero *)

(** One type serves for pixel-valued and scalar expressions: a scalar
    ([ee.Number], a date in milliseconds) is an expression that does not
    depend on the pixel.  [source] describes which images a collection
    holds; what is done to each of them lives in the element image of the
    collection (see [ImageCollection] below). *)
Inductive expr :=
| Band (b : string)              (* raw band [b] of the catalog image *)
| Property (p : string)          (* property [p] of the catalog image *)
| Elem                           (* the element an [ee.List] is mapped over *)
| Null
| ConstI (z : Z)                 (* Python int literal *)
| ConstF (q : Q)                 (* Python float literal *)
| Un (o : unop) (e : expr)
| Bin (o : binop) (e1 e2 : expr)
| DateParse (s : string)         (* ee.Date('YYYY-MM-DD'), in ms *)
| MillisFromYMD (y m d : expr)   (* ee.Date.fromYMD(y, m, d).millis() *)
| DateDiff (d1 d2 : expr) (unit : string)   (* d1.difference(d2, unit) *)
| ReduceRegion (reducer output : string) (e : expr) (g : region) (scale : Z)
               (maxPixels : option Q)
| ReduceColl (reducer : string) (c : source) (e : expr)
| LinearFit (output : string) (c : source) (x y : expr)
with source :=
| Catalog (id : string)
| FilterDate (start stop : string) (c : source)
| FilterBounds (g : ee_geometry) (c : source)
| FilterMetadata (name operator : string) (value : Z) (c : source)
| FilterCalendarRange (start stop : expr) (field : string) (c : source)
| SortBy (property : string) (c : source)
| FromSequence (first last : Z).   (* fromImages(ee.List.sequence(a, b).map(f)) *)

(* ================================================================== *)
(** ** Images *)

Record Image := mkImage {
  bands : list (string * expr);
  props : string -> option expr
}.

Definition bandNames (img : Image) : list string := map fst (bands img).

(** Python passes either a number or an image to the arithmetic methods. *)
Inductive operand :=
| Num (e : expr)
| Img (i : Image).

(** The image of a catalog collection with band list [schema], before the
    script has done anything to it. *)
Definition catalog_image (schema : list string) : Image :=
  {| bands := map (fun b => (b, Band b)) schema;
     props := fun p => Some (Property p) |}.

Definition no_props : string -> option expr := fun _ => None.

(** [image.select(selectors)]: for every selector in turn, the bands it
    matches, in image order. *)
Definition select (selectors : list string) (img : Image) : Image :=
  {| bands := flat_map (fun s =>
                filter (fun b => Regex.matches s (fst b)) (bands img))
              selectors;
     props := props img |}.

Definition map_bands (f : expr -> expr) (img : Image) : Image :=
  {| bands := map (fun b => (fst b, f (snd b))) (bands img);
     props := props img |}.

(** Arithmetic leaves the metadata of its inputs behind, which is why
    [calculateRH] has to set [system:time_start] again; masking, clipping
    and casting keep it. *)
Definition without_props (img : Image) : Image :=
  {| bands := bands img; props := no_props |}.

Definition unary (o : unop) (img : Image) : Image := map_bands (Un o) img.

(** Binary operators.  Against a number, or against a one-band image, every
    band of the receiver is combined with that value; a one-band receiver
    is spread over the bands of the argument; otherwise bands pair up by
    position. *)
Definition pairwise (o : binop) (img : Image) (arg : operand) : Image :=
  match arg with
  | Num k => map_bands (fun e => Bin o e k) img
  | Img other =>
      match bands other, bands img with
      | [(_, k)], _ => map_bands (fun e => Bin o e k) img
      | _, [(n, e)] =>
          {| bands := map (fun b => (fst b, Bin o e (snd b))) (bands other);
             props := props img |}
      | _, _ =>
          {| bands := map (fun p => (fst (fst p), Bin o (snd (fst p)) (snd (snd p))))
                          (combine (bands img) (bands other));
             props := props img |}
      end
  end.

Definition binary (o : binop) (img : Image) (arg : operand) : Image :=
  without_props (pairwise o img arg).

Definition multiply := binary Multiply.
Definition add := binary Add.
Definition subtract := binary Subtract.
Definition divide := binary Divide.
Definition bitwiseAnd := binary BitwiseAnd.
Definition eq_ := binary Eq.
Definition And_ := binary And.
Definition updateMask (img mask : Image) : Image := pairwise UpdateMask img (Img mask).
Definition exp_ (img : Image) : Image := without_props (unary Exp img).
Definition float_ := unary Float.
Definition clip (g : ee_geometry) := unary (ClipTo g).

(** Decimal digits of a number, for band suffixes and messages. *)
Definition string_of_digit (n : nat) : string :=
  String (ascii_of_nat (48 + n)) EmptyString.

Fixpoint string_of_nat_aux (fuel n : nat) (acc : string) : string :=
  match fuel with
  | O => acc
  | S fuel' =>
      let acc' := string_of_digit (n mod 10) ++ acc in
      if Nat.eqb (n / 10) 0 then acc' else string_of_nat_aux fuel' (n / 10) acc'
  end.

Definition string_of_nat (n : nat) : string := string_of_nat_aux (S n) n "".

(** [addBands] with its default [overwrite=False]: a band whose name is
    taken gets the suffix [_1], or [_2] if that is taken too, and so on. *)
Definition name_taken (taken : list string) (n : string) : bool :=
  existsb (String.eqb n) taken.

Fixpoint first_free (fuel k : nat) (taken : list string) (n : string) : string :=
  let candidate := n ++ "_" ++ string_of_nat k in
  match fuel with
  | O => candidate
  | S fuel' =>
      if name_taken taken candidate
      then first_free fuel' (S k) taken n
      else candidate
  end.

Definition fresh_name (taken : list string) (n : string) : string :=
  if name_taken taken n then first_free (length taken) 1 taken n else n.

Fixpoint append_bands (dst src : list (string * expr)) : list (string * expr) :=
  match src with
  | [] => dst
  | (n, e) :: src' =>
      append_bands (dst ++ [(fresh_name (map fst dst) n, e)])%list src'
  end.

Definition addBands (img src : Image) : Image :=
  {| bands := append_bands (bands img) (bands src);
     props := props img |}.

(** [ee.Image([i1, i2, ...])], which is what [addBands] makes of a Python
    list of images. *)
Definition cat (imgs : list Image) : Image :=
  {| bands := fold_left (fun acc i => append_bands acc (bands i)) imgs [];
     props := match imgs with i :: _ => props i | [] => no_props end |}.

(** [image.rename(names)]: new names by position. *)
Definition rename (names : list string) (img : Image) : Image :=
  {| bands := map (fun p => (fst p, snd (snd p))) (combine names (bands img));
     props := props img |}.

Definition set (p : string) (v : expr) (img : Image) : Image :=
  {| bands := bands img;
     props := fun q => if String.eqb q p then Some v else props img q |}.

Definition get (p : string) (img : Image) : expr :=
  match props img p with
  | Some v => v
  | None => Null
  end.

(** [ee.Image.constant(v)]: one band named [constant]. *)
Definition constant (v : expr) : Image :=
  {| bands := [("constant", v)]; props := no_props |}.

(** The expression of a one-band image, as the arithmetic methods and
    [image.expression] see it. *)
Definition the_band (img : Image) : expr :=
  match bands img with
  | (_, e) :: _ => e
  | [] => Null
  end.

(** [image.normalizedDifference([a, b])], whose band is called [nd]. *)
Definition normalizedDifference (names : list string) (img : Image) : Image :=
  match bands (select names img) with
  | (_, a) :: (_, b) :: _ =>
      {| bands := [("nd", Bin NormalizedDifference a b)]; props := props img |}
  | _ => {| bands := [("nd", Null)]; props := props img |}
  end.

(** [image.expression(text, variables)].  The expression text is written
    out as a function of its variables; the band takes the name of the
    receiver's first band until it is renamed. *)
Definition expression (body : (string -> expr) -> expr)
           (variables : list (string * expr)) (img : Image) : Image :=
  let lookup v :=
    match find (fun p => String.eqb v (fst p)) variables with
    | Some p => snd p
    | None => Null
    end in
  {| bands := [(hd "constant" (bandNames img), body lookup)];
     props := props img |}.

(** [image.reduceRegion(reducer, geometry, scale, maxPixels)]: a
    dictionary with one entry per band and reducer output.  [minMax] has
    the two outputs [min] and [max]; a reducer with one output keeps the
    band name. *)
Definition reducer_outputs (reducer : string) : list string :=
  if String.eqb reducer "minMax" then ["min"; "max"] else [].

Definition reduceRegion (reducer : string) (g : region) (scale : Z)
           (maxPixels : option Q)
           (img : Image) : list (string * expr) :=
  flat_map (fun b =>
    match reducer_outputs reducer with
    | [] => [(fst b, ReduceRegion reducer "" (snd b) g scale maxPixels)]
    | outs => map (fun o => (fst b ++ "_" ++ o,
                             ReduceRegion reducer o (snd b) g scale maxPixels)) outs
    end) (bands img).

Definition dict_get (key : string) (d : list (string * expr)) : expr :=
  match find (fun p => String.eqb key (fst p)) d with
  | Some p => snd p
  | None => Null
  end.

(* ================================================================== *)
(** ** Image collections

    A collection is described by where its images come from ([source_of])
    and by what the script has mapped over each of them ([element]).  The
    filters used here read image metadata only, so they commute with the
    per-image maps and need no interleaving. *)

Record ImageCollection := mkCollection {
  source_of : source;
  element : Image
}.

Definition ee_ImageCollection (catalog : string -> list string) (id : string)
  : ImageCollection :=
  {| source_of := Catalog id; element := catalog_image (catalog id) |}.

Definition on_source (f : source -> source) (c : ImageCollection) : ImageCollection :=
  {| source_of := f (source_of c); element := element c |}.

Definition filterDate (start stop : string) := on_source (FilterDate start stop).
Definition filterBounds (g : ee_geometry) := on_source (FilterBounds g).
Definition filterMetadata (name operator : string) (value : Z) :=
  on_source (FilterMetadata name operator value).
Definition filter_calendarRange (start stop : expr) (field : string) :=
  on_source (FilterCalendarRange start stop field).
Definition sort (property : string) := on_source (SortBy property).

Definition map_images (f : Image -> Image) (c : ImageCollection) : ImageCollection :=
  {| source_of := source_of c; element := f (element c) |}.

Definition select_images (selectors : list string) := map_images (select selectors).

(** [collection.mean()], [collection.sum()]: band by band over the stack. *)
Definition reduce_stack (reducer : string) (c : ImageCollection) : Image :=
  {| bands := map (fun b => (fst b, ReduceColl reducer (source_of c) (snd b)))
                  (bands (element c));
     props := no_props |}.

Definition mean := reduce_stack "mean".
Definition sum := reduce_stack "sum".

(** [collection.reduce(ee.Reducer.linearFit())]: the first band of every
    image is the independent variable, the second the dependent one; the
    outputs are called [scale] and [offset]. *)
Definition reduce_linearFit (c : ImageCollection) : Image :=
  match bands (element c) with
  | [(_, x); (_, y)] =>
      {| bands := [("scale", LinearFit "scale" (source_of c) x y);
                   ("offset", LinearFit "offset" (source_of c) x y)];
         props := no_props |}
  | _ => {| bands := [("scale", Null); ("offset", Null)]; props := no_props |}
  end.

(** [ee.List.sequence(first, last).map(f)] with image-valued [f], and
    [ee.ImageCollection.fromImages] of such a list. *)
Record ImageList := mkImageList { range : Z * Z; item : Image }.

Definition sequence_map (first last : Z) (f : expr -> Image) : ImageList :=
  {| range := (first, last); item := f Elem |}.

Definition fromImages (l : ImageList) : ImageCollection :=
  {| source_of := FromSequence (fst (range l)) (snd (range l));
     element := item l |}.

(* ================================================================== *)
(** ** The per-image functions of the script *)

Declare Scope ee_scope.
Delimit Scope ee_scope with E.
Notation "a + b" := (Bin Add a b) : ee_scope.
Notation "a - b" := (Bin Subtract a b) : ee_scope.
Notation "a * b" := (Bin Multiply a b) : ee_scope.
Notation "a / b" := (Bin Divide a b) : ee_scope.

Definition maskL8sr (image : Image) : Image :=
  let qa := select ["QA_PIXEL"] image in
  let cloud_shadow_bit_mask := Z.shiftl 1 3 in
  let clouds_bit_mask := Z.shiftl 1 5 in
  let mask :=
    And_ (eq_ (bitwiseAnd qa (Num (ConstI cloud_shadow_bit_mask))) (Num (ConstI 0)))
         (Img (eq_ (bitwiseAnd qa (Num (ConstI clouds_bit_mask))) (Num (ConstI 0)))) in
  let optical_bands :=
    add (multiply (select ["SR_B."] image) (Num (ConstF 0.0000275%Q)))
        (Num (ConstF (-0.2)%Q)) in
  let thermal_bands :=
    add (multiply (select ["ST_B.*"] image) (Num (ConstF 0.00341802%Q)))
        (Num (ConstF 149.0%Q)) in
  updateMask
    (addBands (addBands (select ["QA_.*"] image) optical_bands) thermal_bands)
    mask.

Definition addIndices (image : Image) : Image :=
  let band n := the_band (select [n] image) in
  let ndvi := rename ["ndvi"] (normalizedDifference ["SR_B5"; "SR_B4"] image) in
  let evi := rename ["evi"] (expression
      (fun v => ConstF 2.5%Q *
        ((v "NIR" - v "RED") /
         (v "NIR" + ConstI 6 * v "RED" - ConstF 7.5%Q * v "BLUE" + ConstI 1)))%E
      [("NIR", band "SR_B5"); ("RED", band "SR_B4"); ("BLUE", band "SR_B2")]
      image) in
  let msavi := rename ["msavi"] (expression
      (fun v => (ConstI 2 * v "NIR" + ConstI 1
                 - Un Sqrt ((ConstI 2 * v "NIR" + ConstI 1)
                            * (ConstI 2 * v "NIR" + ConstI 1)
                            - ConstI 8 * (v "NIR" - v "RED")))
                / ConstI 2)%E
      [("NIR", band "SR_B5"); ("RED", band "SR_B4")]
      image) in
  let mirbi := rename ["mirbi"] (expression
      (fun v => ConstI 10 * v "SWIR2" - ConstF 9.8%Q * v "SWIR1" + ConstI 2)%E
      [("SWIR1", band "SR_B6"); ("SWIR2", band "SR_B7")]
      image) in
  let ndmi := rename ["ndmi"] (normalizedDifference ["SR_B5"; "SR_B6"] image) in
  let ndfi := rename ["ndfi"] (normalizedDifference ["SR_B7"; "SR_B5"] image) in
  let nbr := rename ["nbr"] (normalizedDifference ["SR_B5"; "SR_B7"] image) in
  let nbr2 := rename ["nbr2"] (normalizedDifference ["SR_B6"; "SR_B7"] image) in
  let bsi := rename ["bsi"] (expression
      (fun v => ((v "SWIR1" + v "RED") - (v "NIR" + v "BLUE"))
                / ((v "SWIR1" + v "RED") + (v "NIR" + v "BLUE")))%E
      [("SWIR1", band "SR_B6"); ("RED", band "SR_B4");
       ("NIR", band "SR_B5"); ("BLUE", band "SR_B2")]
      image) in
  addBands image (cat [ndvi; evi; msavi; mirbi; ndmi; ndfi; nbr; nbr2; bsi]).

(** The thermal moisture index: the image's own ST_B10 range over its own
    footprint. *)
Definition calculateSMI (image : Image) : Image :=
  let Ts := select ["ST_B10"] image in
  let ndvi := select ["ndvi"] image in
  let smi := rename ["smi"] (expression
      (fun v => (v "Ts_max" - v "Ts") / (v "Ts_max" - v "Ts_min"))%E
      [("Ts", the_band Ts);
       ("Ts_max", dict_get "ST_B10" (reduceRegion "max" ImageFootprint 30 (Some 1e9%Q) Ts));
       ("Ts_min", dict_get "ST_B10" (reduceRegion "min" ImageFootprint 30 (Some 1e9%Q) Ts))]
      image) in
  addBands image smi.

(* ================================================================== *)
(** ** Effects: the world the script runs in *)

(** Shapely polygons as read from the shapefile.  A geometry has a
    z-dimension exactly when its vertices have three components. *)
Inductive shape :=
| Polygon2D (exterior : list (Q * Q)) (interiors : list (list (Q * Q)))
| Polygon3D (exterior : list (Q * Q * Q)) (interiors : list (list (Q * Q * Q))).

(** A [GeoDataFrame], reduced to its geometry column; [None] is a row
    without geometry. *)
Definition GeoDataFrame := list (option shape).

Inductive Exc (A : Type) :=
| Return (a : A)
| Raise (msg : string).
Arguments Return {A} a.
Arguments Raise {A} msg.

(** An export task as configured by [ee.batch.Export.image.toAsset]. *)
Record Task := mkTask {
  image : Image;
  description : string;
  assetId : string;
  task_region : ee_geometry;
  scale : Z;
  maxPixels : Q
}.

(** What [print] writes for a pandas or numpy object is that library's
    rendering of it; the trace keeps the object that was printed. *)
Inductive dump :=
| Rows (rows : GeoDataFrame)            (* a GeoDataFrame *)
| GeometryTypes (rows : GeoDataFrame)   (* gdf.geometry.type.unique() *)
| Crs (path : string).                  (* gdf.crs of the file read from path *)

(** What the outside observes.  [PrintedObject None x] is [print(x)] and
    [PrintedObject (Some label) x] is [print(label, x)].  [TaskStatus]
    stands for [task.status()], the request a caller would use to learn
    how a task ended. *)
Inductive event :=
| Printed (text : string)
| PrintedObject (label : option string) (object : dump)
| Authenticate
| Initialize
| TaskStart (t : Task)
| TaskStatus (t : Task).

(** Everything the script does not decide itself: what is on disk, what
    GEOS thinks of a geometry, whether the service accepts a request
    ([None]) or fails with a message, and the message with which the
    client library refuses to work before it has been initialised. *)
Record World := mkWorld {
  path_exists : string -> bool;
  read_file : string -> Exc GeoDataFrame;
  geos_is_valid : shape -> bool;
  authenticate_error : option string;
  initialize_error : option string;
  not_initialized_error : string;
  start_error : Task -> option string
}.

Definition M (A : Type) : Type := World -> Exc A * list event.

Definition ret {A} (a : A) : M A := fun _ => (Return a, []).

Definition bind {A B} (m : M A) (f : A -> M B) : M B :=
  fun w =>
    match m w with
    | (Return a, t1) => let (r, t2) := f a w in (r, (t1 ++ t2)%list)
    | (Raise e, t1) => (Raise e, t1)
    end.

(** [try: m except Exception as e: handler e] *)
Definition try_except {A} (m : M A) (handler : string -> M A) : M A :=
  fun w =>
    match m w with
    | (Return a, t1) => (Return a, t1)
    | (Raise e, t1) => let (r, t2) := handler e w in (r, (t1 ++ t2)%list)
    end.

Definition raise {A} (msg : string) : M A := fun _ => (Raise msg, []).
Definition emit (e : event) : M unit := fun _ => (Return tt, [e]).
Definition print (text : string) : M unit := emit (Printed text).
Definition print_object (label : option string) (object : dump) : M unit :=
  emit (PrintedObject label object).
Definition ask {A} (f : World -> A) : M A := fun w => (Return (f w), []).

Declare Scope monad_scope.
Delimit Scope monad_scope with M.
Notation "x <- m ;; k" := (bind m (fun x => k))
  (at level 61, m at next level, right associativity) : monad_scope.
Notation "m ;; k" := (bind m (fun _ => k))
  (at level 61, right associativity) : monad_scope.
Open Scope monad_scope.

(** A request to the service: it raises what the world says, or happens. *)
Definition request (failure : World -> option string) (e : event) : M unit :=
  err <- ask failure ;;
  match err with
  | Some msg => raise msg
  | None => emit e
  end.

Definition trace_of {A} (r : Exc A * list event) : list event := snd r.
Definition outcome_of {A} (r : Exc A * list event) : Exc A := fst r.

(** The requests that reach the service, in order. *)
Definition is_remote (e : event) : bool :=
  match e with
  | Printed _ => false
  | PrintedObject _ _ => false
  | _ => true
  end.

Definition remote_calls (t : list event) : list event := filter is_remote t.

Definition submitted (t : list event) : list Task :=
  flat_map (fun e => match e with TaskStart k => [k] | _ => [] end) t.

(* ------------------------------------------------------------------ *)
(** *** Initialisation *)

Definition initialize_ee : M unit :=
  try_except
    (request authenticate_error Authenticate ;;
     request initialize_error Initialize ;;
     print "Earth Engine API initialized successfully.")
    (fun e =>
       print ("Error initializing Earth Engine API: " ++ e) ;;
       print "Make sure you have authenticated with Earth Engine using ee.Authenticate()").

(* ------------------------------------------------------------------ *)
(** *** The boundary loader *)

Definition os_path_join (a b : string) : string := a ++ "/" ++ b.

Definition len (gdf : GeoDataFrame) : nat := length gdf.

(** [geometry.is_valid] and [geometry.has_z]; a row without geometry holds
    [None], on which either attribute access raises. *)
Definition is_valid (geometry : option shape) : M bool :=
  match geometry with
  | Some g => ask (fun w => geos_is_valid w g)
  | None => raise "'NoneType' object has no attribute 'is_valid'"
  end.

Definition has_z (g : shape) : bool :=
  match g with
  | Polygon2D _ _ => false
  | Polygon3D _ _ => true
  end.

(** [gdf[~gdf.geometry.is_valid]]: rows whose geometry is missing count
    as invalid in [gdf.geometry.is_valid]. *)
Definition invalid_rows (valid : shape -> bool) (gdf : GeoDataFrame) : GeoDataFrame :=
  filter (fun row => match row with
                     | Some g => negb (valid g)
                     | None => true
                     end) gdf.

Definition count_invalid (valid : shape -> bool) (gdf : GeoDataFrame) : nat :=
  length (invalid_rows valid gdf).

(** [gdf.head()]: the first five rows. *)
Definition head (gdf : GeoDataFrame) : GeoDataFrame := firstn 5 gdf.

Definition debug_shapefile (boundary_path : string) : M (option GeoDataFrame) :=
  try_except
    (print (nl ++ "Debugging shapefile...") ;;
     read <- ask (fun w => read_file w boundary_path) ;;
     gdf <- match read with
            | Return gdf => ret gdf
            | Raise e => raise e
            end ;;
     print (nl ++ "Shapefile contains " ++ string_of_nat (len gdf) ++ " features") ;;
     print (nl ++ "First few rows of the data:") ;;
     print_object None (Rows (head gdf)) ;;
     print_object (Some (nl ++ "Geometry type:")) (GeometryTypes gdf) ;;
     print_object (Some (nl ++ "CRS:")) (Crs boundary_path) ;;
     invalid_geoms <- ask (fun w => invalid_rows (geos_is_valid w) gdf) ;;
     (if Nat.ltb 0 (len invalid_geoms)
      then print (nl ++ "Warning: Found invalid geometries!") ;;
           print ("Number of invalid geometries: "
                  ++ string_of_nat (len invalid_geoms)) ;;
           print (nl ++ "Invalid geometries:") ;;
           print_object None (Rows invalid_geoms)
      else ret tt) ;;
     ret (Some gdf))
    (fun e =>
       print ("Error debugging shapefile: " ++ e) ;;
       ret None).

(** [list(geometry.exterior.coords)]: the vertices as tuples. *)
Definition exterior_coords (g : shape) : list (list Q) :=
  match g with
  | Polygon2D ext _ => map (fun c => [fst c; snd c]) ext
  | Polygon3D ext _ => map (fun c => [fst (fst c); snd (fst c); snd c]) ext
  end.

(** [[(x, y) for x, y, z in coords]]: unpacking a tuple that does not
    have three components raises. *)
Fixpoint drop_z (coords : list (list Q)) : M (list (Q * Q)) :=
  match coords with
  | [] => ret []
  | [x; y; z] :: rest =>
      rest_2d <- drop_z rest ;;
      ret ((x, y) :: rest_2d)
  | _ :: _ => raise "wrong number of values to unpack (expected 3)"
  end.

(** [Polygon(coords_2d)] *)
Definition Polygon (coords : list (Q * Q)) : shape := Polygon2D coords [].

(** The [coordinates] member of a polygon's GeoJSON mapping: exterior ring
    first, then the interior rings. *)
Definition geojson_coordinates (g : shape) : list (list (list Q)) :=
  match g with
  | Polygon2D ext holes =>
      map (map (fun c => [fst c; snd c])) (ext :: holes)
  | Polygon3D ext holes =>
      map (map (fun c => [fst (fst c); snd (fst c); snd c])) (ext :: holes)
  end.

(** [gdf.geometry = gpd.GeoSeries([geometry])]: the one-element series is
    aligned on the index, so row 0 receives the geometry and every other
    row is left without one. *)
Definition set_geometry (geometry : shape) (gdf : GeoDataFrame) : GeoDataFrame :=
  match gdf with
  | [] => []
  | _ :: rest => Some geometry :: map (fun _ => None) rest
  end.

(** [gdf.__geo_interface__['features'][0]['geometry']['coordinates']] *)
Definition first_feature_coordinates (gdf : GeoDataFrame)
  : M (list (list (list Q))) :=
  match gdf with
  | Some g :: _ => ret (geojson_coordinates g)
  | None :: _ => raise "'NoneType' object is not subscriptable"
  | [] => raise "list index out of range"
  end.

(** The client library keeps the state of the session for the whole
    process.  The script sets it in one place, [initialize_ee], the first
    thing [main] does: [ee.Initialize()] has succeeded exactly when the
    service accepted both the authentication and the initialisation. *)
Definition session_initialized (w : World) : bool :=
  match authenticate_error w, initialize_error w with
  | None, None => true
  | _, _ => false
  end.

(** [ee.Geometry.Polygon(coords)]: the constructor goes through the
    client library, which raises when it has not been initialised. *)
Definition ee_Geometry_Polygon (coords : list (list (list Q))) : M ee_geometry :=
  ready <- ask session_initialized ;;
  if ready : bool then ret (EEPolygon coords)
  else err <- ask not_initialized_error ;; raise err.

Definition get_goa_boundary : M (option ee_geometry) :=
  try_except
    (let boundary_path := os_path_join "data" "pa_boundary.shp" in
     present <- ask (fun w => path_exists w boundary_path) ;;
     if present : bool then
       print "Loading study area boundary from shapefile..." ;;
       loaded <- debug_shapefile boundary_path ;;
       match loaded with
       | None => ret None
       | Some gdf =>
           if Nat.eqb (len gdf) 0 then
             print "Error: Shapefile contains no features" ;;
             ret None
           else
             let geometry := nth 0 gdf None in
             valid <- is_valid geometry ;;
             if negb valid then
               print "Error: Geometry is invalid" ;;
               ret None
             else
               geometry <-
                 match geometry with
                 | Some g =>
                     if has_z g then
                       print "Converting 3D polygon to 2D..." ;;
                       let coords := exterior_coords g in
                       coords_2d <- drop_z coords ;;
                       ret (Polygon coords_2d)
                     else ret g
                 | None => raise "'NoneType' object has no attribute 'has_z'"
                 end ;;
               let gdf := set_geometry geometry gdf in
               coords <- first_feature_coordinates gdf ;;
               boundary <- ee_Geometry_Polygon coords ;;
               ret (Some boundary)
       end
     else
       print ("Error: Could not find pa_boundary.shp at " ++ boundary_path) ;;
       print "Please ensure the shapefile exists in the data directory" ;;
       ret None)
    (fun e =>
       print ("Error loading boundary from shapefile: " ++ e) ;;
       ret None).

(* ------------------------------------------------------------------ *)
(** *** Export *)

(** [asset_name.split('/')[-1]] *)
Fixpoint last_segment_aux (s current : string) : string :=
  match s with
  | EmptyString => current
  | String c rest =>
      if Ascii.eqb c "/"%char
      then last_segment_aux rest ""
      else last_segment_aux rest (current ++ String c "")
  end.

Definition last_segment (s : string) : string := last_segment_aux s "".

(** [ee.batch.Export.image.toAsset(...)] only configures a task. *)
Definition Export_image_toAsset (image : Image) (description assetId : string)
           (region : ee_geometry) (scale : Z) (maxPixels : Q) : Task :=
  mkTask image description assetId region scale maxPixels.

Definition task_start (t : Task) : M unit :=
  request (fun w => start_error w t) (TaskStart t).

Definition export_to_asset (image : Image) (asset_name : string)
           (region : ee_geometry) (description : option string) (scale : Z)
  : M Task :=
  let description :=
    match description with
    | None => last_segment asset_name
    | Some d => d
    end in
  let task := Export_image_toAsset image description asset_name region scale 1e13%Q in
  task_start task ;;
  print ("Started export task: " ++ description) ;;
  ret task.

(** [for x in xs: state = body(state, x)] *)
Fixpoint for_each {A S : Type} (xs : list A) (body : S -> A -> M S) (s : S) : M S :=
  match xs with
  | [] => ret s
  | x :: xs' => s' <- body s x ;; for_each xs' body s'
  end.

Definition ee_Date (s : string) : expr := DateParse s.

(* ================================================================== *)
(** ** The four trend builders *)

Module Landsat.

Definition trend_bands : list string :=
    ["ndvi"; "evi"; "mirbi"; "ndfi"; "bsi"; "ndmi"; "nbr"; "nbr2"; "msavi";
     "smi"; "ST_B10"].

Section Builder.
Variable catalog : string -> list string.
Variable goa : ee_geometry.
Variables start_date end_date : string.

Definition ls8_collection : ImageCollection :=
      map_images addIndices
        (map_images (clip goa)
          (map_images maskL8sr
            (filterMetadata "CLOUD_COVER" "less_than" 10
              (filterBounds goa
                (filterDate start_date end_date
                  (ee_ImageCollection catalog "LANDSAT/LC08/C02/T1_L2")))))).

Definition swir_stats : list (string * expr) :=
      reduceRegion "minMax" (Region goa) 30 None
        (select ["SR_B7"] (mean ls8_collection)).

Definition swir_min : expr := dict_get "SR_B7_min" swir_stats.
Definition swir_max : expr := dict_get "SR_B7_max" swir_stats.

    (** The shortwave moisture index, normalised by collection-wide
        statistics. *)
Definition addSMI (image : Image) : Image :=
      let smi :=
        rename ["smi"]
          (add (multiply
                  (divide (subtract (select ["SR_B7"] image) (Num swir_min))
                          (Num (swir_max - swir_min)%E))
                  (Num (ConstI (-1))))
               (Num (ConstI 1))) in
      addBands image smi.

    (** [ls8_collection.map(addSMI)], before the trend bands are picked. *)
Definition ls8_all_bands : ImageCollection := map_images addSMI ls8_collection.

Definition ls8_with_smi : ImageCollection :=
      sort "system:time_start" (select_images trend_bands ls8_all_bands).

Definition addTimeBand (image : Image) : Image :=
      let years :=
        DateDiff (get "system:time_start" image) (ee_Date start_date) "year" in
      addBands image (rename ["time"] (float_ (constant years))).

Definition collection_with_time : ImageCollection :=
      map_images addTimeBand ls8_with_smi.

Definition stacked (band : string) : ImageCollection :=
      select_images ["time"; band] collection_with_time.

Definition regression (band : string) : Image := reduce_linearFit (stacked band).

Definition slope (band : string) : Image :=
      rename [band ++ "_Slope"] (select ["scale"] (regression band)).

Definition intercept (band : string) : Image :=
      rename [band ++ "_Intercept"] (select ["offset"] (regression band)).

    (** One turn of the loop over [trend_bands]. *)
Definition loop_body (all_trends : option Image) (band : string)
      : M (option Image) :=
      print ("Calculating trend for " ++ band ++ "...") ;;
      match all_trends with
      | None => ret (Some (addBands (slope band) (intercept band)))
      | Some t => ret (Some (addBands (addBands t (slope band)) (intercept band)))
      end.

Definition process_landsat_trends : M (Image * ImageCollection) :=
      print "Processing Landsat 8 data and calculating trends..." ;;
      all_trends <- for_each trend_bands loop_body None ;;
      match all_trends with
      | None => raise "image is None"
      | Some all_trends =>
          export_to_asset all_trends "users/jonasnothnagel/Trend2023_landsat"
                          goa (Some "Landsat_Trends_2023") 30 ;;
          ret (all_trends, ls8_with_smi)
      end.

End Builder.

Definition default_start_date := "2013-03-20".
Definition default_end_date := "2023-02-28".

End Landsat.

Module Chirps.

Section Builder.
Variable catalog : string -> list string.
Variable goa : ee_geometry.
Variables start_date end_date : string.

Definition chirps : ImageCollection :=
      filterBounds goa
        (filterDate start_date end_date
          (ee_ImageCollection catalog "UCSB-CHG/CHIRPS/DAILY")).

Definition createYearlySum (year : expr) : Image :=
      let year_filter := filter_calendarRange year year "year" chirps in
      let yearly_sum := clip goa (sum year_filter) in
      rename ["precipitation"]
        (set "system:time_start" (MillisFromYMD year (ConstI 1) (ConstI 1))
          (set "year" year yearly_sum)).

Definition yearly_sums : ImageList := sequence_map 1982 2021 createYearlySum.

Definition yearly_sums_collection : ImageCollection := fromImages yearly_sums.

Definition addTimeBand (image : Image) : Image :=
      let time :=
        DateDiff (get "system:time_start" image) (ee_Date "1982-01-01") "year" in
      addBands image (float_ (rename ["time"] (constant time))).

Definition collection_with_time : ImageCollection :=
      map_images addTimeBand yearly_sums_collection.

Definition stacked : ImageCollection :=
      select_images ["time"; "precipitation"] collection_with_time.

Definition regression : Image := reduce_linearFit stacked.
Definition slope : Image := rename ["rain_Slope"] (select ["scale"] regression).
Definition intercept : Image := rename ["rain_Intercept"] (select ["offset"] regression).
Definition trend : Image := addBands slope intercept.

Definition process_chirps_trends : M (Image * ImageCollection) :=
      print "Processing CHIRPS precipitation data and calculating trends..." ;;
      export_to_asset trend "users/jonasnothnagel/Trend2022_rain_new"
                      goa (Some "Precipitation_Trend_1982_2022") 30 ;;
      ret (trend, yearly_sums_collection).

End Builder.

Definition default_start_date := "1982-01-01".
Definition default_end_date := "2022-12-31".

End Chirps.

Module Smap.

Section Builder.
Variable catalog : string -> list string.
Variable goa : ee_geometry.
Variables start_date end_date : string.

Definition smap : ImageCollection :=
      map_images (clip goa)
        (select_images ["soil_moisture_am"]
          (filterBounds goa
            (filterDate start_date end_date
              (ee_ImageCollection catalog "NASA/SMAP/SPL3SMP_E/005")))).

Definition addTimeBand (image : Image) : Image :=
      let time :=
        DateDiff (get "system:time_start" image) (ee_Date "2015-04-01") "year" in
      addBands image (float_ (rename ["time"] (constant time))).

Definition soil_moisture_with_time : ImageCollection :=
      map_images addTimeBand smap.

Definition regression : Image := reduce_linearFit soil_moisture_with_time.
Definition slope : Image := rename ["sm_surface_Slope"] (select ["scale"] regression).
Definition intercept : Image :=
      rename ["sm_surface_Intercept"] (select ["offset"] regression).
Definition trend : Image := addBands slope intercept.

Definition process_smap_trends : M (Image * ImageCollection) :=
      print "Processing SMAP soil moisture data and calculating trends..." ;;
      export_to_asset trend "users/jonasnothnagel/Trend2023_SM_new"
                      goa (Some "SM_Trend2015_2023") 30 ;;
      ret (trend, smap).

End Builder.

Definition default_start_date := "2015-04-01".
Definition default_end_date := "2023-02-28".

End Smap.

Module Era5.

Definition calcVaporPressure (temp : Image) : Image :=
    let denom := add temp (Num (ConstF 243.5%Q)) in
    let num := multiply temp (Num (ConstF 19.67%Q)) in
    let exponent := exp_ (divide num (Img denom)) in
    multiply exponent (Num (ConstF 6.112%Q)).

Definition calculateRH (image : Image) : Image :=
    let dewPoint := select ["dewpoint_temperature_2m"] image in
    let temperature := select ["temperature_2m"] image in
    let eT := calcVaporPressure temperature in
    let eTd := calcVaporPressure dewPoint in
    let RH := rename ["RH"] (multiply (divide eTd (Img eT)) (Num (ConstI 100))) in
    set "system:time_start" (get "system:time_start" image) RH.

Definition addTimeBand (image : Image) : Image :=
    let time :=
      DateDiff (get "system:time_start" image) (ee_Date "1980-01-01") "year" in
    addBands image (float_ (rename ["time"] (constant time))).

Section Builder.
Variable catalog : string -> list string.
Variable goa : ee_geometry.
Variables start_date end_date : string.

Definition era5 : ImageCollection :=
      map_images (clip goa)
        (filterBounds goa
          (filterDate start_date end_date
            (ee_ImageCollection catalog "ECMWF/ERA5_LAND/MONTHLY_AGGR"))).

Definition rh_collection : ImageCollection := map_images calculateRH era5.

Definition rh_with_time : ImageCollection := map_images addTimeBand rh_collection.

Definition regression : Image := reduce_linearFit rh_with_time.
Definition slope : Image := rename ["rh_Slope"] (select ["scale"] regression).
Definition intercept : Image := rename ["rh_Intercept"] (select ["offset"] regression).
Definition trend : Image := addBands slope intercept.

Definition process_era5_trends : M (Image * ImageCollection) :=
      print "Processing ERA5 relative humidity data and calculating trends..." ;;
      export_to_asset trend "users/jonasnothnagel/Trend2024_RH_new"
                      goa (Some "RH_Trend1980_2023") 30 ;;
      ret (trend, rh_collection).

End Builder.

Definition default_start_date := "1980-01-01".
Definition default_end_date := "2023-02-28".

End Era5.

(* ================================================================== *)
(** ** The run *)

Record Collections := mkCollections {
  landsat : ImageCollection;
  rain : ImageCollection;
  sm : ImageCollection;
  rh : ImageCollection
}.

Record Results := mkResults {
  trends : Image;
  collections : Collections
}.

Definition merge_trend_layers (ls_trends rain_trend sm_trend rh_trend : Image) : Image :=
  addBands (addBands (addBands ls_trends rain_trend) sm_trend) rh_trend.

(** What [main] does once it holds a boundary. *)
Definition run_pipeline (catalog : string -> list string) (goa : ee_geometry)
  : M (option Results) :=
  print "Successfully retrieved Goa boundary" ;;
  print (nl ++ "Processing Landsat trends...") ;;
  ls <- Landsat.process_landsat_trends catalog goa
          Landsat.default_start_date Landsat.default_end_date ;;
  print "Landsat trends processed successfully" ;;
  print (nl ++ "Processing CHIRPS precipitation trends...") ;;
  rn <- Chirps.process_chirps_trends catalog goa
          Chirps.default_start_date Chirps.default_end_date ;;
  print "CHIRPS precipitation trends processed successfully" ;;
  print (nl ++ "Processing SMAP soil moisture trends...") ;;
  so <- Smap.process_smap_trends catalog goa
          Smap.default_start_date Smap.default_end_date ;;
  print "SMAP soil moisture trends processed successfully" ;;
  print (nl ++ "Processing ERA5 relative humidity trends...") ;;
  hu <- Era5.process_era5_trends catalog goa
          Era5.default_start_date Era5.default_end_date ;;
  print "ERA5 relative humidity trends processed successfully" ;;
  print (nl ++ "Merging all trend layers...") ;;
  let all_trends := addBands (addBands (addBands (fst ls) (fst rn)) (fst so)) (fst hu) in
  print "Exporting merged trends..." ;;
  export_to_asset all_trends "users/jonasnothnagel/Trend2024_all_new"
                  goa (Some "All_Trends_2024") 30 ;;
  print (nl ++ "Analysis completed successfully!") ;;
  print "Results exported to Earth Engine assets" ;;
  ret (Some {| trends := all_trends;
               collections := {| landsat := snd ls; rain := snd rn;
                                 sm := snd so; rh := snd hu |} |}).

Definition main (catalog : string -> list string) : M (option Results) :=
  initialize_ee ;;
  print "Retrieving Goa boundary..." ;;
  goa <- get_goa_boundary ;;
  match goa with
  | None =>
      print "Error: Could not retrieve Goa boundary" ;;
      ret None
  | Some goa => run_pipeline catalog goa
  end.

(* ================================================================== *)
(** ** What the expressions mean

    The service evaluates a band expression pixel by pixel.  A pixel value
    is an integer or a real, and [None] is a masked pixel. *)

Inductive pixel :=
| PInt (z : Z)
| PFloat (r : R).

Definition to_R (p : pixel) : R :=
  match p with
  | PInt z => IZR z
  | PFloat r => r
  end.

(** Calendar arithmetic for [ee.Date]: days since 1970-01-01 in the
    proleptic Gregorian calendar, and the parser for ['YYYY-MM-DD']. *)
Definition days_from_civil (y m d : Z) : Z :=
  let y' := if (m <=? 2)%Z then (y - 1)%Z else y in
  let era := (y' / 400)%Z in
  let yoe := (y' - era * 400)%Z in
  let mp := ((m + 9) mod 12)%Z in
  let doy := ((153 * mp + 2) / 5 + d - 1)%Z in
  let doe := (yoe * 365 + yoe / 4 - yoe / 100 + doy)%Z in
  (era * 146097 + doe - 719468)%Z.

Definition ms_per_day : Z := 86400000.

Definition millis_from_ymd (y m d : Z) : Z := (days_from_civil y m d * ms_per_day)%Z.

Definition digit_of (c : ascii) : option Z :=
  let n := nat_of_ascii c in
  if andb (Nat.leb 48 n) (Nat.leb n 57) then Some (Z.of_nat (n - 48)) else None.

Fixpoint number_of (s : string) (acc : Z) : option Z :=
  match s with
  | EmptyString => Some acc
  | String c rest =>
      match digit_of c with
      | Some d => number_of rest (acc * 10 + d)%Z
      | None => None
      end
  end.

Definition millis_of_date (s : string) : option Z :=
  if andb (String.eqb (substring 4 1 s) "-")
          (andb (String.eqb (substring 7 1 s) "-") (Nat.eqb (String.length s) 10))
  then
    match number_of (substring 0 4 s) 0,
          number_of (substring 5 2 s) 0,
          number_of (substring 8 2 s) 0 with
    | Some y, Some m, Some d => Some (millis_from_ymd y m d)
    | _, _, _ => None
    end
  else None.

(** The pixel under evaluation and everything the service knows that the
    client does not: raw band values, image metadata, which geometries
    cover the pixel, the results of reductions over regions and stacks,
    and the length of the average year that [ee.Date.difference] divides
    by. *)
Record Env := mkEnv {
  band_value : string -> option pixel;
  property_value : string -> option pixel;
  elem_value : option pixel;
  inside : ee_geometry -> bool;
  remote_value : expr -> option pixel;
  year_length : R
}.

Definition nonzero (p : pixel) : bool :=
  if Req_dec_T (to_R p) 0%R then false else true.

Definition eval_unop (rho : Env) (o : unop) (v : pixel) : option pixel :=
  match o with
  | Exp => Some (PFloat (exp (to_R v)))
  | Sqrt => if Rle_dec 0%R (to_R v) then Some (PFloat (sqrt (to_R v))) else None
  | Float => Some (PFloat (to_R v))
  | ClipTo g => if inside rho g then Some v else None
  end.

(** A quotient with divisor zero has no real value (the service yields an
    infinity or a NaN there); the bitwise operators are defined on integer
    pixels; [normalizedDifference] masks negative inputs. *)
Definition eval_binop (o : binop) (a b : pixel) : option pixel :=
  match o with
  | Add => Some (PFloat (to_R a + to_R b)%R)
  | Subtract => Some (PFloat (to_R a - to_R b)%R)
  | Multiply => Some (PFloat (to_R a * to_R b)%R)
  | Divide => if nonzero b then Some (PFloat (to_R a / to_R b)%R) else None
  | BitwiseAnd =>
      match a, b with
      | PInt x, PInt y => Some (PInt (Z.land x y))
      | _, _ => None
      end
  | Eq => Some (PInt (if Req_dec_T (to_R a) (to_R b) then 1 else 0))
  | And => Some (PInt (if andb (nonzero a) (nonzero b) then 1 else 0))
  | NormalizedDifference =>
      if Rle_dec 0%R (to_R a) then
        if Rle_dec 0%R (to_R b) then
          if Req_dec_T (to_R a + to_R b)%R 0%R then None
          else Some (PFloat ((to_R a - to_R b) / (to_R a + to_R b))%R)
        else None
      else None
  | UpdateMask => if nonzero b then Some a else None
  end.

Fixpoint eval (rho : Env) (e : expr) : option pixel :=
  match e with
  | Band b => band_value rho b
  | Property p => property_value rho p
  | Elem => elem_value rho
  | Null => None
  | ConstI z => Some (PInt z)
  | ConstF q => Some (PFloat (Q2R q))
  | Un o e1 =>
      match eval rho e1 with
      | Some v => eval_unop rho o v
      | None => None
      end
  | Bin o e1 e2 =>
      match eval rho e1, eval rho e2 with
      | Some a, Some b => eval_binop o a b
      | _, _ => None
      end
  | DateParse s => option_map PInt (millis_of_date s)
  | MillisFromYMD y m d =>
      match eval rho y, eval rho m, eval rho d with
      | Some (PInt y'), Some (PInt m'), Some (PInt d') =>
          Some (PInt (millis_from_ymd y' m' d'))
      | _, _, _ => None
      end
  | DateDiff d1 d2 unit =>
      if String.eqb unit "year" then
        match eval rho d1, eval rho d2 with
        | Some a, Some b => Some (PFloat ((to_R a - to_R b) / year_length rho)%R)
        | _, _ => None
        end
      else remote_value rho e
  | ReduceRegion _ _ _ _ _ _ => remote_value rho e
  | ReduceColl _ _ _ => remote_value rho e
  | LinearFit _ _ _ _ => remote_value rho e
  end.

(** The value of band [name] of an image at the pixel. *)
Definition band_expr (name : string) (img : Image) : option expr :=
  option_map snd (find (fun b => String.eqb name (fst b)) (bands img)).

Definition pixel_of (rho : Env) (name : string) (img : Image) : option pixel :=
  match band_expr name img with
  | Some e => eval rho e
  | None => None
  end.

(** Expressions that read nothing but the bands of the pixel's own image:
    no metadata, no list element, no geometry, no reduction over a region
    or a stack. *)
Fixpoint pixelwise (e : expr) : bool :=
  match e with
  | Band _ | ConstI _ | ConstF _ => true
  | Un (ClipTo _) _ => false
  | Un _ e1 => pixelwise e1
  | Bin _ e1 e2 => pixelwise e1 && pixelwise e2
  | _ => false
  end.

(** Does an expression reduce an image over that image's own footprint, as
    the thermal index of [calculateSMI] does? *)
Fixpoint footprint_stat (e : expr) : bool :=
  match e with
  | Un _ e1 => footprint_stat e1
  | Bin _ e1 e2 => footprint_stat e1 || footprint_stat e2
  | MillisFromYMD y m d => footprint_stat y || footprint_stat m || footprint_stat d
  | DateDiff d1 d2 _ => footprint_stat d1 || footprint_stat d2
  | ReduceRegion _ _ e1 g _ _ =>
      match g with
      | ImageFootprint => true
      | Region _ => footprint_stat e1
      end
  | ReduceColl _ c e1 => footprint_stat_source c || footprint_stat e1
  | LinearFit _ c x y => footprint_stat_source c || footprint_stat x || footprint_stat y
  | _ => false
  end
with footprint_stat_source (c : source) : bool :=
  match c with
  | Catalog _ => false
  | FilterDate _ _ c' => footprint_stat_source c'
  | FilterBounds _ c' => footprint_stat_source c'
  | FilterMetadata _ _ _ c' => footprint_stat_source c'
  | FilterCalendarRange a b _ c' =>
      footprint_stat a || footprint_stat b || footprint_stat_source c'
  | SortBy _ c' => footprint_stat_source c'
  | FromSequence _ _ => false
  end.

Definition image_has_footprint_stat (img : Image) : bool :=
  existsb (fun b => footprint_stat (snd b)) (bands img).

(** The band list of LANDSAT/LC08/C02/T1_L2 in the Earth Engine catalog. *)
Definition LC08_C02_T1_L2_bands : list string :=
  ["SR_B1"; "SR_B2"; "SR_B3"; "SR_B4"; "SR_B5"; "SR_B6"; "SR_B7";
   "SR_QA_AEROSOL"; "ST_B10"; "ST_ATRAN"; "ST_CDIST"; "ST_DRAD"; "ST_EMIS";
   "ST_EMSD"; "ST_QA"; "ST_TRAD"; "ST_URAD"; "QA_PIXEL"; "QA_RADSAT"].

(* ================================================================== *)
(** ** Vocabulary of the statements *)

(** Clear sky: neither the cloud-shadow bit nor the cloud bit is set. *)
Definition clear_sky (q : Z) : bool :=
  negb (Z.testbit q 3) && negb (Z.testbit q 5).

Definition cloud_mask : expr :=
  Bin And
    (Bin Eq (Bin BitwiseAnd (Band "QA_PIXEL") (ConstI (Z.shiftl 1 3))) (ConstI 0))
    (Bin Eq (Bin BitwiseAnd (Band "QA_PIXEL") (ConstI (Z.shiftl 1 5))) (ConstI 0)).

Definition masked_scaled (b : string) (factor offset : Q) : string * expr :=
  (b, Bin UpdateMask (Band b * ConstF factor + ConstF offset)%E cloud_mask).

Definition optical_bands : list string :=
  ["SR_B1"; "SR_B2"; "SR_B3"; "SR_B4"; "SR_B5"; "SR_B6"; "SR_B7"].


(** The scale factors as the documentation of the transform gives them:
    reflectance for the optical bands, Kelvin for the thermal ones, the
    quality bands untouched. *)
Definition rescale (b : string) (v : pixel) : pixel :=
  if String.prefix "SR_B" b then PFloat (to_R v * 0.0000275 - 0.2)%R
  else if String.prefix "ST_B" b then PFloat (to_R v * 0.00341802 + 149.0)%R
  else v.

Definition is_optical_or_thermal (b : string) : bool :=
  String.prefix "SR_B" b || String.prefix "ST_B" b.

Definition landsat_scene : Image := catalog_image LC08_C02_T1_L2_bands.

(** A clear Landsat pixel: QA_PIXEL = 21824 has bits 3 and 5 unset. *)
Definition clear_scene_pixel : Env :=
  {| band_value := fun b =>
       if String.eqb b "QA_PIXEL" then Some (PInt 21824)
       else if String.eqb b "SR_B4" then Some (PInt 10000)
       else None;
     property_value := fun _ => None;
     elem_value := None;
     inside := fun _ => true;
     remote_value := fun _ => None;
     year_length := 31556952000 |}.


(** The humidity formula in the words of the specification. *)
Definition vapor_pressure (t : R) : R :=
  (6.112 * exp (19.67 * t / (t + 243.5)))%R.

Definition relative_humidity (T Td : R) : R :=
  (100 * (vapor_pressure Td / vapor_pressure T))%R.

(** A selector without [.] and [*] is a plain band name. *)
Definition literal (p : string) : bool :=
  forallb (fun c => negb (Ascii.eqb c "."%char) && negb (Ascii.eqb c "*"%char))
          (list_ascii_of_string p).

Definition era5_id : string := "ECMWF/ERA5_LAND/MONTHLY_AGGR".

(** The expression [calculateRH] builds from a temperature and a dew-point
    expression. *)
Definition vapor_pressure_expr (temp : expr) : expr :=
  (Un Exp (temp * ConstF 19.67%Q / (temp + ConstF 243.5%Q)) * ConstF 6.112%Q)%E.

Definition relative_humidity_expr (dewPoint temperature : expr) : expr :=
  (vapor_pressure_expr dewPoint / vapor_pressure_expr temperature * ConstI 100)%E.

Definition landsat_id : string := "LANDSAT/LC08/C02/T1_L2".
Definition chirps_id : string := "UCSB-CHG/CHIRPS/DAILY".
Definition smap_id : string := "NASA/SMAP/SPL3SMP_E/005".

(** What the pipeline relies on in the catalog: the Landsat 8 band list,
    the single band of CHIRPS, and the presence of the bands it selects by
    name from SMAP and ERA5-Land (band names within a collection being
    distinct). *)
Definition catalog_as_documented (catalog : string -> list string) : Prop :=
  catalog landsat_id = LC08_C02_T1_L2_bands
  /\ catalog chirps_id = ["precipitation"]
  /\ NoDup (catalog smap_id) /\ In "soil_moisture_am" (catalog smap_id)
  /\ NoDup (catalog era5_id)
  /\ In "temperature_2m" (catalog era5_id)
  /\ In "dewpoint_temperature_2m" (catalog era5_id).

(** A catalog for examples; of SMAP and ERA5-Land it lists a few bands
    only. *)
Definition sample_catalog (id : string) : list string :=
  if String.eqb id landsat_id then LC08_C02_T1_L2_bands
  else if String.eqb id chirps_id then ["precipitation"]
  else if String.eqb id smap_id then ["soil_moisture_am"; "soil_moisture_pm"]
  else if String.eqb id era5_id
       then ["dewpoint_temperature_2m"; "temperature_2m"; "skin_temperature"]
  else [].

Definition sample_goa : ee_geometry :=
  EEPolygon [[[73.9%Q; 15.3%Q]; [74.3%Q; 15.3%Q]; [74.3%Q; 15.6%Q]; [73.9%Q; 15.3%Q]]].

(** A saturated pixel: temperature and dew point both 25. *)
Definition saturated_pixel : Env :=
  {| band_value := fun b =>
       if String.eqb b "temperature_2m" then Some (PFloat 25)
       else if String.eqb b "dewpoint_temperature_2m" then Some (PFloat 25)
       else None;
     property_value := fun _ => None;
     elem_value := None;
     inside := fun _ => true;
     remote_value := fun _ => None;
     year_length := 31556952000 |}.

(** Every image of [images] reappears in [with_time] with a band [time]
    which, when the image's [system:time_start] is [t] ms, holds the years
    elapsed since [reference] ms; one calendar year later, at [next_year]
    ms, that is 1 up to 1/365. *)
Definition elapsed_years_band (rho : Env) (images with_time : ImageCollection)
           (reference next_year : Z) : Prop :=
  forall t : Z,
    eval rho (get "system:time_start" (element images)) = Some (PInt t) ->
    exists v : R,
      pixel_of rho "time" (element with_time) = Some (PFloat v)
      /\ v = ((IZR t - IZR reference) / year_length rho)%R
      /\ (t = next_year -> (Rabs (v - 1) <= 1 / 365)%R).

(** An environment for an image stamped 2014-03-20, with the Gregorian
    average year of 365.2425 days. *)
Definition pixel_stamped_2014_03_20 : Env :=
  {| band_value := fun _ => None;
     property_value := fun p =>
       if String.eqb p "system:time_start"
       then Some (PInt (millis_from_ymd 2014 3 20)) else None;
     elem_value := Some (PInt 1983);
     inside := fun _ => true;
     remote_value := fun _ => None;
     year_length := 31556952000 |}.

(** The expression every [addTimeBand] attaches. *)
Definition years_since (stamp : expr) (reference : string) : expr :=
  Un Float (DateDiff stamp (DateParse reference) "year").


(** Where [get_goa_boundary] looks for the shapefile. *)
Definition boundary_path : string := "data/pa_boundary.shp".

(** The rings handed to [ee.Geometry.Polygon] for the first geometry of
    the file: all rings of a polygon without z, the exterior ring alone,
    cut down to x and y, of a polygon with z. *)
Definition boundary_rings (g : shape) : list (list (list Q)) :=
  match g with
  | Polygon2D ext holes => map (map (fun c => [fst c; snd c])) (ext :: holes)
  | Polygon3D ext _ => [map (fun c => [fst (fst c); snd (fst c)]) ext]
  end.

(** What the loader returns, as a function of the world. *)
Definition boundary_of (w : World) : option ee_geometry :=
  if path_exists w boundary_path then
    match read_file w boundary_path with
    | Return (Some g :: _) =>
        if geos_is_valid w g then
          if session_initialized w then Some (EEPolygon (boundary_rings g))
          else None
        else None
    | _ => None
    end
  else None.

Definition printed_only (t : list event) : Prop := remote_calls t = [].

(** Worlds for examples.  The service accepts every request; the file
    holds a triangle with elevations followed by a second feature. *)
Definition triangle_3d : shape :=
  Polygon3D [(73.9%Q, 15.3%Q, 12%Q); (74.3%Q, 15.3%Q, 40%Q);
             (74.3%Q, 15.6%Q, 7%Q); (73.9%Q, 15.3%Q, 12%Q)]
            [[(74.0%Q, 15.35%Q, 1%Q); (74.1%Q, 15.35%Q, 1%Q);
              (74.1%Q, 15.4%Q, 1%Q); (74.0%Q, 15.35%Q, 1%Q)]].

Definition square_2d : shape :=
  Polygon2D [(0%Q, 0%Q); (1%Q, 0%Q); (1%Q, 1%Q); (0%Q, 1%Q); (0%Q, 0%Q)] [].

Definition world_with (exists_ : bool) (file : Exc GeoDataFrame) (valid : bool) : World :=
  {| path_exists := fun _ => exists_;
     read_file := fun _ => file;
     geos_is_valid := fun _ => valid;
     authenticate_error := None;
     initialize_error := None;
     not_initialized_error := "Earth Engine client library not initialized.";
     start_error := fun _ => None |}.

Definition sample_world : World :=
  world_with true (Return [Some triangle_3d; Some square_2d]) true.

Definition world_without_file : World := world_with false (Raise "no such file") true.

(** The image the loop over [trend_bands] has built after each turn. *)
Definition accumulate_trend (catalog : string -> list string) (goa : ee_geometry)
           (start_date end_date : string)
           (all_trends : option Image) (band : string) : option Image :=
  let slope := Landsat.slope catalog goa start_date end_date band in
  let intercept := Landsat.intercept catalog goa start_date end_date band in
  match all_trends with
  | None => Some (addBands slope intercept)
  | Some t => Some (addBands (addBands t slope) intercept)
  end.

Definition landsat_all_trends (catalog : string -> list string) (goa : ee_geometry)
  : option Image :=
  fold_left (accumulate_trend catalog goa Landsat.default_start_date
                              Landsat.default_end_date)
            Landsat.trend_bands None.

Definition rain_trend (catalog : string -> list string) (goa : ee_geometry) : Image :=
  Chirps.trend catalog goa Chirps.default_start_date Chirps.default_end_date.

Definition sm_trend (catalog : string -> list string) (goa : ee_geometry) : Image :=
  Smap.trend catalog goa Smap.default_start_date Smap.default_end_date.

Definition rh_trend (catalog : string -> list string) (goa : ee_geometry) : Image :=
  Era5.trend catalog goa Era5.default_start_date Era5.default_end_date.

(** The five exports of a run, one per trend product. *)
Definition expected_exports (catalog : string -> list string) (goa : ee_geometry)
           (ls_trends : Image) : list Task :=
  [ mkTask ls_trends "Landsat_Trends_2023"
           "users/jonasnothnagel/Trend2023_landsat" goa 30 1e13%Q;
    mkTask (rain_trend catalog goa) "Precipitation_Trend_1982_2022"
           "users/jonasnothnagel/Trend2022_rain_new" goa 30 1e13%Q;
    mkTask (sm_trend catalog goa) "SM_Trend2015_2023"
           "users/jonasnothnagel/Trend2023_SM_new" goa 30 1e13%Q;
    mkTask (rh_trend catalog goa) "RH_Trend1980_2023"
           "users/jonasnothnagel/Trend2024_RH_new" goa 30 1e13%Q;
    mkTask (merge_trend_layers ls_trends (rain_trend catalog goa)
                               (sm_trend catalog goa) (rh_trend catalog goa))
           "All_Trends_2024"
           "users/jonasnothnagel/Trend2024_all_new" goa 30 1e13%Q ].

(** The boundary [sample_world] yields. *)
Definition sample_boundary : ee_geometry :=
  EEPolygon [[[73.9%Q; 15.3%Q]; [74.3%Q; 15.3%Q]; [74.3%Q; 15.6%Q]; [73.9%Q; 15.3%Q]]].

(** The output [output] ([scale] or [offset]) of the linear fit over a
    collection. *)
Definition fit_output (output : string) (c : ImageCollection) : expr :=
  the_band (select [output] (reduce_linearFit c)).

(** The naming pattern of the specification. *)
Definition trend_names (variables : list string) : list string :=
  flat_map (fun v => [v ++ "_Slope"; v ++ "_Intercept"]) variables.

(** The bands a regression is run on, the time band apart. *)
Definition regressed_variables (inputs : ImageCollection) : list string :=
  filter (fun b => negb (String.eqb b "time")) (bandNames (element inputs)).

(** In [trend], the band [label_Slope] is the [scale] output and the band
    [label_Intercept] the [offset] output of the fit over [inputs]. *)
Definition slope_intercept_of (inputs : ImageCollection) (label : string)
           (trend : Image) : Prop :=
  band_expr (label ++ "_Slope") trend = Some (fit_output "scale" inputs)
  /\ band_expr (label ++ "_Intercept") trend = Some (fit_output "offset" inputs).

(** The claim read literally: the output bands are named after the bands
    that were regressed. *)
Definition named_after_regressed (inputs : ImageCollection) (trend : Image) : Prop :=
  bandNames trend = trend_names (regressed_variables inputs).

(** The pieces of the shortwave moisture index as [process_landsat_trends]
    assembles them: the scaled, masked and clipped SR_B7 band, the minimum
    and maximum over the region of the collection's mean composite of that
    band, and the index [(b7 - min) / (max - min) * -1 + 1]. *)
Definition landsat_source (goa : ee_geometry) (start_date end_date : string) : source :=
  FilterMetadata "CLOUD_COVER" "less_than" 10
    (FilterBounds goa (FilterDate start_date end_date (Catalog landsat_id))).

Definition scaled_swir (goa : ee_geometry) : expr :=
  Un (ClipTo goa) (snd (masked_scaled "SR_B7" 0.0000275%Q (-0.2)%Q)).

Definition swir_stat (output : string) (goa : ee_geometry)
           (start_date end_date : string) : expr :=
  ReduceRegion "minMax" output
    (ReduceColl "mean" (landsat_source goa start_date end_date) (scaled_swir goa))
    (Region goa) 30 None.

Definition swir_smi (goa : ee_geometry) (start_date end_date : string) : expr :=
  ((scaled_swir goa - swir_stat "min" goa start_date end_date)
   / (swir_stat "max" goa start_date end_date - swir_stat "min" goa start_date end_date)
   * ConstI (-1) + ConstI 1)%E.

(** The thermal index of [calculateSMI] on a clipped Landsat scene. *)
Definition scaled_thermal (goa : ee_geometry) : expr :=
  Un (ClipTo goa) (snd (masked_scaled "ST_B10" 0.00341802%Q 149.0%Q)).

Definition thermal_smi (goa : ee_geometry) : expr :=
  let Ts := scaled_thermal goa in
  let Ts_max := ReduceRegion "max" "" Ts ImageFootprint 30 (Some 1e9%Q) in
  let Ts_min := ReduceRegion "min" "" Ts ImageFootprint 30 (Some 1e9%Q) in
  ((Ts_max - Ts) / (Ts_max - Ts_min))%E.

(** The claim read literally: some exported image holds the thermal
    index, that is, a reduction of an image over its own footprint. *)
Definition thermal_smi_computed (tasks : list Task) : Prop :=
  exists k, In k tasks /\ image_has_footprint_stat (image k) = true.

(** A clear pixel of a scene: raw SR_B7 = 10000, inside every geometry,
    where the service reports 0 and 0.5 as the extremes of the mean SR_B7
    composite. *)
Definition moist_pixel : Env :=
  {| band_value := fun b =>
       if String.eqb b "QA_PIXEL" then Some (PInt 21824)
       else if String.eqb b "SR_B7" then Some (PInt 10000)
       else None;
     property_value := fun _ => None;
     elem_value := None;
     inside := fun _ => true;
     remote_value := fun e =>
       match e with
       | ReduceRegion _ output _ _ _ _ =>
           if String.eqb output "min" then Some (PFloat 0) else Some (PFloat 0.5)
       | _ => None
       end;
     year_length := 31556952000 |}.

(* ================================================================== *)
(** ** Vocabulary of the further properties *)

(** A world whose service rejects the start of the precipitation export
    and accepts everything else. *)
Definition world_rejecting_rain : World :=
  {| path_exists := fun _ => true;
     read_file := fun _ => Return [Some triangle_3d; Some square_2d];
     geos_is_valid := fun _ => true;
     authenticate_error := None;
     initialize_error := None;
     not_initialized_error := "Earth Engine client library not initialized.";
     start_error := fun k =>
       if String.eqb (description k) "Precipitation_Trend_1982_2022"
       then Some "quota exceeded" else None |}.


(** A polygon without z that has a hole. *)
Definition square_with_hole : shape :=
  Polygon2D [(0%Q, 0%Q); (4%Q, 0%Q); (4%Q, 4%Q); (0%Q, 4%Q); (0%Q, 0%Q)]
            [[(1%Q, 1%Q); (2%Q, 1%Q); (2%Q, 2%Q); (1%Q, 1%Q)]].

Definition no_slash (s : string) : bool :=
  forallb (fun c => negb (Ascii.eqb c "/"%char)) (list_ascii_of_string s).

Definition is_invalid_row (w : World) (row : option shape) : bool :=
  match row with
  | Some g => negb (geos_is_valid w g)
  | None => true
  end.

(** The tasks the service accepts before it first rejects one, and that
    first rejection. *)
Fixpoint accepted_prefix (w : World) (tasks : list Task) : list Task :=
  match tasks with
  | [] => []
  | k :: rest =>
      match start_error w k with
      | None => k :: accepted_prefix w rest
      | Some _ => []
      end
  end.

Fixpoint first_rejection (w : World) (tasks : list Task) : option string :=
  match tasks with
  | [] => None
  | k :: rest =>
      match start_error w k with
      | None => first_rejection w rest
      | Some e => Some e
      end
  end.

(** The names [addIndices] gives its bands, in order. *)
Definition index_names : list string :=
  ["ndvi"; "evi"; "msavi"; "mirbi"; "ndmi"; "ndfi"; "nbr"; "nbr2"; "bsi"].

(** A reflectance band of a masked, scaled and clipped Landsat scene. *)
Definition scaled_band (goa : ee_geometry) (b : string) : expr :=
  Un (ClipTo goa) (snd (masked_scaled b 0.0000275%Q (-0.2)%Q)).

(** The indices [addIndices] computes with [normalizedDifference], each
    with the two bands it is given, in the order of the call. *)
Definition difference_indices : list (string * (string * string)) :=
  [("ndvi", ("SR_B5", "SR_B4")); ("ndmi", ("SR_B5", "SR_B6"));
   ("ndfi", ("SR_B7", "SR_B5")); ("nbr", ("SR_B5", "SR_B7"));
   ("nbr2", ("SR_B6", "SR_B7"))].

(** Two pixels masked together, the first holding the negative of the
    second where they have a value. *)
Definition opposite (a b : option pixel) : Prop :=
  match a, b with
  | Some x, Some y => to_R x = (- to_R y)%R
  | None, None => True
  | _, _ => False
  end.

(** A clear pixel over vegetation, inside every geometry: raw values
    SR_B2 = 8000, SR_B4 = 10000, SR_B5 = 20000, SR_B6 = 14000 and
    SR_B7 = 12000, and a thermal value of 44000. *)
Definition vegetated_pixel : Env :=
  {| band_value := fun b =>
       if String.eqb b "QA_PIXEL" then Some (PInt 21824)
       else if String.eqb b "SR_B2" then Some (PInt 8000)
       else if String.eqb b "SR_B4" then Some (PInt 10000)
       else if String.eqb b "SR_B5" then Some (PInt 20000)
       else if String.eqb b "SR_B6" then Some (PInt 14000)
       else if String.eqb b "SR_B7" then Some (PInt 12000)
       else if String.eqb b "ST_B10" then Some (PInt 44000)
       else None;
     property_value := fun _ => None;
     elem_value := None;
     inside := fun _ => true;
     remote_value := fun _ => None;
     year_length := 31556952000 |}.

(** A clear pixel of a scene whose thermal band spans 290 K to 310 K over
    its footprint; the raw ST_B10 value 44000 stands for 299.39 K. *)
Definition warm_pixel : Env :=
  {| band_value := fun b =>
       if String.eqb b "QA_PIXEL" then Some (PInt 21824)
       else if String.eqb b "ST_B10" then Some (PInt 44000)
       else None;
     property_value := fun _ => None;
     elem_value := None;
     inside := fun _ => true;
     remote_value := fun e =>
       match e with
       | ReduceRegion reducer _ _ _ _ _ =>
           if String.eqb reducer "min" then Some (PFloat 290) else Some (PFloat 310)
       | _ => None
       end;
     year_length := 31556952000 |}.



(** A pixel where the dew point (30) lies above the temperature (25). *)
Definition supersaturated_pixel : Env :=
  {| band_value := fun b =>
       if String.eqb b "temperature_2m" then Some (PFloat 25)
       else if String.eqb b "dewpoint_temperature_2m" then Some (PFloat 30)
       else None;
     property_value := fun _ => None;
     elem_value := None;
     inside := fun _ => true;
     remote_value := fun _ => None;
     year_length := 31556952000 |}.

(** The time value of the yearly precipitation image of year [y], for a
    year of [Y] milliseconds. *)
Definition years_from_1982 (Y : R) (y : Z) : R :=
  ((IZR (millis_from_ymd y 1 1) - IZR (millis_from_ymd 1982 1 1)) / Y)%R.

(** The calendar year [y] has 365 or 366 days. *)
Definition year_span_ok (y : Z) : bool :=
  let d := (days_from_civil (y + 1) 1 1 - days_from_civil y 1 1)%Z in
  (365 <=? d)%Z && (d <=? 366)%Z.

(** The pixel of the yearly image of 2000, with the Gregorian average
    year. *)
Definition pixel_of_year_2000 : Env :=
  {| band_value := fun _ => None;
     property_value := fun _ => None;
     elem_value := Some (PInt 2000);
     inside := fun _ => true;
     remote_value := fun _ => None;
     year_length := 31556952000 |}.

(** [linearFit] over [c] takes band [x] as the independent and band [y]
    as the dependent variable: they are the first and the second band of
    the images, and both outputs of the fit are computed from them in
    this order. *)
Definition fits (c : ImageCollection) (x y : string * expr) : Prop :=
  bands (element c) = [x; y]
  /\ fit_output "scale" c = LinearFit "scale" (source_of c) (snd x) (snd y)
  /\ fit_output "offset" c = LinearFit "offset" (source_of c) (snd x) (snd y).
(* ================================================================== *)
(** * Properties *)

(** ** The model at work *)

Example selector_single_character :
  map (Regex.matches "SR_B.") ["SR_B4"; "SR_B10"; "SR_QA_AEROSOL"; "ST_B10"]
  = [true; false; false; false].
Proof. reflexivity. Qed.

Example selector_any_suffix :
  map (Regex.matches "ST_B.*") ["ST_B10"; "ST_B"; "ST_QA"; "SR_B1"]
  = [true; true; false; false].
Proof. reflexivity. Qed.

Example selector_quality_bands :
  filter (Regex.matches "QA_.*") LC08_C02_T1_L2_bands = ["QA_PIXEL"; "QA_RADSAT"].
Proof. reflexivity. Qed.

Example added_band_keeps_its_name_when_free :
  fresh_name ["ndvi"; "evi"] "smi" = "smi".
Proof. reflexivity. Qed.

Example added_band_is_renamed_when_taken :
  fresh_name ["smi"; "smi_1"] "smi" = "smi_2".
Proof. reflexivity. Qed.

Example epoch_is_zero : millis_of_date "1970-01-01" = Some 0%Z.
Proof. reflexivity. Qed.

Example landsat_reference_date :
  millis_of_date Landsat.default_start_date = Some 1363737600000%Z.
Proof. reflexivity. Qed.

Example leap_day : (days_from_civil 2016 3 1 - days_from_civil 2016 2 28 = 2)%Z.
Proof. reflexivity. Qed.

Example default_description :
  last_segment "users/jonasnothnagel/Trend2023_landsat" = "Trend2023_landsat".
Proof. reflexivity. Qed.

Example cloudy_pixel_is_masked :
  clear_sky 21824 = true /\ clear_sky (21824 + 32) = false
  /\ clear_sky (21824 + 8) = false.
Proof. repeat split. Qed.

Example scene_after_masking_and_indices :
  bandNames (addIndices (maskL8sr landsat_scene))
  = ["QA_PIXEL"; "QA_RADSAT"; "SR_B1"; "SR_B2"; "SR_B3"; "SR_B4"; "SR_B5";
     "SR_B6"; "SR_B7"; "ST_B10"; "ndvi"; "evi"; "msavi"; "mirbi"; "ndmi";
     "ndfi"; "nbr"; "nbr2"; "bsi"].
Proof. reflexivity. Qed.

Example sample_run_trace_starts :
  firstn 3 (trace_of (main sample_catalog sample_world))
  = [Authenticate; Initialize;
     Printed "Earth Engine API initialized successfully."].
Proof. reflexivity. Qed.

(** ** Evaluation helpers *)

Lemma nonzero_PInt (z : Z) : nonzero (PInt z) = negb (z =? 0)%Z.
Proof.
  unfold nonzero; simpl.
  destruct (Req_dec_T (IZR z) 0%R) as [H | H].
  - apply eq_IZR_R0 in H. subst z. reflexivity.
  - destruct (Z.eqb_spec z 0) as [-> | _]; [now elim H | reflexivity].
Qed.

Lemma Req_dec_T_IZR (A : Type) (a b : Z) (x y : A) :
  (if Req_dec_T (IZR a) (IZR b) then x else y) = if (a =? b)%Z then x else y.
Proof.
  destruct (Req_dec_T (IZR a) (IZR b)) as [H | H].
  - apply eq_IZR in H. subst b. now rewrite Z.eqb_refl.
  - destruct (Z.eqb_spec a b) as [-> | _]; [now elim H | reflexivity].
Qed.

(** Masking with a single bit tests that bit. *)
Lemma land_single_bit (q k : Z) :
  (0 <= k)%Z ->
  (Z.land q (Z.shiftl 1 k) =? 0)%Z = negb (Z.testbit q k).
Proof.
  intros Hk. rewrite Z.shiftl_1_l.
  destruct (Z.testbit q k) eqn:Hbit; simpl.
  - apply Z.eqb_neq. intros H0.
    assert (Hk' : Z.testbit (Z.land q (2 ^ k)) k = true)
      by (rewrite Z.land_spec, Hbit, Z.pow2_bits_true; auto).
    rewrite H0, Z.bits_0 in Hk'. discriminate.
  - apply Z.eqb_eq. apply Z.bits_inj'. intros n Hn.
    rewrite Z.land_spec, Z.bits_0, Z.pow2_bits_eqb by assumption.
    destruct (Z.eqb_spec k n) as [<- | _].
    + now rewrite Hbit.
    + apply andb_false_r.
Qed.

(** ** The cloud mask and the scale factors *)

Lemma maskL8sr_bands :
  bands (maskL8sr landsat_scene) =
  ([("QA_PIXEL", Bin UpdateMask (Band "QA_PIXEL") cloud_mask);
    ("QA_RADSAT", Bin UpdateMask (Band "QA_RADSAT") cloud_mask)]
   ++ map (fun b => masked_scaled b 0.0000275%Q (-0.2)%Q) optical_bands
   ++ [masked_scaled "ST_B10" 0.00341802%Q 149.0%Q])%list.
Proof. reflexivity. Qed.

Lemma eval_cloud_mask (rho : Env) :
  eval rho cloud_mask =
  match band_value rho "QA_PIXEL" with
  | Some (PInt q) => Some (PInt (if clear_sky q then 1 else 0))
  | _ => None
  end.
Proof.
  unfold cloud_mask. cbn [eval].
  destruct (band_value rho "QA_PIXEL") as [[q | r] |]; cbn [eval_binop]; try reflexivity.
  rewrite !nonzero_PInt.
  change (to_R (PInt 0)) with (IZR 0).
  change (to_R (PInt (Z.land q (Z.shiftl 1 3)))) with (IZR (Z.land q (Z.shiftl 1 3))).
  change (to_R (PInt (Z.land q (Z.shiftl 1 5)))) with (IZR (Z.land q (Z.shiftl 1 5))).
  rewrite !Req_dec_T_IZR.
  rewrite !land_single_bit by lia.
  unfold clear_sky.
  destruct (Z.testbit q 3), (Z.testbit q 5); reflexivity.
Qed.

Lemma eval_update_cloud_mask (rho : Env) (e : expr) :
  eval rho (Bin UpdateMask e cloud_mask) =
  match eval rho e, band_value rho "QA_PIXEL" with
  | Some v, Some (PInt q) => if clear_sky q then Some v else None
  | _, _ => None
  end.
Proof.
  cbn [eval]. rewrite eval_cloud_mask.
  destruct (eval rho e) as [v |]; [| reflexivity].
  destruct (band_value rho "QA_PIXEL") as [[q | r] |]; try reflexivity.
  cbn [eval_binop]. rewrite nonzero_PInt.
  destruct (clear_sky q); reflexivity.
Qed.

Lemma pixelwise_eval (rho1 rho2 : Env) (e : expr) :
  pixelwise e = true ->
  (forall b, band_value rho1 b = band_value rho2 b) ->
  eval rho1 e = eval rho2 e.
Proof.
  intros Hp Hb. induction e; simpl in Hp; try discriminate; cbn [eval].
  - apply Hb.
  - reflexivity.
  - reflexivity.
  - destruct o; try discriminate; rewrite IHe by assumption; reflexivity.
  - apply andb_true_iff in Hp. destruct Hp as [H1 H2].
    now rewrite IHe1, IHe2.
Qed.

Lemma maskL8sr_band_names :
  bandNames (maskL8sr landsat_scene) =
  ["QA_PIXEL"; "QA_RADSAT"; "SR_B1"; "SR_B2"; "SR_B3"; "SR_B4"; "SR_B5";
   "SR_B6"; "SR_B7"; "ST_B10"].
Proof. reflexivity. Qed.

Lemma eval_masked_scaled (rho : Env) (b : string) (factor offset : Q) :
  eval rho (snd (masked_scaled b factor offset)) =
  match band_value rho b, band_value rho "QA_PIXEL" with
  | Some v, Some (PInt q) =>
      if clear_sky q
      then Some (PFloat (to_R v * Q2R factor + Q2R offset)%R) else None
  | _, _ => None
  end.
Proof.
  unfold masked_scaled, snd. rewrite eval_update_cloud_mask. cbn [eval].
  destruct (band_value rho b) as [v |]; reflexivity.
Qed.

Ltac band_of_maskL8sr :=
  unfold pixel_of, band_expr; rewrite maskL8sr_bands;
  cbn [find map app fst optical_bands option_map
       String.eqb Ascii.eqb Bool.eqb];
  cbn [masked_scaled fst]; cbn [snd option_map].

Ltac split_band_values rho :=
  repeat match goal with
         | |- context [band_value rho ?n] =>
             destruct (band_value rho n) as [[? | ?] |]
         end.

(** C7.  On a Landsat 8 scene, [maskL8sr] gives every band it keeps a value
    exactly at the pixels where the raw band has one and bits 3 (cloud
    shadow) and 5 (cloud) of QA_PIXEL are both zero; there the optical
    bands SR_B1..SR_B7 hold [raw * 0.0000275 - 0.2] and the thermal band
    ST_B10 holds [raw * 0.00341802 + 149.0].  Every optical and thermal
    band of the scene is converted, and each output band reads only the
    bands of the same pixel of the same image. *)
Theorem maskL8sr_masks_and_scales (rho : Env) (b : string) :
  In b (bandNames (maskL8sr landsat_scene)) ->
  let out := maskL8sr landsat_scene in
  pixel_of rho b out =
    match band_value rho b, band_value rho "QA_PIXEL" with
    | Some v, Some (PInt q) =>
        if negb (Z.testbit q 3) && negb (Z.testbit q 5)
        then Some (rescale b v) else None
    | _, _ => None
    end
  /\ (forall c, In c LC08_C02_T1_L2_bands -> is_optical_or_thermal c = true ->
                In c (bandNames out))
  /\ (exists e, band_expr b out = Some e /\ pixelwise e = true)
  /\ (forall rho', (forall c, band_value rho' c = band_value rho c) ->
                   pixel_of rho' b out = pixel_of rho b out).
Proof.
  intros Hb out. subst out.
  assert (Hexpr : exists e, band_expr b (maskL8sr landsat_scene) = Some e
                            /\ pixelwise e = true).
  { rewrite maskL8sr_band_names in Hb. simpl in Hb.
    repeat (destruct Hb as [<- | Hb]; [eexists; split; reflexivity |]).
    contradiction. }
  repeat split.
  - rewrite maskL8sr_band_names in Hb. simpl in Hb.
    fold (clear_sky).
    repeat (destruct Hb as [<- | Hb];
      [ band_of_maskL8sr;
        first [ rewrite eval_masked_scaled
              | rewrite eval_update_cloud_mask; cbn [eval] ];
        split_band_values rho; try reflexivity;
        unfold clear_sky;
        match goal with
        | |- context [negb (Z.testbit ?q 3) && negb (Z.testbit ?q 5)] =>
            destruct (negb (Z.testbit q 3) && negb (Z.testbit q 5)); [| reflexivity]
        end;
        unfold rescale; simpl String.prefix; cbv iota;
        try reflexivity;
        do 2 f_equal; unfold Q2R; simpl; lra
      |]).
    contradiction.
  - intros c Hc Hopt. rewrite maskL8sr_band_names.
    simpl in Hc.
    repeat (destruct Hc as [<- | Hc];
            [first [discriminate Hopt | simpl; tauto] |]).
    contradiction.
  - exact Hexpr.
  - intros rho' Hsame. unfold pixel_of.
    destruct Hexpr as [e [-> He]].
    apply pixelwise_eval; [exact He | exact Hsame].
Qed.

Lemma maskL8sr_masks_and_scales_witness :
  pixel_of clear_scene_pixel "SR_B4" (maskL8sr landsat_scene) =
  Some (PFloat (10000 * 0.0000275 - 0.2)%R).
Proof.
  destruct (maskL8sr_masks_and_scales clear_scene_pixel "SR_B4") as [H _].
  - simpl. tauto.
  - rewrite H. reflexivity.
Defined.


(** ** Selecting by name *)

Lemma tokenize_literal (l : list ascii) :
  forallb (fun c => negb (Ascii.eqb c "."%char) && negb (Ascii.eqb c "*"%char)) l = true ->
  Regex.tokenize l = map (fun c => Regex.One (Regex.Lit c)) l.
Proof.
  induction l as [| c rest IH]; intros H; [reflexivity |].
  simpl in H. apply andb_true_iff in H. destruct H as [Hc Hrest].
  apply andb_true_iff in Hc. destruct Hc as [Hdot _].
  apply negb_true_iff in Hdot.
  specialize (IH Hrest).
  destruct rest as [| d rest'].
  - simpl. unfold Regex.atom_of. now rewrite Hdot.
  - assert (Hd : Ascii.eqb d "*"%char = false).
    { simpl in Hrest. apply andb_true_iff in Hrest. destruct Hrest as [Hd _].
      apply andb_true_iff in Hd. destruct Hd as [_ Hd].
      now apply negb_true_iff in Hd. }
    change (Regex.tokenize (c :: d :: rest')) with
      (if Ascii.eqb d "*"%char
       then Regex.Star (Regex.atom_of c) :: Regex.tokenize rest'
       else Regex.One (Regex.atom_of c) :: Regex.tokenize (d :: rest')).
    rewrite Hd, IH. unfold Regex.atom_of. now rewrite Hdot.
Qed.

Lemma match_literal (l s : list ascii) :
  Regex.match_toks (map (fun c => Regex.One (Regex.Lit c)) l) s = true <-> l = s.
Proof.
  revert s. induction l as [| c l IH]; intros [| d s]; simpl; split; intros H;
    try reflexivity; try discriminate.
  - apply andb_true_iff in H. destruct H as [Hc Hs].
    apply Ascii.eqb_eq in Hc. apply IH in Hs. now subst.
  - injection H as -> ->. rewrite Ascii.eqb_refl. simpl. now apply IH.
Qed.

Lemma list_ascii_of_string_inj (a b : string) :
  list_ascii_of_string a = list_ascii_of_string b -> a = b.
Proof.
  intros H. rewrite <- (string_of_list_ascii_of_string a),
                    <- (string_of_list_ascii_of_string b).
  now rewrite H.
Qed.

Lemma matches_literal (p n : string) :
  literal p = true -> Regex.matches p n = String.eqb p n.
Proof.
  intros Hp. unfold Regex.matches. rewrite tokenize_literal by exact Hp.
  destruct (String.eqb_spec p n) as [-> | Hne].
  - now apply match_literal.
  - destruct (Regex.match_toks _ _) eqn:Hm; [| reflexivity].
    apply match_literal in Hm. now apply list_ascii_of_string_inj in Hm.
Qed.

Lemma filter_unique_name (n : string) (l : list (string * expr)) (e : expr) :
  NoDup (map fst l) -> In (n, e) l ->
  filter (fun b => String.eqb n (fst b)) l = [(n, e)].
Proof.
  induction l as [| [m x] l IH]; intros Hnd Hin; [contradiction |].
  simpl in Hnd. inversion Hnd as [| ? ? Hnot Hnd']; subst.
  simpl. destruct Hin as [Heq | Hin].
  - injection Heq as -> ->. rewrite String.eqb_refl. f_equal.
    clear IH Hnd Hnd'. induction l as [| [m y] l IHl]; [reflexivity |].
    simpl. destruct (String.eqb_spec n m) as [-> | _].
    + elim Hnot. now left.
    + apply IHl. intros H. apply Hnot. now right.
  - destruct (String.eqb_spec n m) as [-> | _].
    + elim Hnot. change m with (fst (m, e)). now apply in_map.
    + now apply IH.
Qed.

(** Selecting one plain name from an image with distinct band names gives
    that band alone. *)
Lemma select_one (n : string) (img : Image) (e : expr) :
  literal n = true -> NoDup (bandNames img) -> In (n, e) (bands img) ->
  bands (select [n] img) = [(n, e)].
Proof.
  intros Hlit Hnd Hin. unfold select. cbn [bands flat_map].
  rewrite app_nil_r.
  rewrite (filter_ext _ (fun b => String.eqb n (fst b)))
    by (intros b; now apply matches_literal).
  now apply filter_unique_name.
Qed.

Lemma bands_unary_catalog (o : unop) (schema : list string) :
  bands (unary o (catalog_image schema)) = map (fun b => (b, Un o (Band b))) schema.
Proof.
  unfold unary, map_bands, catalog_image. cbn [bands]. rewrite map_map. reflexivity.
Qed.

Lemma bandNames_unary_catalog (o : unop) (schema : list string) :
  bandNames (unary o (catalog_image schema)) = schema.
Proof.
  unfold bandNames. rewrite bands_unary_catalog, map_map. cbn [fst]. apply map_id.
Qed.

Lemma select_clipped_catalog (n : string) (g : ee_geometry) (schema : list string) :
  literal n = true -> NoDup schema -> In n schema ->
  bands (select [n] (clip g (catalog_image schema))) = [(n, Un (ClipTo g) (Band n))].
Proof.
  intros Hlit Hnd Hin. unfold clip. apply select_one; [exact Hlit | |].
  - now rewrite bandNames_unary_catalog.
  - rewrite bands_unary_catalog.
    apply (in_map (fun b => (b, Un (ClipTo g) (Band b)))) in Hin. exact Hin.
Qed.

(** ** Relative humidity *)

Lemma calculateRH_bands (image : Image) (eT eTd : expr) :
  bands (select ["temperature_2m"] image) = [("temperature_2m", eT)] ->
  bands (select ["dewpoint_temperature_2m"] image) = [("dewpoint_temperature_2m", eTd)] ->
  bands (Era5.calculateRH image) = [("RH", relative_humidity_expr eTd eT)].
Proof.
  intros HT HTd.
  unfold Era5.calculateRH, Era5.calcVaporPressure, set, rename, multiply, divide,
    add, exp_, binary, unary, without_props, pairwise, map_bands.
  cbn [bands]. rewrite HT, HTd. reflexivity.
Qed.

Lemma rh_collection_bands (catalog : string -> list string) (goa : ee_geometry)
      (start_date end_date : string) :
  NoDup (catalog era5_id) ->
  In "temperature_2m" (catalog era5_id) ->
  In "dewpoint_temperature_2m" (catalog era5_id) ->
  bands (element (Era5.rh_collection catalog goa start_date end_date)) =
  [("RH", relative_humidity_expr
            (Un (ClipTo goa) (Band "dewpoint_temperature_2m"))
            (Un (ClipTo goa) (Band "temperature_2m")))].
Proof.
  intros Hnd HT HTd.
  unfold Era5.rh_collection, Era5.era5, map_images. cbn [element].
  apply calculateRH_bands; now apply select_clipped_catalog.
Qed.

Lemma vapor_pressure_pos (t : R) : (0 < vapor_pressure t)%R.
Proof.
  unfold vapor_pressure. apply Rmult_lt_0_compat; [lra | apply exp_pos].
Qed.

(** The Magnus exponent grows with the temperature above -243.5. *)
Lemma vapor_pressure_increasing (a b : R) :
  (-243.5 < a)%R -> (a < b)%R -> (vapor_pressure a < vapor_pressure b)%R.
Proof.
  intros Ha Hab. unfold vapor_pressure.
  apply Rmult_lt_compat_l; [lra |].
  apply exp_increasing.
  apply Rlt_0_minus.
  replace (19.67 * b / (b + 243.5) - 19.67 * a / (a + 243.5))%R
    with (19.67 * 243.5 * (b - a) / ((a + 243.5) * (b + 243.5)))%R
    by (field; lra).
  apply Rdiv_lt_0_compat.
  - apply Rmult_lt_0_compat; lra.
  - apply Rmult_lt_0_compat; lra.
Qed.

Lemma eval_vapor_pressure_expr (rho : Env) (e : expr) (t : R) :
  eval rho e = Some (PFloat t) -> (-243.5 < t)%R ->
  eval rho (vapor_pressure_expr e) = Some (PFloat (vapor_pressure t)).
Proof.
  intros He Ht. unfold vapor_pressure_expr. cbn [eval]. rewrite He.
  cbn [eval_binop to_R].
  assert (Hnz : nonzero (PFloat (t + Q2R 243.5)) = true).
  { unfold nonzero. cbn [to_R].
    destruct (Req_dec_T (t + Q2R 243.5) 0) as [H0 | _]; [| reflexivity].
    unfold Q2R in H0. simpl in H0. lra. }
  rewrite Hnz. cbn [eval_unop to_R eval_binop].
  do 2 f_equal. unfold vapor_pressure, Q2R. simpl.
  rewrite Rmult_comm. f_equal. f_equal. field. lra.
Qed.

(** C8.  At a pixel inside the region where the temperature is [T] and the
    dew point is [Td], both above -243.5, the RH band of the humidity
    collection is [100 * e(Td) / e(T)] with
    [e(t) = 6.112 * exp (19.67 * t / (t + 243.5))]; it equals 100 when
    [Td = T] (so at [T = Td = 25]) and lies strictly below 100 when
    [Td < T]. *)
Theorem relative_humidity_saturation
        (catalog : string -> list string) (goa : ee_geometry)
        (start_date end_date : string) (rho : Env) (T Td : R) :
  NoDup (catalog era5_id) ->
  In "temperature_2m" (catalog era5_id) ->
  In "dewpoint_temperature_2m" (catalog era5_id) ->
  inside rho goa = true ->
  band_value rho "temperature_2m" = Some (PFloat T) ->
  band_value rho "dewpoint_temperature_2m" = Some (PFloat Td) ->
  (-243.5 < T)%R -> (-243.5 < Td)%R ->
  pixel_of rho "RH" (element (Era5.rh_collection catalog goa start_date end_date))
    = Some (PFloat (relative_humidity T Td))
  /\ (Td = T -> relative_humidity T Td = 100%R)
  /\ (Td < T -> relative_humidity T Td < 100)%R.
Proof.
  intros Hnd HinT HinTd Hin HT HTd HTlo HTdlo.
  pose proof (vapor_pressure_pos T) as HposT.
  repeat split.
  - unfold pixel_of, band_expr.
    rewrite rh_collection_bands by assumption.
    cbn [find fst snd String.eqb Ascii.eqb Bool.eqb option_map].
    unfold relative_humidity_expr.
    assert (HeT : eval rho (Un (ClipTo goa) (Band "temperature_2m")) = Some (PFloat T))
      by (cbn [eval]; rewrite HT; cbn [eval_unop]; now rewrite Hin).
    assert (HeTd : eval rho (Un (ClipTo goa) (Band "dewpoint_temperature_2m"))
                   = Some (PFloat Td))
      by (cbn [eval]; rewrite HTd; cbn [eval_unop]; now rewrite Hin).
    cbn [eval].
    rewrite (eval_vapor_pressure_expr _ _ _ HeT HTlo).
    rewrite (eval_vapor_pressure_expr _ _ _ HeTd HTdlo).
    cbn [eval_binop to_R].
    assert (Hnz : nonzero (PFloat (vapor_pressure T)) = true).
    { unfold nonzero. cbn [to_R].
      destruct (Req_dec_T (vapor_pressure T) 0) as [H0 | _]; [lra | reflexivity]. }
    rewrite Hnz. cbn [to_R]. do 2 f_equal. unfold relative_humidity. lra.
  - intros ->. unfold relative_humidity. field. lra.
  - intros Hlt. unfold relative_humidity.
    pose proof (vapor_pressure_increasing Td T HTdlo Hlt) as Hinc.
    assert (Hq : (vapor_pressure Td / vapor_pressure T < 1)%R).
    { apply Rmult_lt_reg_r with (r := vapor_pressure T); [exact HposT |].
      unfold Rdiv. rewrite Rmult_assoc, Rinv_l by lra. lra. }
    lra.
Qed.

Lemma sample_catalog_as_documented : catalog_as_documented sample_catalog.
Proof.
  unfold catalog_as_documented. simpl.
  repeat split; try (repeat constructor; simpl; intuition discriminate); tauto.
Qed.

Lemma relative_humidity_saturation_witness :
  pixel_of saturated_pixel "RH"
    (element (Era5.rh_collection sample_catalog sample_goa
                Era5.default_start_date Era5.default_end_date))
  = Some (PFloat (relative_humidity 25 25))
  /\ relative_humidity 25 25 = 100%R.
Proof.
  destruct (relative_humidity_saturation sample_catalog sample_goa
              Era5.default_start_date Era5.default_end_date
              saturated_pixel 25 25) as (H1 & H2 & _).
  - simpl. repeat constructor; simpl; intuition discriminate.
  - simpl. tauto.
  - simpl. tauto.
  - reflexivity.
  - reflexivity.
  - reflexivity.
  - lra.
  - lra.
  - split; [exact H1 | apply H2; reflexivity].
Defined.

(** ** The collections fed to the regressions *)

Lemma select_catalog (n : string) (schema : list string) :
  literal n = true -> NoDup schema -> In n schema ->
  bands (select [n] (catalog_image schema)) = [(n, Band n)].
Proof.
  intros Hlit Hnd Hin. apply select_one; [exact Hlit | |].
  - unfold bandNames, catalog_image. cbn [bands]. rewrite map_map. cbn [fst].
    now rewrite map_id.
  - unfold catalog_image. cbn [bands].
    apply (in_map (fun b => (b, Band b))) in Hin. exact Hin.
Qed.

Lemma landsat_element (catalog : string -> list string) (goa : ee_geometry)
      (start_date end_date : string) :
  catalog landsat_id = LC08_C02_T1_L2_bands ->
  element (Landsat.ls8_collection catalog goa start_date end_date) =
  addIndices (clip goa (maskL8sr landsat_scene)).
Proof.
  intros H. unfold Landsat.ls8_collection, map_images, ee_ImageCollection.
  cbn [element]. fold landsat_id. rewrite H. reflexivity.
Qed.

Lemma landsat_collection_sample (catalog : string -> list string)
      (goa : ee_geometry) (start_date end_date : string) :
  catalog landsat_id = LC08_C02_T1_L2_bands ->
  Landsat.ls8_collection catalog goa start_date end_date =
  Landsat.ls8_collection sample_catalog goa start_date end_date.
Proof.
  intros H. unfold Landsat.ls8_collection, ee_ImageCollection.
  fold landsat_id. rewrite H. reflexivity.
Qed.

Lemma landsat_all_bands_sample (catalog : string -> list string)
      (goa : ee_geometry) (start_date end_date : string) :
  catalog landsat_id = LC08_C02_T1_L2_bands ->
  Landsat.ls8_all_bands catalog goa start_date end_date =
  Landsat.ls8_all_bands sample_catalog goa start_date end_date.
Proof.
  intros H.
  unfold Landsat.ls8_all_bands, Landsat.addSMI, Landsat.swir_min, Landsat.swir_max,
    Landsat.swir_stats.
  rewrite (landsat_collection_sample catalog) by exact H. reflexivity.
Qed.

Lemma landsat_with_time_sample (catalog : string -> list string)
      (goa : ee_geometry) (start_date end_date : string) :
  catalog landsat_id = LC08_C02_T1_L2_bands ->
  Landsat.collection_with_time catalog goa start_date end_date =
  Landsat.collection_with_time sample_catalog goa start_date end_date.
Proof.
  intros H. unfold Landsat.collection_with_time, Landsat.ls8_with_smi.
  rewrite (landsat_all_bands_sample catalog) by exact H. reflexivity.
Qed.

Lemma landsat_time_band (catalog : string -> list string) (goa : ee_geometry)
      (start_date end_date : string) :
  catalog landsat_id = LC08_C02_T1_L2_bands ->
  band_expr "time" (element (Landsat.collection_with_time catalog goa start_date end_date))
  = Some (years_since (Property "system:time_start") start_date).
Proof.
  intros H. rewrite (landsat_with_time_sample catalog) by exact H. reflexivity.
Qed.

Lemma chirps_time_element (catalog : string -> list string) (goa : ee_geometry)
      (start_date end_date : string) :
  catalog chirps_id = ["precipitation"] ->
  bands (element (Chirps.collection_with_time catalog goa start_date end_date)) =
  [("precipitation",
    Un (ClipTo goa)
       (ReduceColl "sum"
          (FilterCalendarRange Elem Elem "year"
             (FilterBounds goa (FilterDate start_date end_date (Catalog chirps_id))))
          (Band "precipitation")));
   ("time", years_since (MillisFromYMD Elem (ConstI 1) (ConstI 1)) "1982-01-01")].
Proof.
  intros H.
  unfold Chirps.collection_with_time, Chirps.yearly_sums_collection,
    Chirps.yearly_sums, Chirps.createYearlySum, Chirps.chirps, ee_ImageCollection.
  fold chirps_id. rewrite H. reflexivity.
Qed.

Lemma smap_time_element (catalog : string -> list string) (goa : ee_geometry)
      (start_date end_date : string) :
  NoDup (catalog smap_id) -> In "soil_moisture_am" (catalog smap_id) ->
  bands (element (Smap.soil_moisture_with_time catalog goa start_date end_date)) =
  [("soil_moisture_am", Un (ClipTo goa) (Band "soil_moisture_am"));
   ("time", years_since (Property "system:time_start") "2015-04-01")].
Proof.
  intros Hnd Hin.
  change (element (Smap.soil_moisture_with_time catalog goa start_date end_date))
    with (Smap.addTimeBand
            (clip goa (select ["soil_moisture_am"] (catalog_image (catalog smap_id))))).
  unfold Smap.addTimeBand, addBands, clip, unary, map_bands. cbn [bands].
  rewrite (select_catalog "soil_moisture_am") by (reflexivity || assumption).
  reflexivity.
Qed.

Lemma era5_time_element (catalog : string -> list string) (goa : ee_geometry)
      (start_date end_date : string) :
  NoDup (catalog era5_id) ->
  In "temperature_2m" (catalog era5_id) ->
  In "dewpoint_temperature_2m" (catalog era5_id) ->
  bands (element (Era5.rh_with_time catalog goa start_date end_date)) =
  [("RH", relative_humidity_expr
            (Un (ClipTo goa) (Band "dewpoint_temperature_2m"))
            (Un (ClipTo goa) (Band "temperature_2m")));
   ("time", years_since (Property "system:time_start") "1980-01-01")].
Proof.
  intros Hnd HT HTd.
  unfold Era5.rh_with_time, map_images. cbn [element].
  unfold Era5.addTimeBand, addBands. cbn [bands].
  rewrite rh_collection_bands by assumption.
  reflexivity.
Qed.

(** ** The time band *)

Lemma eval_years_since (rho : Env) (stamp : expr) (reference : string) (t r : Z) :
  eval rho stamp = Some (PInt t) ->
  millis_of_date reference = Some r ->
  eval rho (years_since stamp reference)
  = Some (PFloat ((IZR t - IZR r) / year_length rho)%R).
Proof.
  intros Hs Hr. unfold years_since. cbn [eval String.eqb Ascii.eqb Bool.eqb].
  rewrite Hs, Hr. reflexivity.
Qed.

(** A span of 365 or 366 days, measured in years of 365 to 366 days, is one
    year up to 1/365. *)
Lemma one_year_tolerance (Y D : R) :
  (365 * IZR ms_per_day <= Y <= 366 * IZR ms_per_day)%R ->
  (365 * IZR ms_per_day <= D <= 366 * IZR ms_per_day)%R ->
  (Rabs (D / Y - 1) <= 1 / 365)%R.
Proof.
  unfold ms_per_day. intros [HY1 HY2] [HD1 HD2].
  assert (HY : (0 < Y)%R) by lra.
  apply Rabs_le. split.
  - apply Rmult_le_reg_r with (r := Y); [exact HY |].
    replace ((D / Y - 1) * Y)%R with (D - Y)%R by (field; lra). lra.
  - apply Rmult_le_reg_r with (r := Y); [exact HY |].
    replace ((D / Y - 1) * Y)%R with (D - Y)%R by (field; lra). lra.
Qed.

Ltac compute_dates :=
  repeat match goal with
         | |- context [millis_from_ymd ?y ?m ?d] =>
             let x := eval vm_compute in (millis_from_ymd y m d) in
             change (millis_from_ymd y m d) with x
         end.

Ltac elapsed_years_from stamp bands_lemma :=
  intros t Ht;
  match type of Ht with
  | eval _ ?e = _ => change e with stamp in Ht
  end;
  eexists; split;
  [ unfold pixel_of, band_expr; rewrite bands_lemma by assumption;
    cbn [find fst snd option_map String.eqb Ascii.eqb Bool.eqb];
    apply eval_years_since; [exact Ht | reflexivity]
  | split;
    [ reflexivity
    | intros ->;
      match goal with
      | |- (Rabs ((?a - ?b) / ?Y - 1) <= _)%R =>
          apply (one_year_tolerance Y (a - b)); [assumption |]
      end;
      unfold ms_per_day; compute_dates; split; lra ] ].

(** C9.  Each of the four builders attaches a band [time] that holds, for
    an image whose [system:time_start] is [t], the difference between [t]
    and the builder's reference date (2013-03-20, 1982-01-01, 2015-04-01,
    1980-01-01) divided by the length of a year; for an image stamped
    exactly one calendar year after the reference date the value is 1 up
    to 1/365, whatever year length between 365 and 366 days the service
    divides by. *)
Theorem time_band_elapsed_years
        (catalog : string -> list string) (goa : ee_geometry)
        (end_l start_c end_c start_s end_s start_e end_e : string) (rho : Env) :
  catalog_as_documented catalog ->
  (365 * IZR ms_per_day <= year_length rho <= 366 * IZR ms_per_day)%R ->
  elapsed_years_band rho
    (Landsat.ls8_with_smi catalog goa Landsat.default_start_date end_l)
    (Landsat.collection_with_time catalog goa Landsat.default_start_date end_l)
    (millis_from_ymd 2013 3 20) (millis_from_ymd 2014 3 20)
  /\ elapsed_years_band rho
       (Chirps.yearly_sums_collection catalog goa start_c end_c)
       (Chirps.collection_with_time catalog goa start_c end_c)
       (millis_from_ymd 1982 1 1) (millis_from_ymd 1983 1 1)
  /\ elapsed_years_band rho
       (Smap.smap catalog goa start_s end_s)
       (Smap.soil_moisture_with_time catalog goa start_s end_s)
       (millis_from_ymd 2015 4 1) (millis_from_ymd 2016 4 1)
  /\ elapsed_years_band rho
       (Era5.rh_collection catalog goa start_e end_e)
       (Era5.rh_with_time catalog goa start_e end_e)
       (millis_from_ymd 1980 1 1) (millis_from_ymd 1981 1 1).
Proof.
  intros (HL & HC & HSnd & HS & HEnd & HET & HETd) HY.
  repeat split.
  - intros t Ht.
    unfold Landsat.ls8_with_smi in Ht.
    rewrite (landsat_all_bands_sample catalog) in Ht by exact HL.
    change (eval rho (Property "system:time_start") = Some (PInt t)) in Ht.
    eexists; split;
      [ unfold pixel_of; rewrite landsat_time_band by assumption;
        apply eval_years_since; [exact Ht | reflexivity] |].
    split; [reflexivity |].
    intros ->.
    match goal with
    | |- (Rabs ((?a - ?b) / ?Y - 1) <= _)%R =>
        apply (one_year_tolerance Y (a - b)); [assumption |]
    end.
    unfold ms_per_day; compute_dates; split; lra.
  - elapsed_years_from (MillisFromYMD Elem (ConstI 1) (ConstI 1)) chirps_time_element.
  - elapsed_years_from (Property "system:time_start") smap_time_element.
  - elapsed_years_from (Property "system:time_start") era5_time_element.
Qed.

Lemma time_band_elapsed_years_witness :
  exists v : R,
    pixel_of pixel_stamped_2014_03_20 "time"
      (element (Landsat.collection_with_time sample_catalog sample_goa
                  Landsat.default_start_date Landsat.default_end_date))
    = Some (PFloat v)
    /\ (Rabs (v - 1) <= 1 / 365)%R.
Proof.
  destruct (time_band_elapsed_years sample_catalog sample_goa
              Landsat.default_end_date
              Chirps.default_start_date Chirps.default_end_date
              Smap.default_start_date Smap.default_end_date
              Era5.default_start_date Era5.default_end_date
              pixel_stamped_2014_03_20) as [HL _].
  - exact sample_catalog_as_documented.
  - unfold ms_per_day. simpl. lra.
  - destruct (HL (millis_from_ymd 2014 3 20)) as (v & Hv & _ & Hone).
    + reflexivity.
    + exists v. split; [exact Hv | apply Hone; reflexivity].
Defined.

(** ** The boundary loader *)

Lemma remote_calls_app (a b : list event) :
  remote_calls (a ++ b) = (remote_calls a ++ remote_calls b)%list.
Proof. apply filter_app. Qed.

Lemma submitted_app (a b : list event) :
  submitted (a ++ b) = (submitted a ++ submitted b)%list.
Proof. apply flat_map_app. Qed.

Lemma debug_shapefile_run (w : World) (path : string) :
  exists t, printed_only t /\
    debug_shapefile path w =
    (Return (match read_file w path with
             | Return gdf => Some gdf
             | Raise _ => None
             end), t).
Proof.
  unfold debug_shapefile, try_except, bind, ask, print, print_object, emit, ret,
    raise.
  destruct (read_file w path) as [gdf | e]; cbn.
  - destruct (len (invalid_rows (geos_is_valid w) gdf)); cbn;
      (eexists; split; [| reflexivity]); reflexivity.
  - (eexists; split; [| reflexivity]); reflexivity.
Qed.

Lemma drop_z_run (ext : list (Q * Q * Q)) (w : World) :
  drop_z (map (fun c => [fst (fst c); snd (fst c); snd c]) ext) w
  = (Return (map (fun c => (fst (fst c), snd (fst c))) ext), []).
Proof.
  induction ext as [| c ext IH]; [reflexivity |].
  cbn [map drop_z]. unfold bind. rewrite IH. reflexivity.
Qed.

Ltac only_prints H :=
  unfold printed_only, remote_calls in *;
  repeat first [ rewrite filter_app | rewrite H
               | progress cbn [filter is_remote app] ];
  reflexivity.

(** The loader never raises, only prints, and returns [boundary_of]. *)
Lemma get_goa_boundary_run (w : World) :
  exists t, printed_only t /\ get_goa_boundary w = (Return (boundary_of w), t).
Proof.
  unfold get_goa_boundary, boundary_of.
  change (os_path_join "data" "pa_boundary.shp") with boundary_path.
  unfold try_except at 1. unfold bind at 1. unfold ask at 1.
  destruct (path_exists w boundary_path).
  - unfold bind at 1. unfold print at 1, emit at 1.
    unfold bind at 1.
    destruct (debug_shapefile_run w boundary_path) as (t & Ht & ->).
    destruct (read_file w boundary_path) as [gdf | e].
    + destruct gdf as [| [g |] rest].
      * cbn. eexists; split; [| reflexivity]. only_prints Ht.
      * cbn [len length Nat.eqb nth].
        unfold bind at 1. unfold is_valid. unfold ask at 1.
        destruct (geos_is_valid w g).
        -- unfold ee_Geometry_Polygon.
           destruct g as [ext holes | ext holes].
           ++ cbn [negb has_z]. unfold bind, ask, raise, ret. cbn beta iota.
              destruct (session_initialized w); cbn;
                (eexists; split; [| reflexivity]); only_prints Ht.
           ++ cbn [negb has_z exterior_coords].
              unfold bind at 1. unfold bind at 1. unfold print at 1, emit at 1.
              unfold bind at 1. rewrite drop_z_run.
              unfold bind, ask, raise, ret. cbn beta iota.
              destruct (session_initialized w); cbn; rewrite ?map_map;
                (eexists; split; [| reflexivity]); only_prints Ht.
        -- cbn. eexists; split; [| reflexivity]. only_prints Ht.
      * cbn. eexists; split; [| reflexivity]. only_prints Ht.
    + cbn. eexists; split; [| reflexivity]. only_prints Ht.
  - cbn. (eexists; split; [| reflexivity]); reflexivity.
Qed.

Lemma get_goa_boundary_outcome (w : World) :
  outcome_of (get_goa_boundary w) = Return (boundary_of w).
Proof.
  destruct (get_goa_boundary_run w) as (t & _ & ->). reflexivity.
Qed.

(** C4.  In a session that has been initialised, when the first feature
    of the shapefile is a valid polygon, the loader returns the polygon
    made of that ring: for a single-ring polygon without z the very
    vertices, in order (with interior rings, the exterior ring comes
    first); for a polygon with z the exterior ring's vertices in order,
    each reduced to its first two components. *)
Theorem boundary_ring_preserved (w : World) (g : shape) (rest : GeoDataFrame) :
  session_initialized w = true ->
  path_exists w boundary_path = true ->
  read_file w boundary_path = Return (Some g :: rest) ->
  geos_is_valid w g = true ->
  (forall ring, g = Polygon2D ring [] ->
     outcome_of (get_goa_boundary w)
     = Return (Some (EEPolygon [map (fun c => [fst c; snd c]) ring])))
  /\ (forall ring holes, g = Polygon2D ring holes ->
        exists inner,
          outcome_of (get_goa_boundary w)
          = Return (Some (EEPolygon (map (fun c => [fst c; snd c]) ring :: inner))))
  /\ (forall ring holes, g = Polygon3D ring holes ->
        outcome_of (get_goa_boundary w)
        = Return (Some (EEPolygon [map (fun c => [fst (fst c); snd (fst c)]) ring]))
        /\ Forall (fun vertex => length vertex = 2%nat)
                  (map (fun c => [fst (fst c); snd (fst c)]) ring)).
Proof.
  intros Hready Hex Hread Hvalid.
  rewrite get_goa_boundary_outcome. unfold boundary_of.
  rewrite Hex, Hread, Hvalid, Hready.
  split; [| split].
  - intros ring ->. reflexivity.
  - intros ring holes ->. eexists. reflexivity.
  - intros ring holes ->. split; [reflexivity |].
    apply Forall_forall. intros v Hv. apply in_map_iff in Hv.
    destruct Hv as (c & <- & _). reflexivity.
Qed.

Lemma boundary_ring_preserved_witness :
  outcome_of (get_goa_boundary sample_world)
  = Return (Some (EEPolygon [[[73.9%Q; 15.3%Q]; [74.3%Q; 15.3%Q];
                              [74.3%Q; 15.6%Q]; [73.9%Q; 15.3%Q]]])).
Proof.
  pose proof (boundary_ring_preserved sample_world triangle_3d [Some square_2d]
                eq_refl eq_refl eq_refl eq_refl) as (_ & _ & H).
  destruct (H _ _ eq_refl) as [H3 _]. exact H3.
Defined.

(** C5.  The loader never raises.  A missing file, a file without
    features and a file whose first geometry is invalid all give [None],
    and so do the two ways loading can raise: a file that cannot be read
    and a first row without geometry. *)
Theorem boundary_failures_yield_none (w : World) :
  (exists r, outcome_of (get_goa_boundary w) = Return r)
  /\ (path_exists w boundary_path = false ->
      outcome_of (get_goa_boundary w) = Return None)
  /\ (read_file w boundary_path = Return [] ->
      outcome_of (get_goa_boundary w) = Return None)
  /\ (forall g rest,
        read_file w boundary_path = Return (Some g :: rest) ->
        geos_is_valid w g = false ->
        outcome_of (get_goa_boundary w) = Return None)
  /\ (forall e,
        read_file w boundary_path = Raise e ->
        outcome_of (get_goa_boundary w) = Return None)
  /\ (forall rest,
        read_file w boundary_path = Return (None :: rest) ->
        outcome_of (get_goa_boundary w) = Return None).
Proof.
  rewrite get_goa_boundary_outcome. unfold boundary_of.
  split; [eexists; reflexivity |].
  repeat split.
  - intros ->. reflexivity.
  - intros ->. now destruct (path_exists w boundary_path).
  - intros g rest -> ->. now destruct (path_exists w boundary_path).
  - intros e ->. now destruct (path_exists w boundary_path).
  - intros rest ->. now destruct (path_exists w boundary_path).
Qed.

Lemma boundary_failures_yield_none_witness :
  outcome_of (get_goa_boundary world_without_file) = Return None
  /\ outcome_of (get_goa_boundary (world_with true (Return []) true)) = Return None
  /\ outcome_of (get_goa_boundary (world_with true (Return [Some square_2d]) false))
     = Return None.
Proof.
  split; [| split].
  - destruct (boundary_failures_yield_none world_without_file) as (_ & H & _).
    apply H. reflexivity.
  - destruct (boundary_failures_yield_none (world_with true (Return []) true))
      as (_ & _ & H & _).
    apply H. reflexivity.
  - destruct (boundary_failures_yield_none
                (world_with true (Return [Some square_2d]) false))
      as (_ & _ & _ & H & _).
    apply (H square_2d []); reflexivity.
Defined.

(** C10.  With several features in the file the result is built from the
    first one alone: in a session that has been initialised the other
    rows do not enter it.  Of a first geometry with z only the exterior
    ring survives, its interior rings are dropped. *)
Theorem boundary_from_first_feature (w : World) (g : shape) (rest : GeoDataFrame) :
  session_initialized w = true ->
  path_exists w boundary_path = true ->
  read_file w boundary_path = Return (Some g :: rest) ->
  outcome_of (get_goa_boundary w)
  = Return (if geos_is_valid w g then Some (EEPolygon (boundary_rings g)) else None)
  /\ (forall w' rest',
        session_initialized w' = true ->
        path_exists w' boundary_path = true ->
        read_file w' boundary_path = Return (Some g :: rest') ->
        geos_is_valid w' g = geos_is_valid w g ->
        outcome_of (get_goa_boundary w') = outcome_of (get_goa_boundary w))
  /\ (forall ext holes,
        g = Polygon3D ext holes -> geos_is_valid w g = true ->
        outcome_of (get_goa_boundary w)
        = Return (Some (EEPolygon [map (fun c => [fst (fst c); snd (fst c)]) ext]))).
Proof.
  intros Hready Hex Hread.
  rewrite get_goa_boundary_outcome. unfold boundary_of at 1 2 3.
  rewrite Hex, Hread, Hready.
  split; [now destruct (geos_is_valid w g) |].
  split.
  - intros w' rest' Hready' Hex' Hread' Hvalid'.
    rewrite get_goa_boundary_outcome. unfold boundary_of.
    now rewrite Hex', Hread', Hvalid', Hready'.
  - intros ext holes -> ->. reflexivity.
Qed.

Lemma boundary_from_first_feature_witness :
  outcome_of (get_goa_boundary sample_world)
  = outcome_of (get_goa_boundary (world_with true (Return [Some triangle_3d]) true))
  /\ outcome_of (get_goa_boundary sample_world)
     = Return (Some (EEPolygon [[[73.9%Q; 15.3%Q]; [74.3%Q; 15.3%Q];
                                 [74.3%Q; 15.6%Q]; [73.9%Q; 15.3%Q]]])).
Proof.
  pose proof (boundary_from_first_feature
                (world_with true (Return [Some triangle_3d]) true) triangle_3d []
                eq_refl eq_refl eq_refl) as (_ & Hsame & _).
  pose proof (boundary_from_first_feature sample_world triangle_3d [Some square_2d]
                eq_refl eq_refl eq_refl) as (_ & _ & Hz).
  split.
  - apply (Hsame sample_world [Some square_2d]); reflexivity.
  - apply (Hz _ _ eq_refl). reflexivity.
Defined.

(** ** The run *)

Lemma bind_run {A B} (m : M A) (f : A -> M B) (w : World) (a : A) (t : list event) :
  m w = (Return a, t) ->
  bind m f w = (outcome_of (f a w), (t ++ trace_of (f a w))%list).
Proof.
  intros H. unfold bind. rewrite H. now destruct (f a w).
Qed.

Lemma bind_step {A B} (m : M A) (f : A -> M B) (w : World) (a : A)
      (t t' : list event) (r : Exc B) :
  m w = (Return a, t) -> f a w = (r, t') -> bind m f w = (r, (t ++ t')%list).
Proof.
  intros H1 H2. unfold bind. now rewrite H1, H2.
Qed.

Lemma initialize_ee_run (w : World) :
  exists t, initialize_ee w = (Return tt, t) /\ submitted t = [].
Proof.
  unfold initialize_ee, request, print, try_except, bind, ask, raise, emit, ret.
  cbn beta iota.
  destruct (authenticate_error w), (initialize_error w); cbn;
    eexists; split; reflexivity.
Qed.

(** C6.  When the loader has no boundary, [main] prints that it could not
    retrieve one and returns: nothing is submitted, and the only requests
    the service ever saw are those of the initialisation. *)
Theorem no_boundary_stops_run (catalog : string -> list string) (w : World) :
  outcome_of (get_goa_boundary w) = Return None ->
  outcome_of (main catalog w) = Return None
  /\ submitted (trace_of (main catalog w)) = []
  /\ remote_calls (trace_of (main catalog w))
     = remote_calls (trace_of (initialize_ee w))
  /\ trace_of (main catalog w)
     = (trace_of (initialize_ee w)
        ++ [Printed "Retrieving Goa boundary..."]
        ++ trace_of (get_goa_boundary w)
        ++ [Printed "Error: Could not retrieve Goa boundary"])%list.
Proof.
  intros Hnone.
  destruct (get_goa_boundary_run w) as (tb & Htb & Hb).
  rewrite Hb in Hnone. cbn in Hnone. injection Hnone as Hnone.
  destruct (initialize_ee_run w) as (ti & Hi & Hsub).
  assert (Hmain : main catalog w =
                  (Return None,
                   (ti ++ [Printed "Retrieving Goa boundary..."] ++ tb
                    ++ [Printed "Error: Could not retrieve Goa boundary"])%list)).
  { unfold main. rewrite (bind_run _ _ _ _ _ Hi).
    rewrite (bind_run (print "Retrieving Goa boundary...") _ w tt _ eq_refl).
    rewrite (bind_run _ _ _ _ _ Hb). rewrite Hnone. reflexivity. }
  rewrite Hmain, Hi, Hb. cbn [outcome_of trace_of fst snd].
  repeat split.
  - rewrite !submitted_app, Hsub. cbn.
    unfold printed_only, remote_calls in Htb.
    clear - Htb. induction tb as [| e tb IH]; [reflexivity |].
    cbn in Htb. destruct e; cbn in *; try discriminate; now apply IH.
  - rewrite !remote_calls_app. unfold printed_only in Htb. rewrite Htb. cbn.
    now rewrite app_nil_r.
Qed.

Lemma no_boundary_stops_run_witness :
  outcome_of (main sample_catalog world_without_file) = Return None
  /\ submitted (trace_of (main sample_catalog world_without_file)) = [].
Proof.
  pose proof (no_boundary_stops_run sample_catalog world_without_file eq_refl)
    as (H1 & H2 & _).
  split; [exact H1 | exact H2].
Defined.

Lemma print_run (s : string) (w : World) : print s w = (Return tt, [Printed s]).
Proof. reflexivity. Qed.

(** An export is configured, started and announced; nothing else. *)
Lemma export_to_asset_run (img : Image) (asset desc : string) (region : ee_geometry)
      (sc : Z) (w : World) :
  start_error w (mkTask img desc asset region sc 1e13%Q) = None ->
  export_to_asset img asset region (Some desc) sc w =
  (Return (mkTask img desc asset region sc 1e13%Q),
   [TaskStart (mkTask img desc asset region sc 1e13%Q);
    Printed ("Started export task: " ++ desc)]).
Proof.
  intros H.
  unfold export_to_asset, Export_image_toAsset, task_start, request, print,
    bind, ask, emit, ret, raise.
  cbn beta iota. rewrite H. reflexivity.
Qed.

Lemma landsat_loop_run (catalog : string -> list string) (goa : ee_geometry)
      (start_date end_date : string) (bs : list string) (acc : option Image)
      (w : World) :
  exists t, printed_only t /\
    for_each bs (Landsat.loop_body catalog goa start_date end_date) acc w =
    (Return (fold_left (accumulate_trend catalog goa start_date end_date) bs acc), t).
Proof.
  revert acc. induction bs as [| b bs IH]; intros acc.
  - exists []. split; reflexivity.
  - destruct (IH (accumulate_trend catalog goa start_date end_date acc b))
      as (t & Ht & Hrun).
    exists (Printed ("Calculating trend for " ++ b ++ "...") :: t).
    split; [exact Ht |].
    cbn [for_each fold_left].
    assert (Hbody : Landsat.loop_body catalog goa start_date end_date acc b w =
                    (Return (accumulate_trend catalog goa start_date end_date acc b),
                     [Printed ("Calculating trend for " ++ b ++ "...")]))
      by (destruct acc; reflexivity).
    rewrite (bind_run _ _ _ _ _ Hbody), Hrun. reflexivity.
Qed.

Lemma landsat_all_trends_some (catalog : string -> list string) (goa : ee_geometry) :
  exists img, landsat_all_trends catalog goa = Some img.
Proof. eexists. reflexivity. Qed.

Lemma process_landsat_run (catalog : string -> list string) (goa : ee_geometry)
      (w : World) (ls : Image) :
  (forall k, start_error w k = None) ->
  landsat_all_trends catalog goa = Some ls ->
  exists t, printed_only t /\
    Landsat.process_landsat_trends catalog goa
      Landsat.default_start_date Landsat.default_end_date w =
    (Return (ls, Landsat.ls8_with_smi catalog goa
                   Landsat.default_start_date Landsat.default_end_date),
     (t ++ [TaskStart (mkTask ls "Landsat_Trends_2023"
                              "users/jonasnothnagel/Trend2023_landsat" goa 30 1e13%Q);
            Printed "Started export task: Landsat_Trends_2023"])%list).
Proof.
  intros Hstart Hls.
  destruct (landsat_loop_run catalog goa Landsat.default_start_date
              Landsat.default_end_date Landsat.trend_bands None w)
    as (t & Ht & Hloop).
  fold (landsat_all_trends catalog goa) in Hloop. rewrite Hls in Hloop.
  exists (Printed "Processing Landsat 8 data and calculating trends..." :: t).
  split; [exact Ht |].
  unfold Landsat.process_landsat_trends.
  rewrite (bind_run _ _ _ _ _ (print_run _ w)).
  rewrite (bind_run _ _ _ _ _ Hloop).
  rewrite (bind_run _ _ _ _ _ (export_to_asset_run _ _ _ _ _ _ (Hstart _))).
  reflexivity.
Qed.

Lemma process_chirps_run (catalog : string -> list string) (goa : ee_geometry)
      (w : World) :
  (forall k, start_error w k = None) ->
  Chirps.process_chirps_trends catalog goa
    Chirps.default_start_date Chirps.default_end_date w =
  (Return (rain_trend catalog goa,
           Chirps.yearly_sums_collection catalog goa
             Chirps.default_start_date Chirps.default_end_date),
   [Printed "Processing CHIRPS precipitation data and calculating trends...";
    TaskStart (mkTask (rain_trend catalog goa) "Precipitation_Trend_1982_2022"
                      "users/jonasnothnagel/Trend2022_rain_new" goa 30 1e13%Q);
    Printed "Started export task: Precipitation_Trend_1982_2022"]).
Proof.
  intros Hstart. unfold Chirps.process_chirps_trends.
  rewrite (bind_run _ _ _ _ _ (print_run _ w)).
  rewrite (bind_run _ _ _ _ _ (export_to_asset_run _ _ _ _ _ _ (Hstart _))).
  reflexivity.
Qed.

Lemma process_smap_run (catalog : string -> list string) (goa : ee_geometry)
      (w : World) :
  (forall k, start_error w k = None) ->
  Smap.process_smap_trends catalog goa
    Smap.default_start_date Smap.default_end_date w =
  (Return (sm_trend catalog goa,
           Smap.smap catalog goa Smap.default_start_date Smap.default_end_date),
   [Printed "Processing SMAP soil moisture data and calculating trends...";
    TaskStart (mkTask (sm_trend catalog goa) "SM_Trend2015_2023"
                      "users/jonasnothnagel/Trend2023_SM_new" goa 30 1e13%Q);
    Printed "Started export task: SM_Trend2015_2023"]).
Proof.
  intros Hstart. unfold Smap.process_smap_trends.
  rewrite (bind_run _ _ _ _ _ (print_run _ w)).
  rewrite (bind_run _ _ _ _ _ (export_to_asset_run _ _ _ _ _ _ (Hstart _))).
  reflexivity.
Qed.

Lemma process_era5_run (catalog : string -> list string) (goa : ee_geometry)
      (w : World) :
  (forall k, start_error w k = None) ->
  Era5.process_era5_trends catalog goa
    Era5.default_start_date Era5.default_end_date w =
  (Return (rh_trend catalog goa,
           Era5.rh_collection catalog goa Era5.default_start_date Era5.default_end_date),
   [Printed "Processing ERA5 relative humidity data and calculating trends...";
    TaskStart (mkTask (rh_trend catalog goa) "RH_Trend1980_2023"
                      "users/jonasnothnagel/Trend2024_RH_new" goa 30 1e13%Q);
    Printed "Started export task: RH_Trend1980_2023"]).
Proof.
  intros Hstart. unfold Era5.process_era5_trends.
  rewrite (bind_run _ _ _ _ _ (print_run _ w)).
  rewrite (bind_run _ _ _ _ _ (export_to_asset_run _ _ _ _ _ _ (Hstart _))).
  reflexivity.
Qed.

Lemma printed_only_submitted (t : list event) : printed_only t -> submitted t = [].
Proof.
  unfold printed_only, remote_calls.
  induction t as [| e t IH]; intros H; [reflexivity |].
  cbn in H. destruct e; cbn in *; try discriminate; now apply IH.
Qed.

Lemma run_pipeline_run (catalog : string -> list string) (goa : ee_geometry)
      (w : World) (ls : Image) :
  (forall k, start_error w k = None) ->
  landsat_all_trends catalog goa = Some ls ->
  exists t r,
    run_pipeline catalog goa w = (Return (Some r), t)
    /\ trends r = merge_trend_layers ls (rain_trend catalog goa)
                                      (sm_trend catalog goa) (rh_trend catalog goa)
    /\ submitted t = expected_exports catalog goa ls
    /\ remote_calls t = map TaskStart (expected_exports catalog goa ls).
Proof.
  intros Hstart Hls.
  destruct (process_landsat_run catalog goa w ls Hstart Hls) as (tl & Htl & Hl).
  eexists. eexists. split.
  { unfold run_pipeline.
    eapply bind_step; [apply print_run |].
    eapply bind_step; [apply print_run |].
    eapply bind_step; [exact Hl |].
    eapply bind_step; [apply print_run |].
    eapply bind_step; [apply print_run |].
    eapply bind_step; [exact (process_chirps_run catalog goa w Hstart) |].
    eapply bind_step; [apply print_run |].
    eapply bind_step; [apply print_run |].
    eapply bind_step; [exact (process_smap_run catalog goa w Hstart) |].
    eapply bind_step; [apply print_run |].
    eapply bind_step; [apply print_run |].
    eapply bind_step; [exact (process_era5_run catalog goa w Hstart) |].
    eapply bind_step; [apply print_run |].
    eapply bind_step; [apply print_run |].
    eapply bind_step; [apply print_run |].
    eapply bind_step; [exact (export_to_asset_run _ _ _ _ _ _ (Hstart _)) |].
    eapply bind_step; [apply print_run |].
    eapply bind_step; [apply print_run |].
    reflexivity. }
  split; [reflexivity |].
  split.
  - repeat (rewrite submitted_app || cbn [submitted flat_map app]).
    rewrite (printed_only_submitted tl Htl). reflexivity.
  - unfold printed_only in Htl.
    repeat (rewrite remote_calls_app || cbn [remote_calls filter is_remote app]).
    fold (remote_calls tl). rewrite Htl. reflexivity.
Qed.

Lemma main_successful_run (catalog : string -> list string) (w : World)
      (goa : ee_geometry) (ls : Image) :
  outcome_of (get_goa_boundary w) = Return (Some goa) ->
  (forall k, start_error w k = None) ->
  landsat_all_trends catalog goa = Some ls ->
  submitted (trace_of (main catalog w)) = expected_exports catalog goa ls
  /\ remote_calls (trace_of (main catalog w))
     = (remote_calls (trace_of (initialize_ee w))
        ++ map TaskStart (expected_exports catalog goa ls))%list
  /\ (exists r, outcome_of (main catalog w) = Return (Some r)
                /\ trends r = merge_trend_layers ls (rain_trend catalog goa)
                                 (sm_trend catalog goa) (rh_trend catalog goa)).
Proof.
  intros Hgoa Hstart Hls.
  destruct (get_goa_boundary_run w) as (tb & Htb & Hb).
  rewrite Hb in Hgoa. cbn in Hgoa. injection Hgoa as Hgoa.
  destruct (initialize_ee_run w) as (ti & Hi & Hsub).
  destruct (run_pipeline_run catalog goa w ls Hstart Hls)
    as (tp & r & Hp & Hr & Hsubp & Hremp).
  assert (Hmain : main catalog w =
                  (Return (Some r),
                   (ti ++ [Printed "Retrieving Goa boundary..."] ++ tb ++ tp)%list)).
  { unfold main.
    eapply bind_step; [exact Hi |].
    eapply bind_step; [apply print_run |].
    eapply bind_step; [exact Hb |].
    rewrite Hgoa. exact Hp. }
  rewrite Hmain, Hi. cbn [outcome_of trace_of fst snd].
  split; [| split].
  - rewrite !submitted_app, Hsub, (printed_only_submitted tb Htb), Hsubp.
    reflexivity.
  - rewrite !remote_calls_app, Hremp. unfold printed_only in Htb. rewrite Htb.
    reflexivity.
  - exists r. split; [reflexivity | exact Hr].
Qed.

(** C3.  A run that obtains its boundary and whose requests are all
    accepted submits exactly five export tasks, in this order: the Landsat
    trends, the precipitation trend, the soil-moisture trend, the humidity
    trend and the merged image, each to its fixed asset, with the loaded
    boundary as region and scale 30.  Apart from the initialisation these
    five [start] requests are all the service sees: no task is asked for
    its status, and [export_to_asset] returns the task right after starting
    and announcing it. *)
Theorem full_run_submits_five_exports
        (catalog : string -> list string) (w : World) (goa : ee_geometry) :
  outcome_of (get_goa_boundary w) = Return (Some goa) ->
  (forall k, start_error w k = None) ->
  exists ls,
    landsat_all_trends catalog goa = Some ls
    /\ submitted (trace_of (main catalog w)) = expected_exports catalog goa ls
    /\ map (fun k => (assetId k, task_region k, scale k))
           (submitted (trace_of (main catalog w)))
       = [("users/jonasnothnagel/Trend2023_landsat", goa, 30%Z);
          ("users/jonasnothnagel/Trend2022_rain_new", goa, 30%Z);
          ("users/jonasnothnagel/Trend2023_SM_new", goa, 30%Z);
          ("users/jonasnothnagel/Trend2024_RH_new", goa, 30%Z);
          ("users/jonasnothnagel/Trend2024_all_new", goa, 30%Z)]
    /\ remote_calls (trace_of (main catalog w))
       = (remote_calls (trace_of (initialize_ee w))
          ++ map TaskStart (expected_exports catalog goa ls))%list
    /\ (forall img asset desc region sc,
          export_to_asset img asset region (Some desc) sc w
          = (Return (mkTask img desc asset region sc 1e13%Q),
             [TaskStart (mkTask img desc asset region sc 1e13%Q);
              Printed ("Started export task: " ++ desc)]))
    /\ (exists r, outcome_of (main catalog w) = Return (Some r)
                  /\ trends r = merge_trend_layers ls (rain_trend catalog goa)
                                   (sm_trend catalog goa) (rh_trend catalog goa)).
Proof.
  intros Hgoa Hstart.
  destruct (landsat_all_trends_some catalog goa) as (ls & Hls).
  exists ls. split; [exact Hls |].
  destruct (main_successful_run catalog w goa ls Hgoa Hstart Hls)
    as (Hsubmitted & Hremote & Hresult).
  split; [exact Hsubmitted |].
  split; [rewrite Hsubmitted; reflexivity |].
  split; [exact Hremote |].
  split; [| exact Hresult].
  intros img asset desc region sc. apply export_to_asset_run, Hstart.
Qed.

Lemma full_run_submits_five_exports_witness :
  map assetId (submitted (trace_of (main sample_catalog sample_world)))
  = ["users/jonasnothnagel/Trend2023_landsat";
     "users/jonasnothnagel/Trend2022_rain_new";
     "users/jonasnothnagel/Trend2023_SM_new";
     "users/jonasnothnagel/Trend2024_RH_new";
     "users/jonasnothnagel/Trend2024_all_new"]
  /\ remote_calls (trace_of (main sample_catalog sample_world))
     = (Authenticate :: Initialize
        :: map TaskStart (submitted (trace_of (main sample_catalog sample_world))))%list.
Proof.
  destruct (full_run_submits_five_exports sample_catalog sample_world sample_boundary)
    as (ls & _ & Hsub & _ & Hrem & _).
  - reflexivity.
  - intros k. reflexivity.
  - rewrite Hrem, Hsub. split; reflexivity.
Defined.

(** ** Band names of the trends *)

Lemma linearFit_bands (c : ImageCollection) :
  bands (reduce_linearFit c)
  = [("scale", fit_output "scale" c); ("offset", fit_output "offset" c)].
Proof.
  unfold fit_output, reduce_linearFit.
  destruct (bands (element c)) as [| [n1 x] [| [n2 y] [| z l]]]; reflexivity.
Qed.

Lemma select_fit_output (output : string) (c : ImageCollection) :
  output = "scale" \/ output = "offset" ->
  bands (select [output] (reduce_linearFit c)) = [(output, fit_output output c)].
Proof.
  intros [-> | ->]; unfold fit_output, reduce_linearFit;
    destruct (bands (element c)) as [| [n1 x] [| [n2 y] [| z l]]]; reflexivity.
Qed.

Lemma renamed_fit_output (name output : string) (c : ImageCollection) :
  output = "scale" \/ output = "offset" ->
  bands (rename [name] (select [output] (reduce_linearFit c)))
  = [(name, fit_output output c)].
Proof.
  intros H. unfold rename. cbn [bands]. rewrite select_fit_output by exact H.
  reflexivity.
Qed.

Lemma landsat_slope_bands (catalog : string -> list string) (goa : ee_geometry)
      (start_date end_date v : string) :
  bands (Landsat.slope catalog goa start_date end_date v)
  = [(v ++ "_Slope",
      fit_output "scale" (Landsat.stacked catalog goa start_date end_date v))].
Proof. apply renamed_fit_output. now left. Qed.

Lemma landsat_intercept_bands (catalog : string -> list string) (goa : ee_geometry)
      (start_date end_date v : string) :
  bands (Landsat.intercept catalog goa start_date end_date v)
  = [(v ++ "_Intercept",
      fit_output "offset" (Landsat.stacked catalog goa start_date end_date v))].
Proof. apply renamed_fit_output. now right. Qed.

Lemma bands_addBands (a b : Image) :
  bands (addBands a b) = append_bands (bands a) (bands b).
Proof. reflexivity. Qed.

Ltac forget_fits :=
  repeat match goal with
         | |- context [fit_output ?o ?c] =>
             let e := fresh "e" in
             generalize (fit_output o c); intro e
         end.

Lemma landsat_all_trends_bands (catalog : string -> list string) (goa : ee_geometry)
      (ls : Image) :
  landsat_all_trends catalog goa = Some ls ->
  bands ls =
  flat_map (fun v =>
    [(v ++ "_Slope",
      fit_output "scale" (Landsat.stacked catalog goa Landsat.default_start_date
                                          Landsat.default_end_date v));
     (v ++ "_Intercept",
      fit_output "offset" (Landsat.stacked catalog goa Landsat.default_start_date
                                           Landsat.default_end_date v))])
    Landsat.trend_bands.
Proof.
  unfold landsat_all_trends, Landsat.trend_bands.
  cbn [fold_left accumulate_trend]. intros H. injection H as <-.
  rewrite !bands_addBands.
  repeat match goal with
         | |- context [bands (Landsat.slope ?c ?g ?s ?e ?v)] =>
             rewrite (landsat_slope_bands c g s e v)
         | |- context [bands (Landsat.intercept ?c ?g ?s ?e ?v)] =>
             rewrite (landsat_intercept_bands c g s e v)
         end.
  cbn [flat_map app].
  forget_fits. reflexivity.
Qed.

Lemma simple_trend_bands (c : ImageCollection) (slope_name intercept_name : string) :
  String.eqb intercept_name slope_name = false ->
  bands (addBands (rename [slope_name] (select ["scale"] (reduce_linearFit c)))
                  (rename [intercept_name] (select ["offset"] (reduce_linearFit c))))
  = [(slope_name, fit_output "scale" c); (intercept_name, fit_output "offset" c)].
Proof.
  intros Hne. rewrite bands_addBands.
  rewrite (renamed_fit_output slope_name "scale" c) by now left.
  rewrite (renamed_fit_output intercept_name "offset" c) by now right.
  forget_fits.
  cbn [append_bands app map fst]. unfold fresh_name, name_taken.
  cbn [existsb]. rewrite Hne. reflexivity.
Qed.

Lemma rain_trend_bands (catalog : string -> list string) (goa : ee_geometry) :
  bands (rain_trend catalog goa)
  = [("rain_Slope",
      fit_output "scale" (Chirps.stacked catalog goa Chirps.default_start_date
                                         Chirps.default_end_date));
     ("rain_Intercept",
      fit_output "offset" (Chirps.stacked catalog goa Chirps.default_start_date
                                          Chirps.default_end_date))].
Proof. unfold rain_trend, Chirps.trend. now apply simple_trend_bands. Qed.

Lemma sm_trend_bands (catalog : string -> list string) (goa : ee_geometry) :
  bands (sm_trend catalog goa)
  = [("sm_surface_Slope",
      fit_output "scale" (Smap.soil_moisture_with_time catalog goa
                            Smap.default_start_date Smap.default_end_date));
     ("sm_surface_Intercept",
      fit_output "offset" (Smap.soil_moisture_with_time catalog goa
                             Smap.default_start_date Smap.default_end_date))].
Proof. unfold sm_trend, Smap.trend. now apply simple_trend_bands. Qed.

Lemma rh_trend_bands (catalog : string -> list string) (goa : ee_geometry) :
  bands (rh_trend catalog goa)
  = [("rh_Slope",
      fit_output "scale" (Era5.rh_with_time catalog goa
                            Era5.default_start_date Era5.default_end_date));
     ("rh_Intercept",
      fit_output "offset" (Era5.rh_with_time catalog goa
                             Era5.default_start_date Era5.default_end_date))].
Proof. unfold rh_trend, Era5.trend. now apply simple_trend_bands. Qed.

Lemma merged_band_names (catalog : string -> list string) (goa : ee_geometry)
      (ls : Image) :
  landsat_all_trends catalog goa = Some ls ->
  bandNames (merge_trend_layers ls (rain_trend catalog goa) (sm_trend catalog goa)
                                (rh_trend catalog goa))
  = trend_names (Landsat.trend_bands ++ ["rain"; "sm_surface"; "rh"]).
Proof.
  intros Hls. unfold bandNames, merge_trend_layers.
  rewrite !bands_addBands.
  rewrite (landsat_all_trends_bands catalog goa ls Hls).
  rewrite rain_trend_bands, sm_trend_bands, rh_trend_bands.
  unfold Landsat.trend_bands. cbn [flat_map app].
  forget_fits. reflexivity.
Qed.

Lemma landsat_stacked_sample (catalog : string -> list string) (goa : ee_geometry)
      (start_date end_date v : string) :
  catalog landsat_id = LC08_C02_T1_L2_bands ->
  Landsat.stacked catalog goa start_date end_date v =
  Landsat.stacked sample_catalog goa start_date end_date v.
Proof.
  intros H. unfold Landsat.stacked.
  rewrite (landsat_with_time_sample catalog) by exact H. reflexivity.
Qed.

Lemma landsat_regressed (catalog : string -> list string) (goa : ee_geometry)
      (start_date end_date v : string) :
  catalog landsat_id = LC08_C02_T1_L2_bands ->
  In v Landsat.trend_bands ->
  regressed_variables (Landsat.stacked catalog goa start_date end_date v) = [v].
Proof.
  intros H Hv. rewrite (landsat_stacked_sample catalog) by exact H.
  unfold Landsat.trend_bands in Hv. simpl in Hv.
  repeat (destruct Hv as [<- | Hv]; [vm_compute; reflexivity |]).
  contradiction.
Qed.

Lemma regressed_of_bands (c : ImageCollection) (l : list (string * expr)) :
  bands (element c) = l ->
  regressed_variables c = filter (fun b => negb (String.eqb b "time")) (map fst l).
Proof. intros <-. reflexivity. Qed.

Lemma stacked_of_bands (selectors : list string) (c : ImageCollection)
      (l : list (string * expr)) :
  bands (element c) = l ->
  bands (element (select_images selectors c))
  = flat_map (fun s => filter (fun b => Regex.matches s (fst b)) l) selectors.
Proof. intros <-. reflexivity. Qed.

Lemma landsat_slope_intercept (catalog : string -> list string) (goa : ee_geometry)
      (ls : Image) (v : string) :
  landsat_all_trends catalog goa = Some ls ->
  In v Landsat.trend_bands ->
  slope_intercept_of
    (Landsat.stacked catalog goa Landsat.default_start_date Landsat.default_end_date v)
    v ls.
Proof.
  intros Hls Hv. unfold slope_intercept_of, band_expr.
  rewrite (landsat_all_trends_bands catalog goa ls Hls).
  unfold Landsat.trend_bands in *. cbn [flat_map app]. simpl in Hv.
  repeat (destruct Hv as [<- | Hv]; [forget_fits; split; reflexivity |]).
  contradiction.
Qed.

(** C2, as far as the code goes.  Every builder emits, per regression, one
    band ending in [_Slope] taken from the reducer's [scale] output and one
    ending in [_Intercept] taken from its [offset] output.  The Landsat
    builder names them after the regressed band, for each of its eleven
    trend bands.  The other three builders use the fixed labels [rain],
    [sm_surface] and [rh], whereas the bands they regress are called
    [precipitation], [soil_moisture_am] and [RH].  The merged image holds
    the 28 names of the four builders, none of them twice. *)
Theorem trend_band_names (catalog : string -> list string) (goa : ee_geometry) :
  catalog_as_documented catalog ->
  exists ls,
    landsat_all_trends catalog goa = Some ls
    /\ bandNames ls = trend_names Landsat.trend_bands
    /\ (forall v, In v Landsat.trend_bands ->
          let inputs := Landsat.stacked catalog goa Landsat.default_start_date
                                        Landsat.default_end_date v in
          regressed_variables inputs = [v] /\ slope_intercept_of inputs v ls)
    /\ (let inputs := Chirps.stacked catalog goa Chirps.default_start_date
                                     Chirps.default_end_date in
        regressed_variables inputs = ["precipitation"]
        /\ bandNames (rain_trend catalog goa) = trend_names ["rain"]
        /\ slope_intercept_of inputs "rain" (rain_trend catalog goa))
    /\ (let inputs := Smap.soil_moisture_with_time catalog goa
                        Smap.default_start_date Smap.default_end_date in
        regressed_variables inputs = ["soil_moisture_am"]
        /\ bandNames (sm_trend catalog goa) = trend_names ["sm_surface"]
        /\ slope_intercept_of inputs "sm_surface" (sm_trend catalog goa))
    /\ (let inputs := Era5.rh_with_time catalog goa
                        Era5.default_start_date Era5.default_end_date in
        regressed_variables inputs = ["RH"]
        /\ bandNames (rh_trend catalog goa) = trend_names ["rh"]
        /\ slope_intercept_of inputs "rh" (rh_trend catalog goa))
    /\ bandNames (merge_trend_layers ls (rain_trend catalog goa)
                                     (sm_trend catalog goa) (rh_trend catalog goa))
       = trend_names (Landsat.trend_bands ++ ["rain"; "sm_surface"; "rh"])
    /\ NoDup (bandNames (merge_trend_layers ls (rain_trend catalog goa)
                            (sm_trend catalog goa) (rh_trend catalog goa))).
Proof.
  intros (HL & HC & HSnd & HS & HEnd & HET & HETd).
  destruct (landsat_all_trends_some catalog goa) as (ls & Hls).
  exists ls. split; [exact Hls |].
  split.
  { unfold bandNames. rewrite (landsat_all_trends_bands catalog goa ls Hls).
    unfold Landsat.trend_bands. cbn [flat_map app]. forget_fits. reflexivity. }
  split.
  { intros v Hv inputs. subst inputs. split.
    - now apply landsat_regressed.
    - now apply landsat_slope_intercept. }
  split.
  { cbn zeta. split; [| split].
    - unfold Chirps.stacked.
      rewrite (regressed_of_bands _ _
                 (stacked_of_bands ["time"; "precipitation"] _ _
                    (chirps_time_element catalog goa _ _ HC))).
      reflexivity.
    - unfold bandNames. rewrite rain_trend_bands. reflexivity.
    - unfold slope_intercept_of, band_expr. rewrite rain_trend_bands.
      forget_fits. split; reflexivity. }
  split.
  { cbn zeta. split; [| split].
    - rewrite (regressed_of_bands _ _ (smap_time_element catalog goa _ _ HSnd HS)).
      reflexivity.
    - unfold bandNames. rewrite sm_trend_bands. reflexivity.
    - unfold slope_intercept_of, band_expr. rewrite sm_trend_bands.
      forget_fits. split; reflexivity. }
  split.
  { cbn zeta. split; [| split].
    - rewrite (regressed_of_bands _ _
                 (era5_time_element catalog goa _ _ HEnd HET HETd)).
      reflexivity.
    - unfold bandNames. rewrite rh_trend_bands. reflexivity.
    - unfold slope_intercept_of, band_expr. rewrite rh_trend_bands.
      forget_fits. split; reflexivity. }
  split.
  { now apply merged_band_names. }
  rewrite (merged_band_names catalog goa ls Hls).
  vm_compute.
  repeat (constructor; [simpl; intuition discriminate |]).
  constructor.
Qed.

Lemma trend_band_names_witness :
  exists ls,
    landsat_all_trends sample_catalog sample_goa = Some ls
    /\ bandNames ls = trend_names Landsat.trend_bands
    /\ bandNames (rain_trend sample_catalog sample_goa) = ["rain_Slope"; "rain_Intercept"].
Proof.
  destruct (trend_band_names sample_catalog sample_goa sample_catalog_as_documented)
    as (ls & H1 & H2 & _ & (_ & H3 & _) & _).
  exists ls. split; [exact H1 |]. split; [exact H2 | exact H3].
Defined.

(** The precipitation builder regresses the band [precipitation] and calls
    its outputs [rain_Slope] and [rain_Intercept]: the names do not follow
    the regressed band. *)
Lemma rain_trend_not_named_after_band :
  ~ named_after_regressed
      (Chirps.stacked sample_catalog sample_goa
                      Chirps.default_start_date Chirps.default_end_date)
      (rain_trend sample_catalog sample_goa).
Proof.
  unfold named_after_regressed. intros H. vm_compute in H. discriminate H.
Qed.

Lemma chirps_stacked_sample (catalog : string -> list string) (goa : ee_geometry)
      (start_date end_date : string) :
  catalog chirps_id = ["precipitation"] ->
  Chirps.stacked catalog goa start_date end_date
  = Chirps.stacked sample_catalog goa start_date end_date.
Proof.
  intros H.
  unfold Chirps.stacked, Chirps.collection_with_time, Chirps.yearly_sums_collection,
    Chirps.yearly_sums, Chirps.createYearlySum, Chirps.chirps, ee_ImageCollection.
  fold chirps_id. rewrite H. reflexivity.
Qed.

(** The stacks handed to [linearFit]: the Landsat and precipitation
    builders put [time] first, so the fit explains the band by time; the
    soil-moisture and humidity builders reduce the collection as it is,
    band first and [time] second. *)
Lemma regression_input_order (catalog : string -> list string) (goa : ee_geometry) :
  catalog_as_documented catalog ->
  (forall v, In v Landsat.trend_bands ->
     bandNames (element (Landsat.stacked catalog goa Landsat.default_start_date
                                         Landsat.default_end_date v))
     = ["time"; v])
  /\ bandNames (element (Chirps.stacked catalog goa Chirps.default_start_date
                                        Chirps.default_end_date))
     = ["time"; "precipitation"]
  /\ bandNames (element (Smap.soil_moisture_with_time catalog goa
                           Smap.default_start_date Smap.default_end_date))
     = ["soil_moisture_am"; "time"]
  /\ bandNames (element (Era5.rh_with_time catalog goa
                           Era5.default_start_date Era5.default_end_date))
     = ["RH"; "time"].
Proof.
  intros (HL & HC & HSnd & HS & HEnd & HET & HETd).
  split; [| split; [| split]].
  - intros v Hv. rewrite (landsat_stacked_sample catalog) by exact HL.
    unfold Landsat.trend_bands in Hv. simpl in Hv.
    repeat (destruct Hv as [<- | Hv]; [vm_compute; reflexivity |]).
    contradiction.
  - rewrite (chirps_stacked_sample catalog) by exact HC. reflexivity.
  - unfold bandNames. now rewrite smap_time_element.
  - unfold bandNames. now rewrite era5_time_element.
Qed.

(** ** The moisture index *)

Lemma landsat_smi_band (catalog : string -> list string) (goa : ee_geometry)
      (start_date end_date : string) :
  catalog landsat_id = LC08_C02_T1_L2_bands ->
  band_expr "smi" (element (Landsat.ls8_with_smi catalog goa start_date end_date))
  = Some (swir_smi goa start_date end_date).
Proof.
  intros H. unfold Landsat.ls8_with_smi.
  rewrite (landsat_all_bands_sample catalog) by exact H. reflexivity.
Qed.

Lemma calculateSMI_band (catalog : string -> list string) (goa : ee_geometry)
      (start_date end_date : string) :
  catalog landsat_id = LC08_C02_T1_L2_bands ->
  band_expr "smi"
    (calculateSMI (element (Landsat.ls8_collection catalog goa start_date end_date)))
  = Some (thermal_smi goa).
Proof.
  intros H. rewrite (landsat_collection_sample catalog) by exact H. reflexivity.
Qed.

Lemma eval_swir_smi (rho : Env) (goa : ee_geometry) (start_date end_date : string)
      (v mn mx : pixel) :
  eval rho (scaled_swir goa) = Some v ->
  remote_value rho (swir_stat "min" goa start_date end_date) = Some mn ->
  remote_value rho (swir_stat "max" goa start_date end_date) = Some mx ->
  to_R mx <> to_R mn ->
  eval rho (swir_smi goa start_date end_date)
  = Some (PFloat (1 - (to_R v - to_R mn) / (to_R mx - to_R mn))%R).
Proof.
  intros Hv Hmn Hmx Hne. unfold swir_smi.
  cbn [eval]. rewrite Hv.
  change (eval rho (swir_stat "min" goa start_date end_date))
    with (remote_value rho (swir_stat "min" goa start_date end_date)).
  change (eval rho (swir_stat "max" goa start_date end_date))
    with (remote_value rho (swir_stat "max" goa start_date end_date)).
  rewrite Hmn, Hmx. cbn [eval_binop to_R].
  assert (Hnz : nonzero (PFloat (to_R mx - to_R mn)) = true).
  { unfold nonzero. cbn [to_R].
    destruct (Req_dec_T (to_R mx - to_R mn) 0) as [H0 | _]; [| reflexivity].
    elim Hne. lra. }
  rewrite Hnz. cbn [eval_binop to_R]. do 2 f_equal. lra.
Qed.

Lemma snd_append_bands (a b : list (string * expr)) :
  map snd (append_bands a b) = (map snd a ++ map snd b)%list.
Proof.
  revert a. induction b as [| [n e] b IH]; intros a; cbn [append_bands].
  - now rewrite app_nil_r.
  - rewrite IH, map_app. cbn [map snd]. now rewrite <- app_assoc.
Qed.

Lemma has_footprint_stat_exprs (img : Image) :
  image_has_footprint_stat img = existsb footprint_stat (map snd (bands img)).
Proof.
  unfold image_has_footprint_stat.
  induction (bands img) as [| b l IH]; [reflexivity |].
  cbn [existsb map]. now rewrite IH.
Qed.

Lemma has_footprint_stat_addBands (a b : Image) :
  image_has_footprint_stat (addBands a b)
  = image_has_footprint_stat a || image_has_footprint_stat b.
Proof.
  rewrite !has_footprint_stat_exprs, bands_addBands, snd_append_bands.
  apply existsb_app.
Qed.

Lemma fit_output_pair (o : string) (c : ImageCollection) (n1 n2 : string) (x y : expr) :
  o = "scale" \/ o = "offset" ->
  bands (element c) = [(n1, x); (n2, y)] ->
  fit_output o c = LinearFit o (source_of c) x y.
Proof.
  intros Ho Hb. unfold fit_output, reduce_linearFit. rewrite Hb.
  destruct Ho as [-> | ->]; reflexivity.
Qed.

(** No image the run exports reduces an image over its own footprint. *)
Lemma exports_without_footprint_stat (catalog : string -> list string)
      (goa : ee_geometry) (ls : Image) :
  catalog_as_documented catalog ->
  landsat_all_trends catalog goa = Some ls ->
  forall k, In k (expected_exports catalog goa ls) ->
            image_has_footprint_stat (image k) = false.
Proof.
  intros (HL & HC & HSnd & HS & HEnd & HET & HETd) Hls.
  assert (Hl : image_has_footprint_stat ls = false).
  { unfold image_has_footprint_stat.
    rewrite (landsat_all_trends_bands catalog goa ls Hls).
    unfold Landsat.trend_bands. cbn [flat_map app].
    repeat match goal with
           | |- context [Landsat.stacked catalog ?g ?s ?e ?v] =>
               rewrite (landsat_stacked_sample catalog g s e v HL)
           end.
    vm_compute. reflexivity. }
  assert (Hr : image_has_footprint_stat (rain_trend catalog goa) = false).
  { unfold image_has_footprint_stat. rewrite rain_trend_bands.
    rewrite (chirps_stacked_sample catalog) by exact HC.
    vm_compute. reflexivity. }
  assert (Hs : image_has_footprint_stat (sm_trend catalog goa) = false).
  { unfold image_has_footprint_stat. rewrite sm_trend_bands.
    rewrite !(fit_output_pair _ _ _ _ _ _ (or_introl eq_refl)
                (smap_time_element catalog goa _ _ HSnd HS)).
    rewrite !(fit_output_pair _ _ _ _ _ _ (or_intror eq_refl)
                (smap_time_element catalog goa _ _ HSnd HS)).
    reflexivity. }
  assert (Hh : image_has_footprint_stat (rh_trend catalog goa) = false).
  { unfold image_has_footprint_stat. rewrite rh_trend_bands.
    rewrite !(fit_output_pair _ _ _ _ _ _ (or_introl eq_refl)
                (era5_time_element catalog goa _ _ HEnd HET HETd)).
    rewrite !(fit_output_pair _ _ _ _ _ _ (or_intror eq_refl)
                (era5_time_element catalog goa _ _ HEnd HET HETd)).
    reflexivity. }
  intros k Hk. unfold expected_exports in Hk. simpl in Hk.
  destruct Hk as [<- | [<- | [<- | [<- | [<- | []]]]]]; cbn [image];
    try assumption.
  unfold merge_trend_layers.
  now rewrite !has_footprint_stat_addBands, Hl, Hr, Hs, Hh.
Qed.

(** C1, as far as the code goes.  The source defines both formulations:
    [calculateSMI] normalises ST_B10 by the extremes over the image's own
    footprint, [addSMI] normalises SR_B7 by the extremes, over the region,
    of the collection's mean composite.  Only the second is applied: the
    [smi] band that enters the trend regression is
    [1 - (SR_B7 - swir_min) / (swir_max - swir_min)], and no image the run
    exports contains a reduction over an image footprint, so the thermal
    formulation is never computed. *)
Theorem smi_is_shortwave_normalisation
        (catalog : string -> list string) (w : World) (goa : ee_geometry)
        (rho : Env) (v mn mx : pixel) :
  catalog_as_documented catalog ->
  outcome_of (get_goa_boundary w) = Return (Some goa) ->
  (forall k, start_error w k = None) ->
  eval rho (scaled_swir goa) = Some v ->
  remote_value rho (swir_stat "min" goa Landsat.default_start_date
                              Landsat.default_end_date) = Some mn ->
  remote_value rho (swir_stat "max" goa Landsat.default_start_date
                              Landsat.default_end_date) = Some mx ->
  to_R mx <> to_R mn ->
  let scenes := Landsat.ls8_collection catalog goa Landsat.default_start_date
                                       Landsat.default_end_date in
  let regressed := Landsat.ls8_with_smi catalog goa Landsat.default_start_date
                                        Landsat.default_end_date in
  (band_expr "smi" (calculateSMI (element scenes)) = Some (thermal_smi goa)
   /\ footprint_stat (thermal_smi goa) = true)
  /\ In "smi" Landsat.trend_bands
  /\ band_expr "smi" (element regressed)
     = Some (swir_smi goa Landsat.default_start_date Landsat.default_end_date)
  /\ pixel_of rho "smi" (element regressed)
     = Some (PFloat (1 - (to_R v - to_R mn) / (to_R mx - to_R mn))%R)
  /\ (forall k, In k (submitted (trace_of (main catalog w))) ->
                image_has_footprint_stat (image k) = false).
Proof.
  intros Hcat Hgoa Hstart Hv Hmn Hmx Hne scenes regressed. subst scenes regressed.
  pose proof Hcat as (HL & _).
  split; [split |].
  - now apply calculateSMI_band.
  - reflexivity.
  - split; [unfold Landsat.trend_bands; simpl; tauto |].
    split; [now apply landsat_smi_band |].
    split.
    + unfold pixel_of. rewrite landsat_smi_band by exact HL.
      now apply eval_swir_smi.
    + destruct (landsat_all_trends_some catalog goa) as (ls & Hls).
      destruct (main_successful_run catalog w goa ls Hgoa Hstart Hls) as (Hsub & _).
      rewrite Hsub. now apply exports_without_footprint_stat.
Qed.

Lemma smi_is_shortwave_normalisation_witness :
  pixel_of moist_pixel "smi"
    (element (Landsat.ls8_with_smi sample_catalog sample_boundary
                Landsat.default_start_date Landsat.default_end_date))
  = Some (PFloat (1 - (to_R (PFloat (10000 * 0.0000275 - 0.2)) - to_R (PFloat 0))
                      / (to_R (PFloat 0.5) - to_R (PFloat 0)))%R).
Proof.
  refine (proj1 (proj2 (proj2 (proj2
            (smi_is_shortwave_normalisation sample_catalog sample_world
               sample_boundary moist_pixel
               (PFloat (10000 * 0.0000275 - 0.2)) (PFloat 0) (PFloat 0.5)
               sample_catalog_as_documented eq_refl (fun _ => eq_refl)
               _ eq_refl eq_refl _))))).
  - unfold scaled_swir. cbn [eval]. rewrite eval_masked_scaled.
    cbn. do 2 f_equal. unfold Q2R. simpl. lra.
  - cbn. lra.
Defined.

(** Had [calculateSMI] been mapped before [addSMI], the two bands would
    have met under one name: [addBands] keeps the first [smi], the thermal
    one, and the shortwave index would have become [smi_1]. *)
Remark both_indices_would_clash (goa : ee_geometry) (start_date end_date : string) :
  let scene := element (Landsat.ls8_collection sample_catalog goa start_date end_date) in
  let both := Landsat.addSMI sample_catalog goa start_date end_date (calculateSMI scene) in
  band_expr "smi" both = Some (thermal_smi goa)
  /\ band_expr "smi_1" both = Some (swir_smi goa start_date end_date).
Proof. split; reflexivity. Qed.

(** No task of a run on the sample world exports the thermal index. *)
Lemma thermal_smi_not_computed :
  ~ thermal_smi_computed (submitted (trace_of (main sample_catalog sample_world))).
Proof.
  intros (k & Hk & Hf).
  destruct (landsat_all_trends_some sample_catalog sample_boundary) as (ls & Hls).
  destruct (main_successful_run sample_catalog sample_world sample_boundary ls
              eq_refl (fun _ => eq_refl) Hls) as (Hsub & _).
  rewrite Hsub in Hk.
  rewrite (exports_without_footprint_stat sample_catalog sample_boundary ls
             sample_catalog_as_documented Hls k Hk) in Hf.
  discriminate Hf.
Qed.

(* ================================================================== *)
(** * Further properties of the script *)

(** ** Initialisation and failures of the service *)

Lemma bind_raise {A B} (m : M A) (f : A -> M B) (w : World) (e : string)
      (t : list event) :
  m w = (Raise e, t) -> bind m f w = (Raise e, t).
Proof. intros H. unfold bind. now rewrite H. Qed.

Lemma initialize_ee_cases (w : World) :
  initialize_ee w =
  match authenticate_error w, initialize_error w with
  | Some e, _ =>
      (Return tt,
       [Printed ("Error initializing Earth Engine API: " ++ e);
        Printed "Make sure you have authenticated with Earth Engine using ee.Authenticate()"])
  | None, Some e =>
      (Return tt,
       [Authenticate;
        Printed ("Error initializing Earth Engine API: " ++ e);
        Printed "Make sure you have authenticated with Earth Engine using ee.Authenticate()"])
  | None, None =>
      (Return tt,
       [Authenticate; Initialize;
        Printed "Earth Engine API initialized successfully."])
  end.
Proof.
  unfold initialize_ee, request, print, try_except, bind, ask, raise, emit, ret.
  cbn beta iota.
  destruct (authenticate_error w), (initialize_error w); reflexivity.
Qed.

(** X1.  [initialize_ee] never raises.  When authentication fails the
    session is not initialised at all, when initialisation fails it has
    been authenticated; either way the error is printed with a hint and
    the function returns normally. *)
Theorem initialize_ee_swallows_errors (w : World) :
  outcome_of (initialize_ee w) = Return tt
  /\ trace_of (initialize_ee w) =
     match authenticate_error w, initialize_error w with
     | Some e, _ =>
         [Printed ("Error initializing Earth Engine API: " ++ e);
          Printed "Make sure you have authenticated with Earth Engine using ee.Authenticate()"]
     | None, Some e =>
         [Authenticate;
          Printed ("Error initializing Earth Engine API: " ++ e);
          Printed "Make sure you have authenticated with Earth Engine using ee.Authenticate()"]
     | None, None =>
         [Authenticate; Initialize;
          Printed "Earth Engine API initialized successfully."]
     end.
Proof.
  rewrite initialize_ee_cases.
  destruct (authenticate_error w), (initialize_error w); split; reflexivity.
Qed.




(** X3.  A start request the service rejects makes [export_to_asset] raise
    the service's error: the task is not recorded as started and the
    message "Started export task" is not printed. *)
Theorem export_to_asset_propagates_rejection
        (img : Image) (asset : string) (region : ee_geometry)
        (desc : option string) (sc : Z) (w : World) (e : string) :
  let d := match desc with
           | None => last_segment asset
           | Some d => d
           end in
  start_error w (mkTask img d asset region sc 1e13%Q) = Some e ->
  export_to_asset img asset region desc sc w = (Raise e, []).
Proof.
  intros d H. subst d.
  unfold export_to_asset, Export_image_toAsset, task_start, request, print,
    bind, ask, emit, ret, raise.
  cbn beta iota. rewrite H. reflexivity.
Qed.

Lemma export_to_asset_propagates_rejection_witness :
  export_to_asset (rain_trend sample_catalog sample_boundary)
                  "users/jonasnothnagel/Trend2022_rain_new" sample_boundary
                  (Some "Precipitation_Trend_1982_2022") 30 world_rejecting_rain
  = (Raise "quota exceeded", []).
Proof.
  apply export_to_asset_propagates_rejection. reflexivity.
Defined.

Lemma export_to_asset_rejected (img : Image) (asset desc : string)
      (region : ee_geometry) (sc : Z) (w : World) (e : string) :
  start_error w (mkTask img desc asset region sc 1e13%Q) = Some e ->
  export_to_asset img asset region (Some desc) sc w = (Raise e, []).
Proof.
  intros H.
  unfold export_to_asset, Export_image_toAsset, task_start, request, print,
    bind, ask, emit, ret, raise.
  cbn beta iota. rewrite H. reflexivity.
Qed.

Lemma last_segment_aux_app (a b current : string) :
  last_segment_aux (a ++ b) current = last_segment_aux b (last_segment_aux a current).
Proof.
  revert current. induction a as [| c a IH]; intros current; [reflexivity |].
  cbn [append last_segment_aux]. destruct (Ascii.eqb c "/"%char); apply IH.
Qed.

Lemma append_assoc (a b c : string) : (a ++ b) ++ c = a ++ (b ++ c).
Proof.
  induction a as [| x a IH]; [reflexivity |]. cbn [append]. now rewrite IH.
Qed.

Lemma append_empty_r (a : string) : a ++ "" = a.
Proof.
  induction a as [| x a IH]; [reflexivity |]. cbn [append]. now rewrite IH.
Qed.

Lemma last_segment_aux_no_slash (s current : string) :
  no_slash s = true -> last_segment_aux s current = current ++ s.
Proof.
  revert current. induction s as [| c s IH]; intros current H.
  - cbn. now rewrite append_empty_r.
  - unfold no_slash in H. cbn in H. apply andb_true_iff in H. destruct H as [Hc Hs].
    apply negb_true_iff in Hc. cbn [last_segment_aux]. rewrite Hc.
    rewrite IH by exact Hs. rewrite append_assoc. reflexivity.
Qed.

(** [split('/')[-1]]: what follows the last slash, or the whole name when
    it has none. *)
Lemma last_segment_after_slash (prefix seg : string) :
  no_slash seg = true -> last_segment (prefix ++ "/" ++ seg) = seg.
Proof.
  intros H. unfold last_segment.
  rewrite last_segment_aux_app. cbn [append last_segment_aux Ascii.eqb Bool.eqb].
  now rewrite last_segment_aux_no_slash.
Qed.

(** X4.  Without a description, [export_to_asset] names the task after the
    last path segment of the asset identifier (the whole identifier when
    it contains no slash), and announces it under that name. *)
Theorem export_description_defaults_to_last_segment
        (img : Image) (prefix seg : string) (region : ee_geometry) (sc : Z)
        (w : World) :
  no_slash seg = true ->
  (forall k, start_error w k = None) ->
  let in_folder := mkTask img seg (prefix ++ "/" ++ seg) region sc 1e13%Q in
  let bare := mkTask img seg seg region sc 1e13%Q in
  export_to_asset img (prefix ++ "/" ++ seg) region None sc w
  = (Return in_folder,
     [TaskStart in_folder; Printed ("Started export task: " ++ seg)])
  /\ export_to_asset img seg region None sc w
     = (Return bare, [TaskStart bare; Printed ("Started export task: " ++ seg)]).
Proof.
  intros Hseg Hstart in_folder bare. subst in_folder bare.
  unfold export_to_asset, Export_image_toAsset, task_start, request, print,
    bind, ask, emit, ret, raise.
  cbn beta iota. rewrite !Hstart.
  rewrite last_segment_after_slash by exact Hseg.
  unfold last_segment. rewrite last_segment_aux_no_slash by exact Hseg.
  cbn [append]. split; reflexivity.
Qed.

Lemma export_description_defaults_to_last_segment_witness :
  description
    (match outcome_of (export_to_asset (constant (ConstI 1))
                         "users/jonasnothnagel/Trend2024_all_new" sample_boundary
                         None 30 sample_world) with
     | Return k => k
     | Raise _ => mkTask (constant Null) "" "" sample_boundary 0 0%Q
     end)
  = "Trend2024_all_new".
Proof.
  pose proof (export_description_defaults_to_last_segment
                (constant (ConstI 1)) "users/jonasnothnagel" "Trend2024_all_new"
                sample_boundary 30 sample_world eq_refl (fun _ => eq_refl))
    as [H _].
  cbn [append] in H. rewrite H. reflexivity.
Defined.

Lemma export_to_asset_outcome (img : Image) (asset desc : string)
      (region : ee_geometry) (sc : Z) (w : World) :
  export_to_asset img asset region (Some desc) sc w =
  match start_error w (mkTask img desc asset region sc 1e13%Q) with
  | None => (Return (mkTask img desc asset region sc 1e13%Q),
             [TaskStart (mkTask img desc asset region sc 1e13%Q);
              Printed ("Started export task: " ++ desc)])
  | Some e => (Raise e, [])
  end.
Proof.
  unfold export_to_asset, Export_image_toAsset, task_start, request, print,
    bind, ask, emit, ret, raise.
  cbn beta iota.
  destruct (start_error w (mkTask img desc asset region sc 1e13%Q)); reflexivity.
Qed.

Lemma main_of_pipeline (catalog : string -> list string) (w : World)
      (goa : ee_geometry) (o : Exc (option Results)) (tp : list event) :
  outcome_of (get_goa_boundary w) = Return (Some goa) ->
  run_pipeline catalog goa w = (o, tp) ->
  outcome_of (main catalog w) = o
  /\ submitted (trace_of (main catalog w)) = submitted tp
  /\ remote_calls (trace_of (main catalog w))
     = (remote_calls (trace_of (initialize_ee w)) ++ remote_calls tp)%list.
Proof.
  intros Hgoa Hp.
  destruct (get_goa_boundary_run w) as (tb & Htb & Hb).
  rewrite Hb in Hgoa. cbn in Hgoa. injection Hgoa as Hgoa.
  destruct (initialize_ee_run w) as (ti & Hi & Hsub).
  assert (Hmain : main catalog w =
                  (o, (ti ++ [Printed "Retrieving Goa boundary..."] ++ tb ++ tp)%list)).
  { unfold main.
    eapply bind_step; [exact Hi |].
    eapply bind_step; [apply print_run |].
    eapply bind_step; [exact Hb |].
    rewrite Hgoa. exact Hp. }
  rewrite Hmain, Hi. cbn [outcome_of trace_of fst snd].
  split; [reflexivity |]. split.
  - rewrite !submitted_app, Hsub, (printed_only_submitted tb Htb). reflexivity.
  - rewrite !remote_calls_app. unfold printed_only in Htb. rewrite Htb. reflexivity.
Qed.

Ltac print_steps := repeat (eapply bind_step; [apply print_run |]).

Lemma submitted_print (s : string) (t : list event) :
  submitted (Printed s :: t) = submitted t.
Proof. reflexivity. Qed.

Lemma submitted_start (k : Task) (t : list event) :
  submitted (TaskStart k :: t) = k :: submitted t.
Proof. reflexivity. Qed.

Lemma remote_calls_print (s : string) (t : list event) :
  remote_calls (Printed s :: t) = remote_calls t.
Proof. reflexivity. Qed.

Lemma remote_calls_start (k : Task) (t : list event) :
  remote_calls (TaskStart k :: t) = TaskStart k :: remote_calls t.
Proof. reflexivity. Qed.

Ltac trace_calc Hs Hr :=
  cbn [app];
  repeat first [ rewrite submitted_app | rewrite submitted_print
               | rewrite submitted_start | rewrite remote_calls_app
               | rewrite remote_calls_print | rewrite remote_calls_start
               | rewrite Hs | rewrite Hr ];
  reflexivity.

Ltac trace_facts Htl :=
  split;
  [ repeat (rewrite submitted_app || cbn [submitted flat_map app]);
    rewrite (printed_only_submitted _ Htl); reflexivity
  | unfold printed_only in Htl;
    repeat (rewrite remote_calls_app || cbn [remote_calls filter is_remote app]);
    fold (remote_calls); rewrite ?Htl; unfold remote_calls in *; rewrite ?Htl;
    reflexivity ].

Lemma run_pipeline_outcome (catalog : string -> list string) (goa : ee_geometry)
      (w : World) (ls : Image) :
  landsat_all_trends catalog goa = Some ls ->
  exists o tp,
    run_pipeline catalog goa w = (o, tp)
    /\ match first_rejection w (expected_exports catalog goa ls) with
       | Some e => o = Raise e
       | None => exists r, o = Return (Some r)
       end
    /\ submitted tp = accepted_prefix w (expected_exports catalog goa ls)
    /\ remote_calls tp = map TaskStart (accepted_prefix w (expected_exports catalog goa ls)).
Proof.
  intros Hls.
  destruct (landsat_loop_run catalog goa Landsat.default_start_date
              Landsat.default_end_date Landsat.trend_bands None w)
    as (tl & Htl & Hloop).
  fold (landsat_all_trends catalog goa) in Hloop. rewrite Hls in Hloop.
  unfold expected_exports.
  cbn [first_rejection accepted_prefix].
  destruct (start_error w (mkTask ls "Landsat_Trends_2023"
              "users/jonasnothnagel/Trend2023_landsat" goa 30 1e13%Q)) as [e1 |] eqn:H1.
  { do 2 eexists. split.
    - unfold run_pipeline. print_steps.
      eapply bind_raise. unfold Landsat.process_landsat_trends.
      eapply bind_step; [apply print_run |].
      eapply bind_step; [exact Hloop |].
      eapply bind_raise. rewrite export_to_asset_outcome, H1. reflexivity.
    - split; [reflexivity |]. trace_facts Htl. }
  assert (HL : exists t, Landsat.process_landsat_trends catalog goa
                 Landsat.default_start_date Landsat.default_end_date w
               = (Return (ls, Landsat.ls8_with_smi catalog goa
                            Landsat.default_start_date Landsat.default_end_date), t)
               /\ submitted t = [mkTask ls "Landsat_Trends_2023"
                                  "users/jonasnothnagel/Trend2023_landsat" goa 30 1e13%Q]
               /\ remote_calls t = [TaskStart (mkTask ls "Landsat_Trends_2023"
                                  "users/jonasnothnagel/Trend2023_landsat" goa 30 1e13%Q)]).
  { eexists. split.
    - unfold Landsat.process_landsat_trends.
      eapply bind_step; [apply print_run |].
      eapply bind_step; [exact Hloop |].
      eapply bind_step; [rewrite export_to_asset_outcome, H1; reflexivity |].
      reflexivity.
    - trace_facts Htl. }
  destruct HL as (tL & HL & HLs & HLr).
  destruct (start_error w (mkTask (rain_trend catalog goa)
              "Precipitation_Trend_1982_2022"
              "users/jonasnothnagel/Trend2022_rain_new" goa 30 1e13%Q)) as [e2 |] eqn:H2.
  { do 2 eexists. split.
    - unfold run_pipeline. print_steps.
      eapply bind_step; [exact HL |]. print_steps.
      eapply bind_raise. unfold Chirps.process_chirps_trends. print_steps.
      eapply bind_raise.
      rewrite export_to_asset_outcome. fold (rain_trend catalog goa).
      rewrite H2. reflexivity.
    - split; [reflexivity |].
      split; trace_calc HLs HLr. }
  assert (HC : Chirps.process_chirps_trends catalog goa
                 Chirps.default_start_date Chirps.default_end_date w
               = (Return (rain_trend catalog goa,
                          Chirps.yearly_sums_collection catalog goa
                            Chirps.default_start_date Chirps.default_end_date),
                  [Printed "Processing CHIRPS precipitation data and calculating trends...";
                   TaskStart (mkTask (rain_trend catalog goa)
                                "Precipitation_Trend_1982_2022"
                                "users/jonasnothnagel/Trend2022_rain_new" goa 30 1e13%Q);
                   Printed "Started export task: Precipitation_Trend_1982_2022"])).
  { etransitivity.
    - unfold Chirps.process_chirps_trends.
      eapply bind_step; [apply print_run |].
      eapply bind_step;
        [rewrite export_to_asset_outcome; fold (rain_trend catalog goa);
         rewrite H2; reflexivity |].
      reflexivity.
    - reflexivity. }
  destruct (start_error w (mkTask (sm_trend catalog goa) "SM_Trend2015_2023"
              "users/jonasnothnagel/Trend2023_SM_new" goa 30 1e13%Q)) as [e3 |] eqn:H3.
  { do 2 eexists. split.
    - unfold run_pipeline. print_steps.
      eapply bind_step; [exact HL |]. print_steps.
      eapply bind_step; [exact HC |]. print_steps.
      eapply bind_raise. unfold Smap.process_smap_trends. print_steps.
      eapply bind_raise.
      rewrite export_to_asset_outcome. fold (sm_trend catalog goa).
      rewrite H3. reflexivity.
    - split; [reflexivity |].
      split; trace_calc HLs HLr. }
  assert (HS : Smap.process_smap_trends catalog goa
                 Smap.default_start_date Smap.default_end_date w
               = (Return (sm_trend catalog goa,
                          Smap.smap catalog goa Smap.default_start_date
                                    Smap.default_end_date),
                  [Printed "Processing SMAP soil moisture data and calculating trends...";
                   TaskStart (mkTask (sm_trend catalog goa) "SM_Trend2015_2023"
                                "users/jonasnothnagel/Trend2023_SM_new" goa 30 1e13%Q);
                   Printed "Started export task: SM_Trend2015_2023"])).
  { etransitivity.
    - unfold Smap.process_smap_trends.
      eapply bind_step; [apply print_run |].
      eapply bind_step;
        [rewrite export_to_asset_outcome; fold (sm_trend catalog goa);
         rewrite H3; reflexivity |].
      reflexivity.
    - reflexivity. }
  destruct (start_error w (mkTask (rh_trend catalog goa) "RH_Trend1980_2023"
              "users/jonasnothnagel/Trend2024_RH_new" goa 30 1e13%Q)) as [e4 |] eqn:H4.
  { do 2 eexists. split.
    - unfold run_pipeline. print_steps.
      eapply bind_step; [exact HL |]. print_steps.
      eapply bind_step; [exact HC |]. print_steps.
      eapply bind_step; [exact HS |]. print_steps.
      eapply bind_raise. unfold Era5.process_era5_trends. print_steps.
      eapply bind_raise.
      rewrite export_to_asset_outcome. fold (rh_trend catalog goa).
      rewrite H4. reflexivity.
    - split; [reflexivity |].
      split; trace_calc HLs HLr. }
  assert (HE : Era5.process_era5_trends catalog goa
                 Era5.default_start_date Era5.default_end_date w
               = (Return (rh_trend catalog goa,
                          Era5.rh_collection catalog goa Era5.default_start_date
                                             Era5.default_end_date),
                  [Printed "Processing ERA5 relative humidity data and calculating trends...";
                   TaskStart (mkTask (rh_trend catalog goa) "RH_Trend1980_2023"
                                "users/jonasnothnagel/Trend2024_RH_new" goa 30 1e13%Q);
                   Printed "Started export task: RH_Trend1980_2023"])).
  { etransitivity.
    - unfold Era5.process_era5_trends.
      eapply bind_step; [apply print_run |].
      eapply bind_step;
        [rewrite export_to_asset_outcome; fold (rh_trend catalog goa);
         rewrite H4; reflexivity |].
      reflexivity.
    - reflexivity. }
  change (merge_trend_layers ls (rain_trend catalog goa) (sm_trend catalog goa)
                             (rh_trend catalog goa))
    with (addBands (addBands (addBands ls (rain_trend catalog goa))
                             (sm_trend catalog goa)) (rh_trend catalog goa)).
  destruct (start_error w
              (mkTask (addBands (addBands (addBands ls (rain_trend catalog goa))
                                          (sm_trend catalog goa)) (rh_trend catalog goa))
                      "All_Trends_2024"
                      "users/jonasnothnagel/Trend2024_all_new" goa 30 1e13%Q))
    as [e5 |] eqn:H5.
  { do 2 eexists. split.
    - unfold run_pipeline. print_steps.
      eapply bind_step; [exact HL |]. print_steps.
      eapply bind_step; [exact HC |]. print_steps.
      eapply bind_step; [exact HS |]. print_steps.
      eapply bind_step; [exact HE |]. print_steps.
      cbn [fst snd].
      eapply bind_raise. rewrite export_to_asset_outcome, H5. reflexivity.
    - split; [reflexivity |].
      split; trace_calc HLs HLr. }
  do 2 eexists. split.
  - unfold run_pipeline. print_steps.
    eapply bind_step; [exact HL |]. print_steps.
    eapply bind_step; [exact HC |]. print_steps.
    eapply bind_step; [exact HS |]. print_steps.
    eapply bind_step; [exact HE |]. print_steps.
    cbn [fst snd].
    eapply bind_step; [rewrite export_to_asset_outcome, H5; reflexivity |].
    print_steps. reflexivity.
  - split; [eexists; reflexivity |].
    split; trace_calc HLs HLr.
Qed.

(** X5.  When the service rejects a start request, the run ends there
    with the service's error: the exports before it stay submitted, in
    order, and none after it is attempted.  With no rejection the run
    returns its results. *)
Theorem run_stops_at_first_rejected_start
        (catalog : string -> list string) (w : World) (goa : ee_geometry)
        (ls : Image) :
  outcome_of (get_goa_boundary w) = Return (Some goa) ->
  landsat_all_trends catalog goa = Some ls ->
  let exports := expected_exports catalog goa ls in
  submitted (trace_of (main catalog w)) = accepted_prefix w exports
  /\ remote_calls (trace_of (main catalog w))
     = (remote_calls (trace_of (initialize_ee w))
        ++ map TaskStart (accepted_prefix w exports))%list
  /\ match first_rejection w exports with
     | Some e => outcome_of (main catalog w) = Raise e
     | None => exists r, outcome_of (main catalog w) = Return (Some r)
     end.
Proof.
  intros Hgoa Hls exports. subst exports.
  destruct (run_pipeline_outcome catalog goa w ls Hls) as (o & tp & Hp & Ho & Hs & Hr).
  destruct (main_of_pipeline catalog w goa o tp Hgoa Hp) as (Hout & Hsub & Hrem).
  rewrite Hout, Hsub, Hrem, Hs, Hr.
  split; [reflexivity |]. split; [reflexivity | exact Ho].
Qed.

Lemma run_stops_at_first_rejected_start_witness :
  outcome_of (main sample_catalog world_rejecting_rain) = Raise "quota exceeded"
  /\ map assetId (submitted (trace_of (main sample_catalog world_rejecting_rain)))
     = ["users/jonasnothnagel/Trend2023_landsat"].
Proof.
  destruct (landsat_all_trends_some sample_catalog sample_boundary) as (ls & Hls).
  pose proof (run_stops_at_first_rejected_start sample_catalog world_rejecting_rain
                sample_boundary ls eq_refl Hls) as (Hsub & _ & Hout).
  split; [exact Hout | rewrite Hsub; reflexivity].
Defined.

(** ** The boundary loader, further *)

(** X6.  [debug_shapefile] never raises and only prints.  It hands back
    the frame exactly as read, or [None] when reading fails, and it warns
    about invalid geometries exactly when some row is invalid or has no
    geometry. *)
Theorem debug_shapefile_reports_without_altering (w : World) (path : string) :
  outcome_of (debug_shapefile path w)
  = Return (match read_file w path with
            | Return gdf => Some gdf
            | Raise _ => None
            end)
  /\ printed_only (trace_of (debug_shapefile path w))
  /\ (forall gdf, read_file w path = Return gdf ->
        (In (Printed (nl ++ "Warning: Found invalid geometries!"))
            (trace_of (debug_shapefile path w))
         <-> existsb (is_invalid_row w) gdf = true))
  /\ (forall e, read_file w path = Raise e ->
        trace_of (debug_shapefile path w)
        = [Printed (nl ++ "Debugging shapefile...");
           Printed ("Error debugging shapefile: " ++ e)]).
Proof.
  unfold debug_shapefile, try_except, bind, ask, print, print_object, emit, ret,
    raise.
  destruct (read_file w path) as [gdf | e]; cbn beta iota.
  - assert (Hcount : len (invalid_rows (geos_is_valid w) gdf) = 0%nat
                     <-> existsb (is_invalid_row w) gdf = false).
    { unfold len, invalid_rows.
      induction gdf as [| row gdf IH]; [now split |].
      cbn [filter existsb is_invalid_row].
      destruct row as [g |]; cbn [is_invalid_row].
      - destruct (negb (geos_is_valid w g)); cbn; [split; discriminate | exact IH].
      - cbn. split; discriminate. }
    destruct (len (invalid_rows (geos_is_valid w) gdf)) as [| n] eqn:Hn; cbn.
    + split; [reflexivity |]. split; [reflexivity |]. split; [| discriminate].
      intros gdf' Hg. injection Hg as <-.
      rewrite (proj1 Hcount eq_refl). split; [| discriminate].
      intros H. repeat (destruct H as [H | H]; [discriminate H |]). contradiction.
    + split; [reflexivity |]. split; [reflexivity |]. split; [| discriminate].
      intros gdf' Hg. injection Hg as <-.
      split.
      * intros _. destruct (existsb (is_invalid_row w) gdf); [reflexivity |].
        discriminate (proj2 Hcount eq_refl).
      * intros _. do 6 right. now left.
  - cbn. split; [reflexivity |]. split; [reflexivity |]. split; [discriminate |].
    intros e' He. injection He as <-. reflexivity.
Qed.

Lemma debug_shapefile_reports_without_altering_witness :
  outcome_of (debug_shapefile boundary_path sample_world)
  = Return (Some [Some triangle_3d; Some square_2d])
  /\ ~ In (Printed (nl ++ "Warning: Found invalid geometries!"))
          (trace_of (debug_shapefile boundary_path sample_world)).
Proof.
  pose proof (debug_shapefile_reports_without_altering sample_world boundary_path)
    as (H1 & _ & H3 & _).
  split; [exact H1 |].
  intros Hin. apply (H3 _ eq_refl) in Hin. discriminate Hin.
Defined.

(** X7.  Whatever the file holds, a boundary the loader returns is flat:
    it has at least one ring and every vertex of every ring has exactly
    two components.  The loader itself sends nothing to the service. *)
Theorem boundary_is_two_dimensional (w : World) (g : ee_geometry) :
  outcome_of (get_goa_boundary w) = Return (Some g) ->
  coordinates g <> []
  /\ Forall (Forall (fun vertex => length vertex = 2%nat)) (coordinates g)
  /\ remote_calls (trace_of (get_goa_boundary w)) = [].
Proof.
  intros H.
  destruct (get_goa_boundary_run w) as (t & Ht & Hrun).
  rewrite Hrun in *. cbn [outcome_of trace_of fst snd] in *.
  injection H as H. unfold boundary_of in H.
  destruct (path_exists w boundary_path); [| discriminate].
  destruct (read_file w boundary_path) as [[| [s |] rest] | e]; try discriminate.
  destruct (geos_is_valid w s); [| discriminate].
  destruct (session_initialized w); [| discriminate].
  injection H as <-. cbn [coordinates].
  split; [| split; [| exact Ht]].
  - destruct s; discriminate.
  - destruct s as [ext holes | ext holes]; unfold boundary_rings.
    + apply Forall_forall. intros ring Hring. apply in_map_iff in Hring.
      destruct Hring as (r & <- & _).
      apply Forall_forall. intros v Hv. apply in_map_iff in Hv.
      destruct Hv as (c & <- & _). reflexivity.
    + constructor; [| constructor].
      apply Forall_forall. intros v Hv. apply in_map_iff in Hv.
      destruct Hv as (c & <- & _). reflexivity.
Qed.

Lemma boundary_is_two_dimensional_witness :
  Forall (Forall (fun vertex => length vertex = 2%nat)) (coordinates sample_boundary).
Proof.
  exact (proj1 (proj2 (boundary_is_two_dimensional sample_world sample_boundary
                         eq_refl))).
Defined.

(** X8.  In a session that has been initialised, a valid first polygon
    without z goes through whole: the exterior ring and then every
    interior ring, vertex by vertex in order.  (With z the interior rings
    are lost, see above.) *)
Theorem flat_polygon_keeps_its_holes
        (w : World) (ext : list (Q * Q)) (holes : list (list (Q * Q)))
        (rest : GeoDataFrame) :
  session_initialized w = true ->
  path_exists w boundary_path = true ->
  read_file w boundary_path = Return (Some (Polygon2D ext holes) :: rest) ->
  geos_is_valid w (Polygon2D ext holes) = true ->
  exists g,
    outcome_of (get_goa_boundary w) = Return (Some g)
    /\ coordinates g = map (map (fun c => [fst c; snd c])) (ext :: holes)
    /\ length (coordinates g) = S (length holes).
Proof.
  intros Hready Hex Hread Hvalid.
  rewrite get_goa_boundary_outcome. unfold boundary_of.
  rewrite Hex, Hread, Hvalid, Hready. eexists. split; [reflexivity |].
  cbn [coordinates boundary_rings]. split; [reflexivity |].
  cbn [map length]. now rewrite length_map.
Qed.

Lemma flat_polygon_keeps_its_holes_witness :
  exists g,
    outcome_of (get_goa_boundary
                  (world_with true (Return [Some square_with_hole]) true))
    = Return (Some g)
    /\ length (coordinates g) = 2%nat.
Proof.
  destruct (flat_polygon_keeps_its_holes
              (world_with true (Return [Some square_with_hole]) true)
              _ _ [] eq_refl eq_refl eq_refl eq_refl) as (g & H1 & _ & H3).
  exists g. split; [exact H1 | exact H3].
Defined.

(** ** The spectral indices *)

Lemma fresh_name_free (taken : list string) (n : string) :
  ~ In n taken -> fresh_name taken n = n.
Proof.
  intros H. unfold fresh_name, name_taken.
  destruct (existsb (String.eqb n) taken) eqn:E; [| reflexivity].
  apply existsb_exists in E. destruct E as (m & Hm & Heq).
  apply String.eqb_eq in Heq. subst m. contradiction.
Qed.

(** [addBands] never touches the bands of its receiver: the new bands
    come after them, with their expressions; they keep their names when
    these are new and distinct. *)
Lemma append_bands_spec (dst src : list (string * expr)) :
  exists tail,
    append_bands dst src = (dst ++ tail)%list
    /\ map snd tail = map snd src
    /\ (NoDup (map fst src) ->
        (forall n, In n (map fst src) -> ~ In n (map fst dst)) ->
        tail = src).
Proof.
  revert dst. induction src as [| [n e] src IH]; intros dst.
  - exists []. cbn. rewrite app_nil_r. repeat split; reflexivity.
  - cbn [append_bands].
    destruct (IH (dst ++ [(fresh_name (map fst dst) n, e)])%list)
      as (tail & Heq & Hsnd & Hfresh).
    exists ((fresh_name (map fst dst) n, e) :: tail). split; [| split].
    + rewrite Heq, <- app_assoc. reflexivity.
    + cbn [map snd]. now rewrite Hsnd.
    + intros Hnd Hnew. cbn [map fst] in Hnd, Hnew.
      inversion Hnd as [| ? ? Hn Hnd']; subst.
      rewrite fresh_name_free in * by (apply Hnew; now left).
      f_equal. apply Hfresh; [exact Hnd' |].
      intros m Hm Hin. rewrite map_app in Hin. apply in_app_or in Hin.
      destruct Hin as [Hin | [Hin | []]].
      * apply (Hnew m); [now right | exact Hin].
      * cbn in Hin. subst m. contradiction.
Qed.

Lemma renamed_difference_bands (n : string) (names : list string) (img : Image) :
  bands (rename [n] (normalizedDifference names img))
  = [(n, the_band (normalizedDifference names img))].
Proof.
  unfold normalizedDifference.
  destruct (bands (select names img)) as [| [n1 a] [| [n2 b] l]]; reflexivity.
Qed.

Lemma index_bands (img : Image) :
  exists e1 e2 e3 e4 e5 e6 e7 e8 e9,
    bands (addIndices img)
    = append_bands (bands img)
        [("ndvi", e1); ("evi", e2); ("msavi", e3); ("mirbi", e4); ("ndmi", e5);
         ("ndfi", e6); ("nbr", e7); ("nbr2", e8); ("bsi", e9)].
Proof.
  unfold addIndices. cbv zeta. rewrite bands_addBands.
  unfold cat. cbn [bands fold_left].
  repeat match goal with
         | |- context [bands (rename [?n] (normalizedDifference ?names ?i))] =>
             rewrite (renamed_difference_bands n names i)
         end.
  repeat match goal with
         | |- context [bands (rename [?n] (expression ?b ?v ?i))] =>
             change (bands (rename [n] (expression b v i)))
               with [(n, the_band (expression b v i))]
         end.
  repeat match goal with
         | |- context [the_band ?x] =>
             let e := fresh "e" in generalize (the_band x); intro e
         end.
  do 9 eexists. reflexivity.
Qed.

(** X9.  [addIndices] is non-destructive: the bands of its input stay in
    place, unchanged, and exactly nine bands follow them.  On an input
    that has none of the nine names yet, they are called ndvi, evi, msavi,
    mirbi, ndmi, ndfi, nbr, nbr2 and bsi, in this order. *)
Theorem addIndices_appends_nine_bands (img : Image) :
  exists added,
    bands (addIndices img) = (bands img ++ added)%list
    /\ length added = 9%nat
    /\ ((forall n, In n index_names -> ~ In n (bandNames img)) ->
        map fst added = index_names).
Proof.
  destruct (index_bands img) as (e1 & e2 & e3 & e4 & e5 & e6 & e7 & e8 & e9 & Hb).
  destruct (append_bands_spec (bands img)
              [("ndvi", e1); ("evi", e2); ("msavi", e3); ("mirbi", e4); ("ndmi", e5);
               ("ndfi", e6); ("nbr", e7); ("nbr2", e8); ("bsi", e9)])
    as (tail & Heq & Hsnd & Hfresh).
  exists tail. rewrite Hb, Heq. split; [reflexivity |]. split.
  - rewrite <- (length_map snd), Hsnd. reflexivity.
  - intros Hnew. rewrite Hfresh; [reflexivity | | exact Hnew].
    cbn. repeat (constructor; [simpl; intuition discriminate |]). constructor.
Qed.

Lemma addIndices_appends_nine_bands_witness :
  bandNames (addIndices (maskL8sr landsat_scene))
  = (bandNames (maskL8sr landsat_scene) ++ index_names)%list.
Proof.
  destruct (addIndices_appends_nine_bands (maskL8sr landsat_scene))
    as (added & Hb & _ & Hn).
  unfold bandNames at 1. rewrite Hb, map_app, Hn; [reflexivity |].
  intros n Hin Hold. rewrite maskL8sr_band_names in Hold.
  unfold index_names in Hin. simpl in Hin, Hold.
  intuition (subst; discriminate).
Defined.

Lemma difference_index_band (catalog : string -> list string) (goa : ee_geometry)
      (start_date end_date : string) (n a b : string) :
  catalog landsat_id = LC08_C02_T1_L2_bands ->
  In (n, (a, b)) difference_indices ->
  band_expr n (element (Landsat.ls8_collection catalog goa start_date end_date))
  = Some (Bin NormalizedDifference (scaled_band goa a) (scaled_band goa b)).
Proof.
  intros H Hin. rewrite (landsat_collection_sample catalog) by exact H.
  unfold difference_indices in Hin. cbn [In] in Hin.
  repeat (destruct Hin as [Hin | Hin];
          [injection Hin as <- <- <-; reflexivity |]).
  contradiction.
Qed.

Lemma normalized_difference_range (a b : pixel) (x : pixel) :
  eval_binop NormalizedDifference a b = Some x ->
  (to_R x = (to_R a - to_R b) / (to_R a + to_R b)
   /\ 0 <= to_R a /\ 0 <= to_R b /\ 0 < to_R a + to_R b
   /\ -1 <= to_R x <= 1)%R.
Proof.
  cbn [eval_binop].
  destruct (Rle_dec 0 (to_R a)) as [Ha |]; [| discriminate].
  destruct (Rle_dec 0 (to_R b)) as [Hb |]; [| discriminate].
  destruct (Req_dec_T (to_R a + to_R b) 0) as [| Hs]; [discriminate |].
  intros [= <-]. cbn [to_R].
  assert (Hpos : (0 < to_R a + to_R b)%R) by lra.
  pose proof (Rinv_0_lt_compat _ Hpos) as Hi.
  assert (Hone : ((to_R a + to_R b) * / (to_R a + to_R b) = 1)%R)
    by (apply Rinv_r; lra).
  repeat split; try lra; unfold Rdiv; nra.
Qed.

Lemma normalized_difference_value (a b : pixel) :
  (0 <= to_R a)%R -> (0 <= to_R b)%R -> (0 < to_R a + to_R b)%R ->
  eval_binop NormalizedDifference a b
  = Some (PFloat ((to_R a - to_R b) / (to_R a + to_R b))%R).
Proof.
  intros Ha Hb Hs. cbn [eval_binop].
  destruct (Rle_dec 0 (to_R a)); [| contradiction].
  destruct (Rle_dec 0 (to_R b)); [| contradiction].
  destruct (Req_dec_T (to_R a + to_R b) 0); [lra | reflexivity].
Qed.

Lemma eval_scaled_band (rho : Env) (goa : ee_geometry) (b : string)
      (raw : Z) (q : Z) :
  band_value rho b = Some (PInt raw) ->
  band_value rho "QA_PIXEL" = Some (PInt q) ->
  clear_sky q = true ->
  inside rho goa = true ->
  eval rho (scaled_band goa b)
  = Some (PFloat (IZR raw * Q2R 0.0000275 + Q2R (-0.2))%R).
Proof.
  intros Hb Hq Hc Hin. unfold scaled_band. cbn [eval].
  rewrite eval_masked_scaled, Hb, Hq, Hc. cbn [eval_unop]. rewrite Hin.
  reflexivity.
Qed.

(** X10.  On a Landsat scene each of the five indices computed with
    [normalizedDifference] (ndvi, ndmi, ndfi, nbr, nbr2) has a value only
    where both of its reflectances have one and neither is negative; the
    value is (a - b) / (a + b) for the two reflectances in the order of
    the call, and lies between -1 and 1. *)
Theorem normalized_differences_bounded
        (catalog : string -> list string) (goa : ee_geometry)
        (start_date end_date : string) (rho : Env) (n a b : string) (x : pixel) :
  catalog landsat_id = LC08_C02_T1_L2_bands ->
  In (n, (a, b)) difference_indices ->
  pixel_of rho n (element (Landsat.ls8_collection catalog goa start_date end_date))
  = Some x ->
  exists ra rb,
    eval rho (scaled_band goa a) = Some ra
    /\ eval rho (scaled_band goa b) = Some rb
    /\ (0 <= to_R ra /\ 0 <= to_R rb
        /\ to_R x = (to_R ra - to_R rb) / (to_R ra + to_R rb)
        /\ -1 <= to_R x <= 1)%R.
Proof.
  intros H Hin. unfold pixel_of.
  rewrite (difference_index_band catalog goa start_date end_date n a b H Hin).
  cbn [eval].
  destruct (eval rho (scaled_band goa a)) as [va |]; [| discriminate].
  destruct (eval rho (scaled_band goa b)) as [vb |]; [| discriminate].
  intros Hx. apply normalized_difference_range in Hx.
  exists va, vb. tauto.
Qed.

Lemma vegetated_ndvi :
  pixel_of vegetated_pixel "ndvi"
    (element (Landsat.ls8_collection sample_catalog sample_boundary
                Landsat.default_start_date Landsat.default_end_date))
  = Some (PFloat ((to_R (PFloat (20000 * Q2R 0.0000275 + Q2R (-0.2)))
                   - to_R (PFloat (10000 * Q2R 0.0000275 + Q2R (-0.2))))
                  / (to_R (PFloat (20000 * Q2R 0.0000275 + Q2R (-0.2)))
                     + to_R (PFloat (10000 * Q2R 0.0000275 + Q2R (-0.2)))))%R).
Proof.
  unfold pixel_of.
  rewrite (difference_index_band sample_catalog sample_boundary _ _
             "ndvi" "SR_B5" "SR_B4" eq_refl) by (simpl; tauto).
  cbn [eval].
  rewrite (eval_scaled_band vegetated_pixel sample_boundary "SR_B5" 20000 21824
             eq_refl eq_refl eq_refl eq_refl).
  rewrite (eval_scaled_band vegetated_pixel sample_boundary "SR_B4" 10000 21824
             eq_refl eq_refl eq_refl eq_refl).
  apply normalized_difference_value; cbn [to_R]; unfold Q2R; simpl; lra.
Qed.

Lemma normalized_differences_bounded_witness :
  exists ra rb,
    eval vegetated_pixel (scaled_band sample_boundary "SR_B5") = Some ra
    /\ eval vegetated_pixel (scaled_band sample_boundary "SR_B4") = Some rb
    /\ (0 <= to_R ra /\ 0 <= to_R rb
        /\ to_R (PFloat ((to_R (PFloat (20000 * Q2R 0.0000275 + Q2R (-0.2)))
                          - to_R (PFloat (10000 * Q2R 0.0000275 + Q2R (-0.2))))
                         / (to_R (PFloat (20000 * Q2R 0.0000275 + Q2R (-0.2)))
                            + to_R (PFloat (10000 * Q2R 0.0000275 + Q2R (-0.2))))))
           = (to_R ra - to_R rb) / (to_R ra + to_R rb)
        /\ -1 <= to_R (PFloat ((to_R (PFloat (20000 * Q2R 0.0000275 + Q2R (-0.2)))
                          - to_R (PFloat (10000 * Q2R 0.0000275 + Q2R (-0.2))))
                         / (to_R (PFloat (20000 * Q2R 0.0000275 + Q2R (-0.2)))
                            + to_R (PFloat (10000 * Q2R 0.0000275 + Q2R (-0.2)))))) <= 1)%R.
Proof.
  exact (normalized_differences_bounded sample_catalog sample_boundary
           Landsat.default_start_date Landsat.default_end_date vegetated_pixel
           "ndvi" "SR_B5" "SR_B4" _ eq_refl (or_introl eq_refl) vegetated_ndvi).
Defined.

(** X11.  The burn ratio is the fraction index with its sign changed:
    [nbr] is the normalized difference of SR_B5 and SR_B7, [ndfi] that of
    SR_B7 and SR_B5, so at every pixel of a Landsat scene the two are
    masked together and nbr = - ndfi. *)
Theorem nbr_is_negated_ndfi
        (catalog : string -> list string) (goa : ee_geometry)
        (start_date end_date : string) (rho : Env) :
  catalog landsat_id = LC08_C02_T1_L2_bands ->
  let scene := element (Landsat.ls8_collection catalog goa start_date end_date) in
  opposite (pixel_of rho "nbr" scene) (pixel_of rho "ndfi" scene).
Proof.
  intros H scene. subst scene. unfold pixel_of.
  rewrite (difference_index_band catalog goa start_date end_date
             "nbr" "SR_B5" "SR_B7" H) by (simpl; tauto).
  rewrite (difference_index_band catalog goa start_date end_date
             "ndfi" "SR_B7" "SR_B5" H) by (simpl; tauto).
  cbn [eval].
  destruct (eval rho (scaled_band goa "SR_B5")) as [a |];
    destruct (eval rho (scaled_band goa "SR_B7")) as [b |]; try exact I.
  cbn [eval_binop].
  destruct (Rle_dec 0 (to_R a)); destruct (Rle_dec 0 (to_R b)); try exact I.
  destruct (Req_dec_T (to_R a + to_R b) 0) as [E1 | N1];
    destruct (Req_dec_T (to_R b + to_R a) 0) as [E2 | N2];
    try exact I; try (exfalso; lra).
  cbn [opposite to_R]. rewrite (Rplus_comm (to_R b) (to_R a)).
  unfold Rdiv. lra.
Qed.

Lemma nbr_is_negated_ndfi_witness :
  opposite
    (pixel_of vegetated_pixel "nbr"
       (element (Landsat.ls8_collection sample_catalog sample_boundary
                   Landsat.default_start_date Landsat.default_end_date)))
    (pixel_of vegetated_pixel "ndfi"
       (element (Landsat.ls8_collection sample_catalog sample_boundary
                   Landsat.default_start_date Landsat.default_end_date))).
Proof.
  exact (nbr_is_negated_ndfi sample_catalog sample_boundary
           Landsat.default_start_date Landsat.default_end_date vegetated_pixel
           eq_refl).
Defined.

(** ** The indices written as expressions *)

Lemma expression_index_bands (catalog : string -> list string) (goa : ee_geometry)
      (start_date end_date : string) :
  catalog landsat_id = LC08_C02_T1_L2_bands ->
  let scene := element (Landsat.ls8_collection catalog goa start_date end_date) in
  let blue := scaled_band goa "SR_B2" in
  let red := scaled_band goa "SR_B4" in
  let nir := scaled_band goa "SR_B5" in
  let swir1 := scaled_band goa "SR_B6" in
  let swir2 := scaled_band goa "SR_B7" in
  band_expr "evi" scene
  = Some (ConstF 2.5%Q *
          ((nir - red) / (nir + ConstI 6 * red - ConstF 7.5%Q * blue + ConstI 1)))%E
  /\ band_expr "msavi" scene
     = Some ((ConstI 2 * nir + ConstI 1
              - Un Sqrt ((ConstI 2 * nir + ConstI 1) * (ConstI 2 * nir + ConstI 1)
                         - ConstI 8 * (nir - red)))
             / ConstI 2)%E
  /\ band_expr "mirbi" scene
     = Some (ConstI 10 * swir2 - ConstF 9.8%Q * swir1 + ConstI 2)%E
  /\ band_expr "bsi" scene
     = Some (((swir1 + red) - (nir + blue)) / ((swir1 + red) + (nir + blue)))%E.
Proof.
  intros H. rewrite (landsat_collection_sample catalog) by exact H.
  cbv zeta. repeat split; vm_compute; reflexivity.
Qed.

Lemma nonzero_PFloat (r : R) : r <> 0%R -> nonzero (PFloat r) = true.
Proof.
  intros H. unfold nonzero. cbn [to_R].
  destruct (Req_dec_T r 0); [contradiction | reflexivity].
Qed.

(** X12.  The four indices [addIndices] writes as expressions, at a pixel
    of a Landsat scene whose reflectances in SR_B2, SR_B4, SR_B5, SR_B6 and
    SR_B7 are [blue], [red], [nir], [swir1] and [swir2]: mirbi is
    10 swir2 - 9.8 swir1 + 2; evi, bsi and msavi hold their quotients
    where the denominators are not zero and the root is real.  Unlike the
    normalized differences they are computed on negative reflectances
    too. *)
Theorem expression_indices_values
        (catalog : string -> list string) (goa : ee_geometry)
        (start_date end_date : string) (rho : Env)
        (blue red nir swir1 swir2 : R) :
  catalog landsat_id = LC08_C02_T1_L2_bands ->
  eval rho (scaled_band goa "SR_B2") = Some (PFloat blue) ->
  eval rho (scaled_band goa "SR_B4") = Some (PFloat red) ->
  eval rho (scaled_band goa "SR_B5") = Some (PFloat nir) ->
  eval rho (scaled_band goa "SR_B6") = Some (PFloat swir1) ->
  eval rho (scaled_band goa "SR_B7") = Some (PFloat swir2) ->
  let scene := element (Landsat.ls8_collection catalog goa start_date end_date) in
  pixel_of rho "mirbi" scene = Some (PFloat (10 * swir2 - 9.8 * swir1 + 2))
  /\ ((nir + 6 * red - 7.5 * blue + 1 <> 0)%R ->
      pixel_of rho "evi" scene
      = Some (PFloat (2.5 * ((nir - red) / (nir + 6 * red - 7.5 * blue + 1)))))
  /\ ((swir1 + red + (nir + blue) <> 0)%R ->
      pixel_of rho "bsi" scene
      = Some (PFloat ((swir1 + red - (nir + blue)) / (swir1 + red + (nir + blue)))))
  /\ ((0 <= (2 * nir + 1) * (2 * nir + 1) - 8 * (nir - red))%R ->
      pixel_of rho "msavi" scene
      = Some (PFloat ((2 * nir + 1
                       - sqrt ((2 * nir + 1) * (2 * nir + 1) - 8 * (nir - red)))
                      / 2))).
Proof.
  intros H Hblue Hred Hnir Hswir1 Hswir2 scene. subst scene.
  destruct (expression_index_bands catalog goa start_date end_date H)
    as (Hevi & Hmsavi & Hmirbi & Hbsi).
  cbv zeta in Hevi, Hmsavi, Hmirbi, Hbsi.
  unfold pixel_of. rewrite Hevi, Hmsavi, Hmirbi, Hbsi.
  split; [| split; [| split]].
  - cbn [eval]. rewrite Hswir1, Hswir2. reflexivity.
  - intros Hd. cbn [eval]. rewrite Hblue, Hred, Hnir. cbn [eval_binop to_R].
    rewrite nonzero_PFloat by exact Hd. reflexivity.
  - intros Hd. cbn [eval]. rewrite Hblue, Hred, Hnir, Hswir1. cbn [eval_binop to_R].
    rewrite nonzero_PFloat by exact Hd. reflexivity.
  - intros Hr. cbn [eval]. rewrite Hred, Hnir. cbn [eval_binop eval_unop to_R].
    destruct (Rle_dec 0 ((2 * nir + 1) * (2 * nir + 1) - 8 * (nir - red)))
      as [_ | Hn]; [| contradiction].
    cbn [eval_binop to_R]. unfold nonzero. cbn [to_R].
    destruct (Req_dec_T 2 0) as [H0 | _]; [lra | reflexivity].
Qed.

Lemma expression_indices_values_witness :
  pixel_of vegetated_pixel "mirbi"
    (element (Landsat.ls8_collection sample_catalog sample_boundary
                Landsat.default_start_date Landsat.default_end_date))
  = Some (PFloat (10 * (12000 * Q2R 0.0000275 + Q2R (-0.2))
                  - 9.8 * (14000 * Q2R 0.0000275 + Q2R (-0.2)) + 2)).
Proof.
  exact (proj1 (expression_indices_values sample_catalog sample_boundary
                  Landsat.default_start_date Landsat.default_end_date
                  vegetated_pixel _ _ _ _ _ eq_refl
                  (eval_scaled_band vegetated_pixel sample_boundary "SR_B2" 8000 21824
                     eq_refl eq_refl eq_refl eq_refl)
                  (eval_scaled_band vegetated_pixel sample_boundary "SR_B4" 10000 21824
                     eq_refl eq_refl eq_refl eq_refl)
                  (eval_scaled_band vegetated_pixel sample_boundary "SR_B5" 20000 21824
                     eq_refl eq_refl eq_refl eq_refl)
                  (eval_scaled_band vegetated_pixel sample_boundary "SR_B6" 14000 21824
                     eq_refl eq_refl eq_refl eq_refl)
                  (eval_scaled_band vegetated_pixel sample_boundary "SR_B7" 12000 21824
                     eq_refl eq_refl eq_refl eq_refl))).
Defined.

(** ** The moisture indices *)

(** X13.  The shortwave moisture index is not clamped.  With [mn < mx]
    the extremes of the mean SR_B7 composite over the region, the [smi]
    band of a scene is 1 where its SR_B7 equals [mn] and 0 where it equals
    [mx]; it lies in [0, 1] exactly where SR_B7 lies in [mn, mx], is
    negative above [mx] and exceeds 1 below [mn]. *)
Theorem shortwave_smi_range
        (catalog : string -> list string) (goa : ee_geometry)
        (start_date end_date : string) (rho : Env) (v mn mx : pixel) :
  catalog landsat_id = LC08_C02_T1_L2_bands ->
  eval rho (scaled_swir goa) = Some v ->
  remote_value rho (swir_stat "min" goa start_date end_date) = Some mn ->
  remote_value rho (swir_stat "max" goa start_date end_date) = Some mx ->
  (to_R mn < to_R mx)%R ->
  exists s : R,
    pixel_of rho "smi"
      (element (Landsat.ls8_with_smi catalog goa start_date end_date))
    = Some (PFloat s)
    /\ (to_R v = to_R mn -> s = 1%R)
    /\ (to_R v = to_R mx -> s = 0%R)
    /\ ((to_R mn <= to_R v <= to_R mx)%R <-> (0 <= s <= 1)%R)
    /\ ((to_R mx < to_R v)%R -> (s < 0)%R)
    /\ ((to_R v < to_R mn)%R -> (1 < s)%R).
Proof.
  intros H Hv Hmn Hmx Hlt.
  exists (1 - (to_R v - to_R mn) / (to_R mx - to_R mn))%R.
  split.
  { unfold pixel_of. rewrite landsat_smi_band by exact H.
    apply eval_swir_smi; try assumption. lra. }
  set (d := (to_R mx - to_R mn)%R).
  assert (Hd : (0 < d)%R) by (unfold d; lra).
  pose proof (Rinv_0_lt_compat _ Hd) as Hi.
  assert (Hone : (d * / d = 1)%R) by (apply Rinv_r; lra).
  unfold Rdiv, d in *. repeat split; intros; nra.
Qed.

Lemma shortwave_smi_range_witness :
  exists s : R,
    pixel_of moist_pixel "smi"
      (element (Landsat.ls8_with_smi sample_catalog sample_boundary
                  Landsat.default_start_date Landsat.default_end_date))
    = Some (PFloat s)
    /\ (0 <= s <= 1)%R.
Proof.
  destruct (shortwave_smi_range sample_catalog sample_boundary
              Landsat.default_start_date Landsat.default_end_date moist_pixel
              (PFloat (10000 * 0.0000275 - 0.2)) (PFloat 0) (PFloat 0.5) eq_refl)
    as (s & Hs & _ & _ & Hrange & _).
  - unfold scaled_swir. cbn [eval]. rewrite eval_masked_scaled.
    cbn. do 2 f_equal. unfold Q2R. simpl. lra.
  - reflexivity.
  - reflexivity.
  - cbn. lra.
  - exists s. split; [exact Hs |]. apply Hrange. cbn. lra.
Defined.

(** X14.  The thermal index of [calculateSMI] on a scene is
    (Ts_max - Ts) / (Ts_max - Ts_min), with the extremes of the scene's
    own ST_B10 over its own footprint: 1 at the coldest pixel, 0 at the
    hottest, and between 0 and 1 wherever Ts lies between the extremes. *)
Theorem thermal_smi_range
        (catalog : string -> list string) (goa : ee_geometry)
        (start_date end_date : string) (rho : Env) (v mn mx : pixel) :
  catalog landsat_id = LC08_C02_T1_L2_bands ->
  eval rho (scaled_thermal goa) = Some v ->
  remote_value rho
    (ReduceRegion "min" "" (scaled_thermal goa) ImageFootprint 30 (Some 1e9%Q))
  = Some mn ->
  remote_value rho
    (ReduceRegion "max" "" (scaled_thermal goa) ImageFootprint 30 (Some 1e9%Q))
  = Some mx ->
  (to_R mn < to_R mx)%R ->
  let s := ((to_R mx - to_R v) / (to_R mx - to_R mn))%R in
  pixel_of rho "smi"
    (calculateSMI (element (Landsat.ls8_collection catalog goa start_date end_date)))
  = Some (PFloat s)
  /\ (to_R v = to_R mn -> s = 1%R)
  /\ (to_R v = to_R mx -> s = 0%R)
  /\ ((to_R mn <= to_R v <= to_R mx)%R <-> (0 <= s <= 1)%R).
Proof.
  intros H Hv Hmn Hmx Hlt s.
  split.
  { unfold pixel_of. rewrite calculateSMI_band by exact H.
    unfold thermal_smi. cbv zeta. cbn [eval]. rewrite Hv.
    change (eval rho (ReduceRegion "max" "" (scaled_thermal goa) ImageFootprint 30
                        (Some 1e9%Q)))
      with (remote_value rho (ReduceRegion "max" "" (scaled_thermal goa)
                                ImageFootprint 30 (Some 1e9%Q))).
    change (eval rho (ReduceRegion "min" "" (scaled_thermal goa) ImageFootprint 30
                        (Some 1e9%Q)))
      with (remote_value rho (ReduceRegion "min" "" (scaled_thermal goa)
                                ImageFootprint 30 (Some 1e9%Q))).
    rewrite Hmn, Hmx. cbn [eval_binop to_R].
    unfold nonzero. cbn [to_R].
    destruct (Req_dec_T (to_R mx - to_R mn) 0) as [H0 | _]; [lra | reflexivity]. }
  set (d := (to_R mx - to_R mn)%R) in *.
  assert (Hd : (0 < d)%R) by (unfold d; lra).
  pose proof (Rinv_0_lt_compat _ Hd) as Hi.
  assert (Hone : (d * / d = 1)%R) by (apply Rinv_r; lra).
  unfold s, Rdiv, d in *. repeat split; intros; nra.
Qed.

Lemma thermal_smi_range_witness :
  (0 <= (to_R (PFloat 310) - to_R (PFloat (44000 * 0.00341802 + 149)))
        / (to_R (PFloat 310) - to_R (PFloat 290)) <= 1)%R.
Proof.
  destruct (thermal_smi_range sample_catalog sample_boundary
              Landsat.default_start_date Landsat.default_end_date warm_pixel
              (PFloat (44000 * 0.00341802 + 149)) (PFloat 290) (PFloat 310) eq_refl)
    as (_ & _ & _ & Hrange).
  - unfold scaled_thermal. cbn [eval]. rewrite eval_masked_scaled.
    cbn. do 2 f_equal. unfold Q2R. simpl. lra.
  - reflexivity.
  - reflexivity.
  - cbn. lra.
  - apply Hrange. cbn. lra.
Defined.

(** ** Metadata *)

Lemma props_pairwise (o : binop) (img : Image) (arg : operand) :
  props (pairwise o img arg) = props img.
Proof.
  destruct arg as [k | other]; [reflexivity |]. unfold pairwise.
  destruct (bands other) as [| [n1 k] [| b1 l1]];
    destruct (bands img) as [| [n e] [| b2 l2]]; reflexivity.
Qed.

(** X15.  The per-image transforms keep the metadata of their input, so
    the time stamp the time bands are computed from is the one of the
    catalog image: [maskL8sr], clipping, [addIndices], [calculateSMI],
    [addSMI], band selection and the [addTimeBand] functions leave every
    property as it is, and [calculateRH], whose arithmetic drops the
    metadata, sets [system:time_start] to the input's value again. *)
Theorem transforms_keep_time_stamp
        (catalog : string -> list string) (goa : ee_geometry)
        (start_date end_date : string) (selectors : list string)
        (img : Image) (p : string) :
  get p (maskL8sr img) = get p img
  /\ get p (clip goa img) = get p img
  /\ get p (addIndices img) = get p img
  /\ get p (calculateSMI img) = get p img
  /\ get p (Landsat.addSMI catalog goa start_date end_date img) = get p img
  /\ get p (select selectors img) = get p img
  /\ get p (Landsat.addTimeBand start_date img) = get p img
  /\ get p (Chirps.addTimeBand img) = get p img
  /\ get p (Smap.addTimeBand img) = get p img
  /\ get p (Era5.addTimeBand img) = get p img
  /\ get "system:time_start" (Era5.calculateRH img) = get "system:time_start" img.
Proof.
  assert (Hmask : props (maskL8sr img) = props img).
  { unfold maskL8sr. cbv zeta. unfold updateMask. now rewrite props_pairwise. }
  unfold get. rewrite Hmask.
  repeat split.
Qed.

(** ** The time band *)

(** X16.  The Landsat builder measures time from its [start_date]
    argument, whatever date is passed: an image stamped [t] gets
    (t - start_date) / year length, which is 0 for an image taken at
    [start_date], positive after it and negative before it. *)
Theorem landsat_time_origin_is_start_date
        (catalog : string -> list string) (goa : ee_geometry)
        (start_date end_date : string) (rho : Env) (t r : Z) :
  catalog landsat_id = LC08_C02_T1_L2_bands ->
  millis_of_date start_date = Some r ->
  property_value rho "system:time_start" = Some (PInt t) ->
  (0 < year_length rho)%R ->
  let years := ((IZR t - IZR r) / year_length rho)%R in
  pixel_of rho "time"
    (element (Landsat.collection_with_time catalog goa start_date end_date))
  = Some (PFloat years)
  /\ (t = r -> years = 0%R)
  /\ ((r < t)%Z -> (0 < years)%R)
  /\ ((t < r)%Z -> (years < 0)%R).
Proof.
  intros H Hr Ht HY years. split.
  { unfold pixel_of. rewrite landsat_time_band by exact H.
    apply eval_years_since; [exact Ht | exact Hr]. }
  pose proof (Rinv_0_lt_compat _ HY) as Hi.
  unfold years, Rdiv. repeat split.
  - intros ->. lra.
  - intros Hlt. apply IZR_lt in Hlt. nra.
  - intros Hlt. apply IZR_lt in Hlt. nra.
Qed.

Lemma landsat_time_origin_is_start_date_witness :
  pixel_of pixel_stamped_2014_03_20 "time"
    (element (Landsat.collection_with_time sample_catalog sample_goa
                "2014-03-20" Landsat.default_end_date))
  = Some (PFloat ((IZR (millis_from_ymd 2014 3 20) - IZR (millis_from_ymd 2014 3 20))
                  / year_length pixel_stamped_2014_03_20)).
Proof.
  refine (proj1 (landsat_time_origin_is_start_date sample_catalog sample_goa
                   "2014-03-20" Landsat.default_end_date pixel_stamped_2014_03_20
                   (millis_from_ymd 2014 3 20) (millis_from_ymd 2014 3 20)
                   eq_refl eq_refl eq_refl _)).
  cbn. lra.
Defined.

(** ** What a run returns *)

Lemma run_pipeline_result (catalog : string -> list string) (goa : ee_geometry)
      (w : World) (ls : Image) :
  (forall k, start_error w k = None) ->
  landsat_all_trends catalog goa = Some ls ->
  exists t,
    run_pipeline catalog goa w
    = (Return (Some
         {| trends := merge_trend_layers ls (rain_trend catalog goa)
                        (sm_trend catalog goa) (rh_trend catalog goa);
            collections :=
              {| landsat := Landsat.ls8_with_smi catalog goa
                              Landsat.default_start_date Landsat.default_end_date;
                 rain := Chirps.yearly_sums_collection catalog goa
                           Chirps.default_start_date Chirps.default_end_date;
                 sm := Smap.smap catalog goa
                         Smap.default_start_date Smap.default_end_date;
                 rh := Era5.rh_collection catalog goa
                         Era5.default_start_date Era5.default_end_date |} |}), t).
Proof.
  intros Hstart Hls.
  destruct (process_landsat_run catalog goa w ls Hstart Hls) as (tl & Htl & Hl).
  eexists.
  unfold run_pipeline.
  print_steps.
  eapply bind_step; [exact Hl |].
  print_steps.
  eapply bind_step; [exact (process_chirps_run catalog goa w Hstart) |].
  print_steps.
  eapply bind_step; [exact (process_smap_run catalog goa w Hstart) |].
  print_steps.
  eapply bind_step; [exact (process_era5_run catalog goa w Hstart) |].
  print_steps.
  eapply bind_step; [exact (export_to_asset_run _ _ _ _ _ _ (Hstart _)) |].
  print_steps.
  reflexivity.
Qed.

Lemma yearly_sum_bands (catalog : string -> list string) (goa : ee_geometry)
      (start_date end_date : string) :
  catalog chirps_id = ["precipitation"] ->
  bands (element (Chirps.yearly_sums_collection catalog goa start_date end_date)) =
  [("precipitation",
    Un (ClipTo goa)
       (ReduceColl "sum"
          (FilterCalendarRange Elem Elem "year"
             (FilterBounds goa (FilterDate start_date end_date (Catalog chirps_id))))
          (Band "precipitation")))].
Proof.
  intros H.
  unfold Chirps.yearly_sums_collection,
    Chirps.yearly_sums, Chirps.createYearlySum, Chirps.chirps, ee_ImageCollection.
  fold chirps_id. rewrite H. reflexivity.
Qed.

(** X17.  A run that gets its boundary and whose exports are all accepted
    returns, beside the merged trend image, the four collections the
    trends were fitted on, without their time bands: the Landsat scenes
    reduced to the eleven trend bands, the yearly precipitation sums, the
    soil-moisture images and the relative-humidity images.  The merged
    image it returns is the one [merge_trend_layers] builds. *)
Theorem main_returns_regressed_collections
        (catalog : string -> list string) (w : World) (goa : ee_geometry) :
  catalog_as_documented catalog ->
  outcome_of (get_goa_boundary w) = Return (Some goa) ->
  (forall k, start_error w k = None) ->
  exists r ls,
    outcome_of (main catalog w) = Return (Some r)
    /\ landsat_all_trends catalog goa = Some ls
    /\ trends r = merge_trend_layers ls (rain_trend catalog goa)
                    (sm_trend catalog goa) (rh_trend catalog goa)
    /\ landsat (collections r)
       = Landsat.ls8_with_smi catalog goa
           Landsat.default_start_date Landsat.default_end_date
    /\ rain (collections r)
       = Chirps.yearly_sums_collection catalog goa
           Chirps.default_start_date Chirps.default_end_date
    /\ sm (collections r)
       = Smap.smap catalog goa Smap.default_start_date Smap.default_end_date
    /\ rh (collections r)
       = Era5.rh_collection catalog goa
           Era5.default_start_date Era5.default_end_date
    /\ bandNames (element (landsat (collections r))) = Landsat.trend_bands
    /\ bandNames (element (rain (collections r))) = ["precipitation"]
    /\ bandNames (element (sm (collections r))) = ["soil_moisture_am"]
    /\ bandNames (element (rh (collections r))) = ["RH"].
Proof.
  intros (HL & HC & HSnd & HS & HEnd & HET & HETd) Hgoa Hstart.
  destruct (landsat_all_trends_some catalog goa) as (ls & Hls).
  destruct (run_pipeline_result catalog goa w ls Hstart Hls) as (tp & Hp).
  destruct (main_of_pipeline catalog w goa _ tp Hgoa Hp) as (Ho & _).
  eexists. exists ls. split; [exact Ho |].
  cbn [trends collections landsat rain sm rh].
  split; [exact Hls |].
  do 5 (split; [reflexivity |]).
  split; [| split; [| split]].
  - unfold Landsat.ls8_with_smi.
    rewrite (landsat_all_bands_sample catalog) by exact HL. reflexivity.
  - unfold bandNames. rewrite yearly_sum_bands by exact HC. reflexivity.
  - change (element (Smap.smap catalog goa Smap.default_start_date
                       Smap.default_end_date))
      with (clip goa (select ["soil_moisture_am"] (catalog_image (catalog smap_id)))).
    unfold bandNames, clip, unary, map_bands. cbn [bands]. rewrite map_map. cbn [fst].
    rewrite (select_catalog "soil_moisture_am") by (reflexivity || assumption).
    reflexivity.
  - unfold bandNames. rewrite rh_collection_bands by assumption. reflexivity.
Qed.

Lemma main_returns_regressed_collections_witness :
  exists r ls,
    outcome_of (main sample_catalog sample_world) = Return (Some r)
    /\ landsat_all_trends sample_catalog sample_boundary = Some ls
    /\ trends r = merge_trend_layers ls (rain_trend sample_catalog sample_boundary)
                    (sm_trend sample_catalog sample_boundary)
                    (rh_trend sample_catalog sample_boundary)
    /\ landsat (collections r)
       = Landsat.ls8_with_smi sample_catalog sample_boundary
           Landsat.default_start_date Landsat.default_end_date
    /\ rain (collections r)
       = Chirps.yearly_sums_collection sample_catalog sample_boundary
           Chirps.default_start_date Chirps.default_end_date
    /\ sm (collections r)
       = Smap.smap sample_catalog sample_boundary
           Smap.default_start_date Smap.default_end_date
    /\ rh (collections r)
       = Era5.rh_collection sample_catalog sample_boundary
           Era5.default_start_date Era5.default_end_date
    /\ bandNames (element (landsat (collections r))) = Landsat.trend_bands
    /\ bandNames (element (rain (collections r))) = ["precipitation"]
    /\ bandNames (element (sm (collections r))) = ["soil_moisture_am"]
    /\ bandNames (element (rh (collections r))) = ["RH"].
Proof.
  exact (main_returns_regressed_collections sample_catalog sample_world
           sample_boundary sample_catalog_as_documented eq_refl
           (fun _ => eq_refl)).
Defined.

(** ** Relative humidity *)

Lemma rh_pixel_value (catalog : string -> list string) (goa : ee_geometry)
      (start_date end_date : string) (rho : Env) (T Td : R) :
  NoDup (catalog era5_id) ->
  In "temperature_2m" (catalog era5_id) ->
  In "dewpoint_temperature_2m" (catalog era5_id) ->
  inside rho goa = true ->
  band_value rho "temperature_2m" = Some (PFloat T) ->
  band_value rho "dewpoint_temperature_2m" = Some (PFloat Td) ->
  (-243.5 < T)%R -> (-243.5 < Td)%R ->
  pixel_of rho "RH" (element (Era5.rh_collection catalog goa start_date end_date))
  = Some (PFloat (relative_humidity T Td)).
Proof.
  intros Hnd HinT HinTd Hin HT HTd HTlo HTdlo.
  pose proof (vapor_pressure_pos T) as HposT.
  unfold pixel_of, band_expr.
  rewrite rh_collection_bands by assumption.
  cbn [find fst snd String.eqb Ascii.eqb Bool.eqb option_map].
  unfold relative_humidity_expr.
  assert (HeT : eval rho (Un (ClipTo goa) (Band "temperature_2m")) = Some (PFloat T))
    by (cbn [eval]; rewrite HT; cbn [eval_unop]; now rewrite Hin).
  assert (HeTd : eval rho (Un (ClipTo goa) (Band "dewpoint_temperature_2m"))
                 = Some (PFloat Td))
    by (cbn [eval]; rewrite HTd; cbn [eval_unop]; now rewrite Hin).
  cbn [eval].
  rewrite (eval_vapor_pressure_expr _ _ _ HeT HTlo).
  rewrite (eval_vapor_pressure_expr _ _ _ HeTd HTdlo).
  cbn [eval_binop to_R].
  assert (Hnz : nonzero (PFloat (vapor_pressure T)) = true).
  { unfold nonzero. cbn [to_R].
    destruct (Req_dec_T (vapor_pressure T) 0) as [H0 | _]; [lra | reflexivity]. }
  rewrite Hnz. cbn [to_R]. do 2 f_equal. unfold relative_humidity. lra.
Qed.

(** X18.  The relative humidity is not clamped to 100: it is positive
    wherever it has a value, and where the dew point lies above the
    temperature the RH band exceeds 100. *)
Theorem relative_humidity_not_clamped
        (catalog : string -> list string) (goa : ee_geometry)
        (start_date end_date : string) (rho : Env) (T Td : R) :
  NoDup (catalog era5_id) ->
  In "temperature_2m" (catalog era5_id) ->
  In "dewpoint_temperature_2m" (catalog era5_id) ->
  inside rho goa = true ->
  band_value rho "temperature_2m" = Some (PFloat T) ->
  band_value rho "dewpoint_temperature_2m" = Some (PFloat Td) ->
  (-243.5 < T)%R -> (-243.5 < Td)%R ->
  exists v : R,
    pixel_of rho "RH" (element (Era5.rh_collection catalog goa start_date end_date))
    = Some (PFloat v)
    /\ (0 < v)%R
    /\ ((T < Td)%R -> (100 < v)%R).
Proof.
  intros Hnd HinT HinTd Hin HT HTd HTlo HTdlo.
  exists (relative_humidity T Td). split.
  { now apply rh_pixel_value. }
  pose proof (vapor_pressure_pos T) as HposT.
  pose proof (vapor_pressure_pos Td) as HposTd.
  pose proof (Rinv_0_lt_compat _ HposT) as Hi.
  assert (Hone : (vapor_pressure T * / vapor_pressure T = 1)%R)
    by (apply Rinv_r; lra).
  unfold relative_humidity, Rdiv. split.
  - nra.
  - intros Hlt.
    pose proof (vapor_pressure_increasing T Td HTlo Hlt) as Hinc. nra.
Qed.

Lemma relative_humidity_not_clamped_witness :
  exists v : R,
    pixel_of supersaturated_pixel "RH"
      (element (Era5.rh_collection sample_catalog sample_goa
                  Era5.default_start_date Era5.default_end_date))
    = Some (PFloat v)
    /\ (100 < v)%R.
Proof.
  destruct (relative_humidity_not_clamped sample_catalog sample_goa
              Era5.default_start_date Era5.default_end_date
              supersaturated_pixel 25 30) as (v & Hv & _ & Hover).
  - repeat constructor; simpl; intuition discriminate.
  - simpl. tauto.
  - simpl. tauto.
  - reflexivity.
  - reflexivity.
  - reflexivity.
  - lra.
  - lra.
  - exists v. split; [exact Hv | apply Hover; lra].
Defined.

(** ** The region *)







(** ** The yearly precipitation images *)

Lemma year_spans (y : Z) :
  (1982 <= y < 2021)%Z ->
  (365 <= days_from_civil (y + 1) 1 1 - days_from_civil y 1 1 <= 366)%Z.
Proof.
  intros Hy.
  assert (Hall : forallb (fun k => year_span_ok (1982 + Z.of_nat k)) (seq 0 39) = true)
    by (vm_compute; reflexivity).
  rewrite forallb_forall in Hall.
  specialize (Hall (Z.to_nat (y - 1982))).
  rewrite Z2Nat.id in Hall by lia.
  replace (1982 + (y - 1982))%Z with y in Hall by lia.
  assert (Hin : In (Z.to_nat (y - 1982)) (seq 0 39)) by (apply in_seq; lia).
  apply Hall in Hin. unfold year_span_ok in Hin. cbv zeta in Hin.
  apply andb_prop in Hin. destruct Hin as [H1 H2].
  apply Z.leb_le in H1. apply Z.leb_le in H2. lia.
Qed.

(** X20.  The yearly precipitation images carry the time of their first
    of January, counted from 1982-01-01: the image of year [y] (1982 to
    2021) gets (millis(y-01-01) - millis(1982-01-01)) / year length, which
    is 0 for 1982, and two consecutive yearly images lie one year apart up
    to 1/365, whatever year length between 365 and 366 days the service
    divides by. *)
Theorem yearly_images_one_year_apart
        (catalog : string -> list string) (goa : ee_geometry)
        (start_date end_date : string) (rho : Env) (y : Z) :
  catalog chirps_id = ["precipitation"] ->
  (365 * IZR ms_per_day <= year_length rho <= 366 * IZR ms_per_day)%R ->
  (1982 <= y <= 2021)%Z ->
  elem_value rho = Some (PInt y) ->
  pixel_of rho "time"
    (element (Chirps.collection_with_time catalog goa start_date end_date))
  = Some (PFloat (years_from_1982 (year_length rho) y))
  /\ years_from_1982 (year_length rho) 1982 = 0%R
  /\ ((y < 2021)%Z ->
      (Rabs (years_from_1982 (year_length rho) (y + 1)
             - years_from_1982 (year_length rho) y - 1) <= 1 / 365)%R).
Proof.
  intros HC HY Hy He. split; [| split].
  - unfold pixel_of, band_expr. rewrite chirps_time_element by exact HC.
    cbn [find fst snd String.eqb Ascii.eqb Bool.eqb option_map].
    unfold years_from_1982.
    apply eval_years_since; [| reflexivity].
    cbn [eval]. rewrite He. reflexivity.
  - unfold years_from_1982, Rdiv. lra.
  - intros Hlt.
    pose proof (year_spans y (conj (proj1 Hy) Hlt)) as [Hlo Hhi].
    unfold years_from_1982.
    replace ((IZR (millis_from_ymd (y + 1) 1 1) - IZR (millis_from_ymd 1982 1 1))
             / year_length rho
             - (IZR (millis_from_ymd y 1 1) - IZR (millis_from_ymd 1982 1 1))
               / year_length rho - 1)%R
      with ((IZR (millis_from_ymd (y + 1) 1 1) - IZR (millis_from_ymd y 1 1))
            / year_length rho - 1)%R
      by (unfold Rdiv; lra).
    apply one_year_tolerance; [exact HY |].
    unfold millis_from_ymd. rewrite <- minus_IZR, <- Z.mul_sub_distr_r, mult_IZR.
    apply IZR_le in Hlo. apply IZR_le in Hhi.
    assert (Hd : (0 < IZR ms_per_day)%R) by (unfold ms_per_day; lra).
    split; nra.
Qed.

Lemma yearly_images_one_year_apart_witness :
  (Rabs (years_from_1982 (year_length pixel_of_year_2000) (2000 + 1)
         - years_from_1982 (year_length pixel_of_year_2000) 2000 - 1) <= 1 / 365)%R.
Proof.
  refine (proj2 (proj2 (yearly_images_one_year_apart sample_catalog sample_goa
                          Chirps.default_start_date Chirps.default_end_date
                          pixel_of_year_2000 2000 eq_refl _ _ eq_refl)) _).
  - unfold ms_per_day. cbn. lra.
  - lia.
  - lia.
Defined.

(** ** The variables of the fits *)

Lemma fits_of_bands (c : ImageCollection) (x y : string * expr) :
  bands (element c) = [x; y] -> fits c x y.
Proof.
  intros H. destruct x as [n1 x], y as [n2 y]. split; [exact H |].
  split; apply (fit_output_pair _ c n1 n2 x y); auto.
Qed.

Ltac stacked_bands :=
  lazymatch goal with
  | |- exists e, ?b = Some e /\ ?s = _ =>
      let v := eval vm_compute in b in
      lazymatch v with
      | Some ?e' => exists e'; split; [vm_compute; reflexivity |]
      end
  end.

Lemma landsat_stacked_bands (catalog : string -> list string) (goa : ee_geometry)
      (start_date end_date v : string) :
  catalog landsat_id = LC08_C02_T1_L2_bands ->
  In v Landsat.trend_bands ->
  exists e,
    band_expr v (element (Landsat.ls8_with_smi catalog goa start_date end_date))
    = Some e
    /\ bands (element (Landsat.stacked catalog goa start_date end_date v))
       = [("time", years_since (Property "system:time_start") start_date); (v, e)].
Proof.
  intros H Hin. rewrite (landsat_stacked_sample catalog) by exact H.
  unfold Landsat.ls8_with_smi.
  rewrite (landsat_all_bands_sample catalog) by exact H.
  unfold Landsat.trend_bands in Hin. cbn [In] in Hin.
  repeat (destruct Hin as [<- | Hin]; [stacked_bands; vm_compute; reflexivity |]).
  contradiction.
Qed.

(** X21.  The builders do not hand the same variables to [linearFit],
    whose first input band is the independent variable.  The Landsat and
    the precipitation builder select [time] first, so their fits explain
    the band by time; the soil-moisture and the humidity builder reduce
    the collection as [addTimeBand] left it, with the band first and
    [time] second, so [sm_surface_Slope] and [rh_Slope] are fitted with
    time as the dependent variable. *)
Theorem fits_independent_variable
        (catalog : string -> list string) (goa : ee_geometry) :
  catalog_as_documented catalog ->
  (forall v, In v Landsat.trend_bands ->
     exists e,
       band_expr v (element (Landsat.ls8_with_smi catalog goa
                               Landsat.default_start_date Landsat.default_end_date))
       = Some e
       /\ fits (Landsat.stacked catalog goa Landsat.default_start_date
                                Landsat.default_end_date v)
               ("time", years_since (Property "system:time_start") "2013-03-20")
               (v, e))
  /\ (exists e,
        band_expr "precipitation"
          (element (Chirps.yearly_sums_collection catalog goa
                      Chirps.default_start_date Chirps.default_end_date))
        = Some e
        /\ fits (Chirps.stacked catalog goa Chirps.default_start_date
                                Chirps.default_end_date)
                ("time", years_since (MillisFromYMD Elem (ConstI 1) (ConstI 1))
                                     "1982-01-01")
                ("precipitation", e))
  /\ fits (Smap.soil_moisture_with_time catalog goa
             Smap.default_start_date Smap.default_end_date)
          ("soil_moisture_am", Un (ClipTo goa) (Band "soil_moisture_am"))
          ("time", years_since (Property "system:time_start") "2015-04-01")
  /\ fits (Era5.rh_with_time catalog goa
             Era5.default_start_date Era5.default_end_date)
          ("RH", relative_humidity_expr
                   (Un (ClipTo goa) (Band "dewpoint_temperature_2m"))
                   (Un (ClipTo goa) (Band "temperature_2m")))
          ("time", years_since (Property "system:time_start") "1980-01-01").
Proof.
  intros (HL & HC & HSnd & HS & HEnd & HET & HETd).
  split; [| split; [| split]].
  - intros v Hv.
    destruct (landsat_stacked_bands catalog goa Landsat.default_start_date
                Landsat.default_end_date v HL Hv) as (e & He & Hb).
    exists e. split; [exact He |]. apply fits_of_bands. exact Hb.
  - eexists. split.
    + unfold band_expr. rewrite yearly_sum_bands by exact HC. reflexivity.
    + apply fits_of_bands.
      rewrite (chirps_stacked_sample catalog) by exact HC. reflexivity.
  - apply fits_of_bands. now apply smap_time_element.
  - apply fits_of_bands. now apply era5_time_element.
Qed.

Lemma fits_independent_variable_witness :
  fits (Smap.soil_moisture_with_time sample_catalog sample_goa
          Smap.default_start_date Smap.default_end_date)
       ("soil_moisture_am", Un (ClipTo sample_goa) (Band "soil_moisture_am"))
       ("time", years_since (Property "system:time_start") "2015-04-01").
Proof.
  exact (proj1 (proj2 (proj2 (fits_independent_variable sample_catalog sample_goa
                                sample_catalog_as_documented)))).
Defined.
